(** * Retrieval core of the healthcare RAG application

    A shallow embedding of the retrieval and ranking code of the
    repository (package [rag_llm_app/app]):

    - [config/settings.py]                 (module [Config])
    - [retriever/local_retriever.py]       (module [LocalRetriever])
    - [retriever/retriever.py]             (module [SupabaseRetriever])
    - [retriever/factory.py]               (module [Factory])
    - [embeddings/gemini_embedder.py]      (module [GeminiEmbedder])

    Python exceptions are values of [exn]; a call that may raise returns a
    [result].  Tensors are lists of rows over a scalar type [R] with the
    operations of the class [Scalar], which also holds what the numeric
    libraries leave open (the kernel of the matrix product, the order of
    equal scores); the development is instantiated at exact rationals
    ([Q]) and at IEEE binary32 ([float32], the [torch.float32] of the
    source) with any kernel and any order of equal scores. *)

From Stdlib Require Import ZArith QArith Qreduction Qabs String Ascii List Lia.
From Stdlib Require Import Sorting.Sorted SpecFloat.
From stdpp Require Import base option list gmap strings pretty sorting.

Local Open Scope string_scope.
Local Open Scope Z_scope.

(** ** Python runtime: exceptions and results *)

Inductive exn : Type :=
| ValueError (msg : string)
| RuntimeError (msg : string)
| IndexError (msg : string)
| KeyError (key : string)
| TypeError (msg : string)
| APIError (msg : string).

Inductive result (A : Type) : Type :=
| Ok (a : A)
| Raise (e : exn).

Arguments Ok {A} a.
Arguments Raise {A} e.

#[global] Instance result_ret : MRet result := fun _ a => Ok a.
#[global] Instance result_bind : MBind result := fun _ _ f m =>
  match m with
  | Ok a => f a
  | Raise e => Raise e
  end.
#[global] Instance result_fmap : FMap result := fun _ _ f m =>
  match m with
  | Ok a => Ok (f a)
  | Raise e => Raise e
  end.

(** [try: m except Exception as e: h e] *)
Definition try_except {A} (m : result A) (h : exn -> result A) : result A :=
  match m with
  | Ok a => Ok a
  | Raise e => h e
  end.

Definition is_ok {A} (m : result A) : bool :=
  match m with
  | Ok _ => true
  | Raise _ => false
  end.

(** ** Scalars and the numeric libraries

    The element type of tensors and scores, with what the numeric
    libraries do on it.  [fleb] is [<=] as Python and IEEE 754 evaluate
    it: false whenever an operand is NaN.  [fsortb a b] says that [a]
    ranks at or below [b] in the order by which the libraries sort:
    [torch.topk], and the comparison operators and [ORDER BY] of the
    store, rank NaN above every number and equal to itself.

    Two things [torch] leaves open are fields as well, so that every
    statement about a [Scalar] holds whatever the library does there:
    [fmm_entry A B i j] is the entry [(i, j)] of [torch.mm(A, B.T)], whose
    order of summation and rounding belong to the linear-algebra kernel;
    [ftie input k i j] says whether [torch.topk(input, k)] places
    position [i] before position [j] when their entries rank equal. *)

Class Scalar (R : Type) : Type := {
  fzero : R;
  fone : R;
  fhalf : R;
  fadd : R -> R -> R;
  fmul : R -> R -> R;
  fsub : R -> R -> R;
  fleb : R -> R -> bool;
  fsortb : R -> R -> bool;
  fmm_entry : list (list R) -> list (list R) -> nat -> nat -> R;
  ftie : list R -> Z -> nat -> nat -> bool
}.

(** The comparison [a > b] of the store. *)
Definition fgtb {R} `{Scalar R} (a b : R) : bool := negb (fsortb a b).

(** The laws of the sorting order: it is total and transitive, and on
    numbers it is [<=].  They hold of the rationals and of the binary
    floating-point formats, NaN included. *)
Class ScalarOrder (R : Type) `{Scalar R} : Prop := {
  fsortb_total : forall a b : R, fsortb a b = true \/ fsortb b a = true;
  fsortb_trans : forall a b c : R,
    fsortb a b = true -> fsortb b c = true -> fsortb a c = true;
  fsortb_numbers : forall a b : R,
    fleb a a = true -> fleb b b = true -> fsortb a b = fleb a b
}.

(** The products of the entries of two vectors, summed in index order. *)
Definition sum_of_products {R} (zero : R) (add mul : R -> R -> R)
  (u v : list R) : R :=
  foldl (fun acc p => add acc (mul p.1 p.2)) zero (zip u v).

(** A kernel that sums the products of row [i] of [A] and row [j] of [B]
    in index order, and a selection that leaves equal entries in the
    order of their positions. *)
Definition in_order_entry {R} (zero : R) (add mul : R -> R -> R)
  (A B : list (list R)) (i j : nat) : R :=
  sum_of_products zero add mul (default [] (A !! i)) (default [] (B !! j)).

Definition position_order {R} (input : list R) (k : Z) (i j : nat) : bool :=
  (i <? j)%nat.

(** Exact rationals, kept in lowest terms so that equal scores are equal
    terms; the sums are exact, so the order of summation is immaterial. *)
#[global] Instance Q_scalar : Scalar Q := {|
  fzero := 0%Q;
  fone := 1%Q;
  fhalf := (1 # 2)%Q;
  fadd := fun a b => Qred (a + b);
  fmul := fun a b => Qred (a * b);
  fsub := fun a b => Qred (a - b);
  fleb := Qle_bool;
  fsortb := Qle_bool;
  fmm_entry :=
    in_order_entry 0%Q (fun a b => Qred (a + b)) (fun a b => Qred (a * b));
  ftie := position_order
|}.

(** IEEE 754 binary32, the [torch.float32] of the source: 24 bits of
    precision, maximal exponent 128. *)
Definition float32 : Type := spec_float.

(** The sorting order on floating-point data: the IEEE comparison on
    numbers, NaN above every number and equal to itself. *)
Definition SFsortb (a b : spec_float) : bool :=
  match SFcompare a b with
  | Some Lt | Some Eq => true
  | Some Gt => false
  | None => match b with S754_nan => true | _ => false end
  end.

(** binary32 with a given matrix-product kernel and a given order of
    equal entries: every [torch] build is one of these. *)
Definition float32_scalar
  (mm : list (list float32) -> list (list float32) -> nat -> nat -> float32)
  (tie : list float32 -> Z -> nat -> nat -> bool) : Scalar float32 := {|
  fzero := S754_zero false;
  fone := S754_finite false 8388608 (-23);
  fhalf := S754_finite false 8388608 (-24);
  fadd := SFadd 24 128;
  fmul := SFmul 24 128;
  fsub := SFsub 24 128;
  fleb := SFleb;
  fsortb := SFsortb;
  fmm_entry := mm;
  ftie := tie
|}.

(** The build whose kernel sums in index order and whose selection
    keeps equal entries in position order. *)
Definition float32_in_order : Scalar float32 :=
  float32_scalar
    (in_order_entry (S754_zero false) (SFadd 24 128) (SFmul 24 128))
    position_order.

(** IEEE 754 binary64, the [double precision] in which the store
    computes distances and similarities: 53 bits of precision, maximal
    exponent 1024. *)
Definition float64_in_order : Scalar spec_float := {|
  fzero := S754_zero false;
  fone := S754_finite false 4503599627370496 (-52);
  fhalf := S754_finite false 4503599627370496 (-53);
  fadd := SFadd 53 1024;
  fmul := SFmul 53 1024;
  fsub := SFsub 53 1024;
  fleb := SFleb;
  fsortb := SFsortb;
  fmm_entry := in_order_entry (S754_zero false) (SFadd 53 1024) (SFmul 53 1024);
  ftie := position_order
|}.

(** ** Python values and dictionaries *)

Inductive pyval (R : Type) : Type :=
| PNone
| PStr (s : string)
| PInt (z : Z)
| PFloat (x : R).

Arguments PNone {R}.
Arguments PStr {R} s.
Arguments PInt {R} z.
Arguments PFloat {R} x.

(** A [Dict] of the source: string keys, dynamically typed values. *)
Abbreviation Dict R := (gmap string (pyval R)).

(** [sep.join(items)] *)
Fixpoint join (sep : string) (items : list string) : string :=
  match items with
  | [] => ""
  | [s] => s
  | s :: rest => s +:+ sep +:+ join sep rest
  end.

(** [str.join] raises [TypeError] on an item that is not a [str]. *)
Definition as_str {R} (v : pyval R) : result string :=
  match v with
  | PStr s => Ok s
  | _ => Raise (TypeError "sequence item: expected str instance")
  end.

Definition newline : string := String (ascii_of_nat 10) "".

(** ** Sorting by insertion

    [before x y = true] when [x] may stand before [y]; an element is
    inserted before the first element it may stand before. *)

Section StableSort.
Context {A : Type} (before : A -> A -> bool).

Fixpoint insert_sorted (x : A) (l : list A) : list A :=
  match l with
  | [] => [x]
  | y :: l' => if before x y then x :: y :: l' else y :: insert_sorted x l'
  end.

Definition stable_sort (l : list A) : list A := foldr insert_sorted [] l.

End StableSort.

(** [l[i]] on a list, [d[k]] on a dictionary *)
Definition list_getitem {A} (l : list A) (i : nat) : result A :=
  match l !! i with
  | Some x => Ok x
  | None => Raise (IndexError "list index out of range")
  end.

Definition dict_getitem {R} (d : Dict R) (k : string) : result (pyval R) :=
  match d !! k with
  | Some v => Ok v
  | None => Raise (KeyError k)
  end.

(** [l[i:j]] for [0 <= i] *)
Definition slice {A} (l : list A) (i j : nat) : list A :=
  take (j - i) (drop i l).

(** [range(0, stop, step)] for [0 <= stop] *)
Definition py_range (stop : nat) (step : Z) : result (list nat) :=
  if step =? 0 then Raise (ValueError "range() arg 3 must not be zero")
  else if step <? 0 then Ok []
  else
    let st := Z.to_nat step in
    Ok ((fun j => j * st)%nat <$> seq 0 ((stop + st - 1) / st)%nat).

(** A [for] loop whose body updates a state and may raise. *)
Fixpoint for_loop {A S} (body : S -> A -> result S) (s : S) (l : list A)
  : result S :=
  match l with
  | [] => Ok s
  | x :: l' => s' ← body s x; for_loop body s' l'
  end.

(** [top_k or default]: [None] and [0] are falsy. *)
Definition py_or (x : option Z) (dflt : Z) : Z :=
  match x with
  | None => dflt
  | Some 0 => dflt
  | Some k => k
  end.

(** ** config/settings.py *)

Module Config.

Definition is_space (c : ascii) : bool :=
  match nat_of_ascii c with
  | 9%nat | 10%nat | 11%nat | 12%nat | 13%nat | 32%nat => true
  | _ => false
  end.

Definition is_digit (c : ascii) : bool :=
  (48 <=? nat_of_ascii c)%nat && (nat_of_ascii c <=? 57)%nat.

Definition digit_val (c : ascii) : Z := Z.of_nat (nat_of_ascii c - 48).

Fixpoint lstrip (s : string) : string :=
  match s with
  | String c s' => if is_space c then lstrip s' else s
  | EmptyString => EmptyString
  end.

Fixpoint rstrip (s : string) : string :=
  match s with
  | String c s' =>
    match rstrip s' with
    | EmptyString => if is_space c then EmptyString else String c EmptyString
    | r => String c r
    end
  | EmptyString => EmptyString
  end.

(** Decimal digits, single underscores allowed between digits. *)
Fixpoint parse_digits (s : string) (acc : Z) (after_digit : bool) : option Z :=
  match s with
  | EmptyString => if after_digit then Some acc else None
  | String c s' =>
    if is_digit c then parse_digits s' (10 * acc + digit_val c) true
    else if Ascii.eqb c "_" && after_digit then
      match s' with
      | EmptyString => None
      | _ => parse_digits s' acc false
      end
    else None
  end.

(** [int(s)] on an ASCII string: surrounding blanks, an optional sign,
    decimal digits. *)
Definition py_int (s : string) : result Z :=
  let body := rstrip (lstrip s) in
  let parsed :=
    match body with
    | String "-" d => Z.opp <$> parse_digits d 0 false
    | String "+" d => parse_digits d 0 false
    | d => parse_digits d 0 false
    end in
  match parsed with
  | Some z => Ok z
  | None => Raise (ValueError "invalid literal for int() with base 10")
  end.

(** [os.getenv(name, dflt)] *)
Definition getenv (env : gmap string string) (name dflt : string) : string :=
  default dflt (env !! name).

(** The attributes of [Settings] that the retrieval core reads; the
    class has others, each read from the environment in the same way. *)
Record Settings : Type := {
  SUPABASE_URL : string;
  SUPABASE_SERVICE_ROLE_KEY : string;
  GEMINI_EMBEDDING_MODEL : string;
  GEMINI_EMBEDDING_DIMENSION : Z;
  RETRIEVER_MODE : string;
  TOP_K_RESULTS : Z
}.

(** The class body of [Settings], evaluated once at import, on the
    process environment [env]. *)
Definition load (env : gmap string string) : result Settings :=
  dim ← py_int (getenv env "GEMINI_EMBEDDING_DIMENSION" "768");
  k ← py_int (getenv env "TOP_K_RESULTS" "5");
  mret {|
    SUPABASE_URL := getenv env "SUPABASE_URL" "";
    SUPABASE_SERVICE_ROLE_KEY := getenv env "SUPABASE_SERVICE_ROLE_KEY" "";
    GEMINI_EMBEDDING_MODEL :=
      getenv env "GEMINI_EMBEDDING_MODEL" "models/embedding-001";
    GEMINI_EMBEDDING_DIMENSION := dim;
    RETRIEVER_MODE := getenv env "RETRIEVER_MODE" "local";
    TOP_K_RESULTS := k
  |}.

End Config.

(** ** The parts of torch that the retriever calls *)

Module Torch.
Section WithScalar.
Context {R : Type} `{Scalar R}.

(** A two-dimensional tensor of shape [(length trows, ncols)]. *)
Record Tensor : Type := {
  ncols : nat;
  trows : list (list R)
}.

(** [len(E)] *)
Definition len (E : Tensor) : nat := length (trows E).

(** [t.unsqueeze(0)] on a one-dimensional tensor *)
Definition unsqueeze0 (v : list R) : Tensor :=
  {| ncols := length v; trows := [v] |}.

(** The dot product, the products summed in index order and nothing
    divided by a norm.  Over exact scalars it is the entry that
    [torch.mm] computes; in floating point a kernel may sum in another
    order and round differently. *)
Definition dot (u v : list R) : R := sum_of_products fzero fadd fmul u v.

(** The error of a matrix product of a [r1 x c1] by a [r2 x c2] tensor
    with [c1 <> r2], with the message of [torch]. *)
Definition shape_mismatch (r1 c1 r2 c2 : nat) : exn :=
  RuntimeError ("mat1 and mat2 shapes cannot be multiplied ("
                +:+ pretty r1 +:+ "x" +:+ pretty c1 +:+ " and "
                +:+ pretty r2 +:+ "x" +:+ pretty c2 +:+ ")").

(** [torch.mm(A, B.T)]: entry [(i, j)] is what the kernel computes from
    row [i] of [A] and row [j] of [B]; [B.T] has one row a column of
    [B]. *)
Definition mm_T (A B : Tensor) : result Tensor :=
  if decide (ncols A = ncols B) then
    Ok {| ncols := len B;
          trows :=
            (fun i => (fun j => fmm_entry (trows A) (trows B) i j)
                        <$> seq 0 (len B))
              <$> seq 0 (len A) |}
  else Raise (shape_mismatch (len A) (ncols A) (ncols B) (len B)).

(** [t[0]] *)
Definition row0 (T : Tensor) : result (list R) :=
  match trows T with
  | r :: _ => Ok r
  | [] => Raise (IndexError "index 0 is out of bounds for dimension 0 with size 0")
  end.

(** The scores of a query against an index: the row of
    [torch.mm(query.unsqueeze(0), E.T)], one entry a stored vector. *)
Definition scores (q : list R) (E : Tensor) : list R :=
  (fun j => fmm_entry [q] (trows E) 0 j) <$> seq 0 (len E).

(** [a] stands before [b] in the selection [torch.topk(input, k)]: its
    entry ranks above that of [b], or they rank equal and the library
    puts its position first. *)
Definition score_before (input : list R) (k : Z) (a b : R * nat) : bool :=
  if fsortb a.1 b.1 then fsortb b.1 a.1 && ftie input k a.2 b.2 else true.

(** All entries with their positions, highest rank first. *)
Definition ranked (input : list R) (k : Z) : list (R * nat) :=
  stable_sort (score_before input k) (zip input (seq 0 (length input))).

(** [torch.topk(input, k)] on a one-dimensional tensor: the [k] entries
    of highest rank, highest first, with their positions.  [k] outside
    [0 .. len(input)] is refused.  NaN ranks above every number; the
    order of entries of equal rank is the library's. *)
Definition topk (input : list R) (k : Z) : result (list R * list nat) :=
  if (k <? 0) || (Z.of_nat (length input) <? k) then
    Raise (RuntimeError "selected index k out of range")
  else
    let best := take (Z.to_nat k) (ranked input k) in
    Ok (best.*1, best.*2).

End WithScalar.
Arguments Tensor R : clear implicits.
End Torch.

(** What a constructor or the factory does to the outside world. *)
Inductive event : Type :=
| LogInfo (msg : string)
| CudaIsAvailable
| TensorToDevice (device : string)
| CreateClient (url key : string).

(** Logging touches neither the network nor a model or tensor. *)
Definition touches_resource (ev : event) : bool :=
  match ev with
  | LogInfo _ => false
  | _ => true
  end.

(** ** retriever/local_retriever.py *)

Module LocalRetriever.
Section WithScalar.
Context {R : Type} `{Scalar R}.
Variable settings : Config.Settings.

(** The attributes of a [LocalRetriever]; [None] is Python's [None]. *)
Record t : Type := {
  embeddings : option (Torch.Tensor R);
  chunks : option (list (Dict R))
}.

(** [LocalRetriever(embeddings, chunks)]; moving a tensor to the device
    keeps its entries. *)
Definition init (embeddings : option (Torch.Tensor R))
  (chunks : option (list (Dict R))) : t :=
  {| embeddings := embeddings; chunks := chunks |}.

Definition init_events (cuda : bool) (embeddings : option (Torch.Tensor R))
  : list event :=
  let device := if cuda then "cuda" else "cpu" in
  CudaIsAvailable ::
  match embeddings with
  | Some E =>
    [TensorToDevice device;
     LogInfo ("LocalRetriever initialized with " +:+ pretty (Torch.len E)
              +:+ " embeddings on " +:+ device)]
  | None => []
  end.

Definition load_embeddings (self : t) (embeddings : Torch.Tensor R)
  (chunks : list (Dict R)) : t :=
  {| embeddings := Some embeddings; chunks := Some chunks |}.

(** The body of the loop over [zip(scores, indices)]. *)
Definition make_document (C : list (Dict R)) (p : R * nat)
  : result (Dict R) :=
  doc ← list_getitem C p.2;
  mret (<["id" := PInt (Z.of_nat p.2)]> (<["similarity" := PFloat p.1]> doc)).

(** [search(query_embedding, top_k)] for a [query_embedding] that is a
    list of floats; [top_k = None] is the omitted argument. *)
Definition search (self : t) (query_embedding : list R) (top_k : option Z)
  : result (list (Dict R)) :=
  match embeddings self, chunks self with
  | Some E, Some C =>
    let top_k := py_or top_k (Config.TOP_K_RESULTS settings) in
    try_except
      (let query_tensor := Torch.unsqueeze0 query_embedding in
       dot_scores ← Torch.mm_T query_tensor E;
       dot_scores ← Torch.row0 dot_scores;
       '(scores, indices) ← Torch.topk dot_scores top_k;
       mapM (make_document C) (zip scores indices))
      (fun e => Raise e)
  | _, _ =>
    Raise (ValueError "Embeddings not loaded. Call load_embeddings() first.")
  end.

(** [doc.get('sentence_chunk', doc.get('chunk_text', ''))] *)
Definition context_item (doc : Dict R) : pyval R :=
  default (default (PStr "") (doc !! "chunk_text")) (doc !! "sentence_chunk").

Definition format_context (documents : list (Dict R)) : result string :=
  match documents with
  | [] => Ok "No relevant context found."
  | _ =>
    let context_items := context_item <$> documents in
    items ← mapM as_str context_items;
    mret ("- " +:+ join (newline +:+ "- ") items)
  end.

End WithScalar.
Arguments t R : clear implicits.
End LocalRetriever.

(** ** retriever/retriever.py *)

Module SupabaseRetriever.
Section WithScalar.
Context {R : Type} `{Scalar R}.
Variable settings : Config.Settings.

(** The distance operator [<=>] of the store's vector extension. *)
Variable distance : list R -> list R -> R.

(** A row of the table [documents]. *)
Record Row : Type := {
  id : Z;
  page_number : Z;
  chunk_text : string;
  chunk_char_count : Z;
  chunk_word_count : Z;
  chunk_token_count : R;
  embedding : list R
}.

(** The store behind a client: its table, and the failure with which a
    call ends when the store cannot be reached. *)
Record Client : Type := {
  documents : list Row;
  outage : option exn
}.

Record t : Type := { client : Client }.

Definition similarity (query_embedding : list R) (d : Row) : R :=
  fsub fone (distance (embedding d) query_embedding).

(** [ORDER BY documents.embedding <=> query_embedding] *)
Definition nearer (query_embedding : list R) (a b : Row) : bool :=
  fsortb (distance (embedding a) query_embedding)
         (distance (embedding b) query_embedding).

(** One row of the [RETURNS TABLE], as the client decodes it. *)
Definition to_record (query_embedding : list R) (d : Row) : Dict R :=
  <["id" := PInt (id d)]>
  (<["page_number" := PInt (page_number d)]>
  (<["chunk_text" := PStr (chunk_text d)]>
  (<["chunk_char_count" := PInt (chunk_char_count d)]>
  (<["chunk_word_count" := PInt (chunk_word_count d)]>
  (<["chunk_token_count" := PFloat (chunk_token_count d)]>
  (<["similarity" := PFloat (similarity query_embedding d)]> ∅)))))).

(** The SQL function [match_documents] of [create_search_function]:
    [SELECT ... WHERE 1 - dist > match_threshold ORDER BY dist
    LIMIT match_count].  The rows that pass the [WHERE] clause, in the
    order of [ORDER BY] (rows at equal distance in table order), cut by
    [LIMIT]. *)
Definition select_rows (table : list Row) (query_embedding : list R)
  (match_threshold : R) (match_count : nat) : list Row :=
  let selected :=
    filter (fun d => fgtb (similarity query_embedding d) match_threshold = true)
      table in
  let ordered := stable_sort (nearer query_embedding) selected in
  take match_count ordered.

(** [<=>] is defined on vectors of one dimension. *)
Definition same_dimensions (table : list Row) (query_embedding : list R)
  : bool :=
  forallb (fun d => (length (embedding d) =? length query_embedding)%nat) table.

Definition match_documents (table : list Row) (query_embedding : list R)
  (match_threshold : R) (match_count : Z) : result (list (Dict R)) :=
  if match_count <? 0 then
    Raise (APIError "LIMIT must not be negative")
  else if match_count =? 0 then
    Ok []
  else if negb (same_dimensions table query_embedding) then
    Raise (APIError "different vector dimensions")
  else
    Ok (to_record query_embedding
          <$> select_rows table query_embedding match_threshold
                (Z.to_nat match_count)).

(** [self.client.rpc('match_documents', {...}).execute().data] *)
Definition rpc_match_documents (c : Client) (query_embedding : list R)
  (match_threshold : R) (match_count : Z) : result (list (Dict R)) :=
  match outage c with
  | Some e => Raise e
  | None =>
    match_documents (documents c) query_embedding match_threshold match_count
  end.

(** [SupabaseRetriever()] with [create_client] given. *)
Definition init (create_client : string -> string -> result Client)
  : result t :=
  c ← create_client (Config.SUPABASE_URL settings)
                    (Config.SUPABASE_SERVICE_ROLE_KEY settings);
  mret {| client := c |}.

Definition init_events : list event :=
  [CreateClient (Config.SUPABASE_URL settings)
                (Config.SUPABASE_SERVICE_ROLE_KEY settings);
   LogInfo "SupabaseRetriever initialized"].

(** [search(query_embedding, top_k, similarity_threshold)]; [None] stands
    for an omitted argument. *)
Definition search (self : t) (query_embedding : list R) (top_k : option Z)
  (similarity_threshold : option R) : result (list (Dict R)) :=
  let similarity_threshold := default fhalf similarity_threshold in
  let top_k := py_or top_k (Config.TOP_K_RESULTS settings) in
  try_except
    (rpc_match_documents (client self) query_embedding similarity_threshold
       top_k)
    (fun e => Raise e).

Definition format_context (documents : list (Dict R)) : result string :=
  match documents with
  | [] => Ok "No relevant context found."
  | _ =>
    context_items ← mapM (fun doc => dict_getitem doc "chunk_text") documents;
    items ← mapM as_str context_items;
    mret ("- " +:+ join (newline +:+ "- ") items)
  end.

End WithScalar.
Arguments Row R : clear implicits.
Arguments Client R : clear implicits.
Arguments t R : clear implicits.
End SupabaseRetriever.

(** ** retriever/factory.py *)

Module Factory.
Section WithScalar.
Context {R : Type} `{Scalar R}.
Variable settings : Config.Settings.
Variable cuda : bool.
Variable create_client : string -> string -> result (SupabaseRetriever.Client R).

Inductive Retriever : Type :=
| Local (r : LocalRetriever.t R)
| Supabase (r : SupabaseRetriever.t R).

(** [get_retriever(mode, embeddings, chunks)]: the events of the call, in
    order, and its outcome.  A constructor that raises logs nothing. *)
Definition get_retriever (mode : string)
  (embeddings : option (Torch.Tensor R)) (chunks : option (list (Dict R)))
  : list event * result Retriever :=
  let entry := LogInfo ("Creating retriever in mode: " +:+ mode) in
  if String.eqb mode "local" then
    (entry :: LocalRetriever.init_events cuda embeddings,
     Ok (Local (LocalRetriever.init embeddings chunks)))
  else if String.eqb mode "supabase" then
    let made := SupabaseRetriever.init settings create_client in
    (entry :: (if is_ok made then SupabaseRetriever.init_events settings
               else take 1 (SupabaseRetriever.init_events settings)),
     Supabase <$> made)
  else
    ([entry],
     Raise (ValueError ("Invalid retriever mode: " +:+ mode
                        +:+ ". Must be 'local' or 'supabase'"))).

(** The default of the parameter [mode]. *)
Definition default_mode : string := "supabase".

End WithScalar.
Arguments Retriever R : clear implicits.
End Factory.

(** ** embeddings/gemini_embedder.py *)

Module GeminiEmbedder.
Section WithScalar.
Context {R : Type} `{Scalar R}.

(** [genai.embed_content(model, content, task_type)['embedding']]: the
    remote embedding call, which may raise. *)
Variable embed_content : string -> string -> result (list R).

Record t : Type := {
  model : string;
  embedding_dimension : Z
}.

(** [np.zeros(n, dtype=np.float32)] *)
Definition np_zeros (n : Z) : result (list R) :=
  if n <? 0 then Raise (ValueError "negative dimensions are not allowed")
  else Ok (replicate (Z.to_nat n) fzero).

Definition embed_text (self : t) (text : string) : result (list R) :=
  try_except (embed_content (model self) text) (fun e => Raise e).

(** The body of the inner loop of [embed_chunks]: a failure of
    [embed_text] is caught and a zero vector appended. *)
Definition embed_chunk_step (self : t) (embeddings : list (list R))
  (chunk : string) : result (list (list R)) :=
  try_except
    (embedding ← embed_text self chunk;
     mret (embeddings ++ [embedding])%list)
    (fun _ =>
       fallback ← np_zeros (embedding_dimension self);
       mret (embeddings ++ [fallback])%list).

Definition embed_chunks (self : t) (chunks : list string) (batch_size : Z)
  : result (list (list R)) :=
  let total := length chunks in
  starts ← py_range total batch_size;
  for_loop
    (fun embeddings i =>
       let batch := slice chunks i (i + Z.to_nat batch_size) in
       for_loop (embed_chunk_step self) embeddings batch)
    [] starts.

(** The default of the parameter [batch_size]. *)
Definition default_batch_size : Z := 100.

End WithScalar.
End GeminiEmbedder.

(** ** Concrete indexes and stores *)

Module Scenario.

(** The settings of an empty environment. *)
Definition settings : Config.Settings := {|
  Config.SUPABASE_URL := "";
  Config.SUPABASE_SERVICE_ROLE_KEY := "";
  Config.GEMINI_EMBEDDING_MODEL := "models/embedding-001";
  Config.GEMINI_EMBEDDING_DIMENSION := 768;
  Config.RETRIEVER_MODE := "local";
  Config.TOP_K_RESULTS := 5
|}.

Definition passage {R} (text : string) (page : Z) : Dict R :=
  <["sentence_chunk" := PStr text]> (<["page_number" := PInt page]> ∅).

(** Three passages with the vectors [1,0], [0,1] and [0.7,0.7]. *)
Definition index3 : Torch.Tensor Q :=
  {| Torch.ncols := 2;
     Torch.trows := [[1; 0]; [0; 1]; [7 # 10; 7 # 10]]%Q |}.

Definition chunks3 {R} : list (Dict R) :=
  [passage "v1" 1; passage "v2" 2; passage "v3" 3].

Definition retriever3 : LocalRetriever.t Q :=
  LocalRetriever.init (Some index3) (Some chunks3).

(** The binary32 numbers 1, 2 and the one nearest to 0.7,
    11744051 / 2^24. *)
Definition f32_1 : float32 := S754_finite false 8388608 (-23).
Definition f32_2 : float32 := S754_finite false 8388608 (-22).
Definition f32_0_7 : float32 := S754_finite false 11744051 (-24).



(** Three passages whose vectors are [NaN], [1] and [2]. *)
Definition index_nan : Torch.Tensor float32 :=
  {| Torch.ncols := 1; Torch.trows := [[S754_nan]; [f32_1]; [f32_2]] |}.


(** Five passages. *)
Definition index5 : Torch.Tensor Q :=
  {| Torch.ncols := 2;
     Torch.trows :=
       [[1; 0]; [0; 1]; [7 # 10; 7 # 10]; [1 # 2; 0]; [0; 1 # 2]]%Q |}.

Definition chunks5 : list (Dict Q) :=
  [passage "v1" 1; passage "v2" 2; passage "v3" 3; passage "v4" 4;
   passage "v5" 5].

Definition retriever5 : LocalRetriever.t Q :=
  LocalRetriever.init (Some index5) (Some chunks5).


(** A store of 1536-dimensional unit vectors in the plane of the first
    two axes.  On unit vectors the cosine distance of the store is
    [1 - u.v]; [unit_distance] is used on unit vectors only. *)
Definition along (x y : Q) : list Q := x :: y :: replicate 1534 0%Q.

Definition unit_distance (u v : list Q) : Q := Qred (1 - Torch.dot u v).

Definition row (n : Z) (text : string) (e : list Q) : SupabaseRetriever.Row Q :=
  {| SupabaseRetriever.id := n;
     SupabaseRetriever.page_number := n;
     SupabaseRetriever.chunk_text := text;
     SupabaseRetriever.chunk_char_count := Z.of_nat (String.length text);
     SupabaseRetriever.chunk_word_count := 1;
     SupabaseRetriever.chunk_token_count := (1 # 4)%Q;
     SupabaseRetriever.embedding := e |}.

Definition table : list (SupabaseRetriever.Row Q) :=
  [row 1 "far" (along (3 # 5) (4 # 5));
   row 2 "near" (along 1 0);
   row 3 "orthogonal" (along 0 1);
   row 4 "close" (along (4 # 5) (3 # 5))].

Definition store : SupabaseRetriever.t Q :=
  {| SupabaseRetriever.client :=
       {| SupabaseRetriever.documents := table;
          SupabaseRetriever.outage := None |} |}.

(** A store in which no passage is similar to the query [along 1 0]:
    the cosines are 0 and 5/13. *)
Definition store_unrelated : SupabaseRetriever.t Q :=
  {| SupabaseRetriever.client :=
       {| SupabaseRetriever.documents :=
            [row 1 "a" (along 0 1); row 2 "b" (along (5 # 13) (12 # 13))];
          SupabaseRetriever.outage := None |} |}.

(** The vectors that the scenarios store and query with
    [unit_distance]. *)
Definition unit_vectors : list (list Q) :=
  [along 1 0; along 0 1; along (3 # 5) (4 # 5); along (4 # 5) (3 # 5);
   along (5 # 13) (12 # 13)].







(** An embedding service that fails on the chunk ["b"]. *)
Definition flaky_embed_content (model content : string) : result (list Q) :=
  if String.eqb content "b" then Raise (APIError "503 service unavailable")
  else Ok [Z.of_nat (String.length content) # 1; 1; 1]%Q.

Definition embedder : GeminiEmbedder.t :=
  {| GeminiEmbedder.model := "models/embedding-001";
     GeminiEmbedder.embedding_dimension := 3 |}.

End Scenario.

(** ** ingestion/chunker.py *)

Module TextChunker.

(** [[input_list[i:i + slice_size] for i in range(0, len(input_list),
    slice_size)]] *)
Definition split_list {A} (input_list : list A) (slice_size : Z)
  : result (list (list A)) :=
  starts ← py_range (length input_list) slice_size;
  mret (fmap (M:=list)
          (fun i => slice input_list i (i + Z.to_nat slice_size)) starts).

End TextChunker.

(** ** embeddings/embedder.py *)

Module OpenAIEmbedder.
Section WithScalar.
Context {R : Type}.

(** [client.embeddings.create(input=batch, model=model)], read as the
    embeddings of [response.data] in order; the call may raise. *)
Variable embeddings_create : string -> list string -> result (list (list R)).

Record t : Type := { model : string }.

(** The body of the loop of [embed_chunks] over the batch that starts at
    [i]: a failure is logged and raised again. *)
Definition embed_batch_step (self : t) (chunks : list string) (batch_size : Z)
  (all_embeddings : list (list R)) (i : nat) : result (list (list R)) :=
  let batch := slice chunks i (i + Z.to_nat batch_size) in
  try_except
    (batch_embeddings ← embeddings_create (model self) batch;
     mret (all_embeddings ++ batch_embeddings)%list)
    (fun e => Raise e).

Definition embed_chunks (self : t) (chunks : list string) (batch_size : Z)
  : result (list (list R)) :=
  starts ← py_range (length chunks) batch_size;
  for_loop (embed_batch_step self chunks batch_size) [] starts.

End WithScalar.
End OpenAIEmbedder.

(** ** vectorstore/vectordb.py *)

Module SupabaseVectorStore.
Section WithScalar.
Context {R : Type}.

(** An element of [data_to_insert]: a dictionary with these six keys. *)
Record payload : Type := {
  page_number : pyval R;
  chunk_text : pyval R;
  chunk_char_count : pyval R;
  chunk_word_count : pyval R;
  chunk_token_count : pyval R;
  embedding : list R
}.

(** [self.client.table(table_name).insert(batch).execute()]: the store
    refuses a batch with an error, or takes it. *)
Variable refuses : list payload -> option exn.

(** The rows the table has taken so far. *)
#[local] Abbreviation store := (list payload).

(** The dictionary built for one pair of [zip(chunks, embeddings)]; a
    missing key raises [KeyError]. *)
Definition to_payload (p : Dict R * list R) : result payload :=
  page ← dict_getitem p.1 "page_number";
  text ← dict_getitem p.1 "sentence_chunk";
  chars ← dict_getitem p.1 "chunk_char_count";
  words ← dict_getitem p.1 "chunk_word_count";
  tokens ← dict_getitem p.1 "chunk_token_count";
  mret {| page_number := page; chunk_text := text; chunk_char_count := chars;
          chunk_word_count := words; chunk_token_count := tokens;
          embedding := p.2 |}.

(** The loop over the batches: the table after the loop, and how it
    ended. *)
Fixpoint insert_batches (data : list payload) (table : store)
  (starts : list nat) : store * result bool :=
  match starts with
  | [] => (table, Ok true)
  | i :: rest =>
    let batch := slice data i (i + 100) in
    match refuses batch with
    | Some e => (table, Raise e)
    | None => insert_batches data (table ++ batch)%list rest
    end
  end.

(** [insert_chunks(chunks, embeddings)] on a table: the table afterwards
    and the outcome. *)
Definition insert_chunks (table : store) (chunks : list (Dict R))
  (embeddings : list (list R)) : store * result bool :=
  if negb (length chunks =? length embeddings)%nat then
    (table,
     Raise (ValueError "Number of chunks must match number of embeddings"))
  else
    match mapM to_payload (zip chunks embeddings) with
    | Raise e => (table, Raise e)
    | Ok data_to_insert =>
      match py_range (length data_to_insert) 100 with
      | Raise e => (table, Raise e)
      | Ok starts => insert_batches data_to_insert table starts
      end
    end.

End WithScalar.
Arguments payload R : clear implicits.
End SupabaseVectorStore.

(** ** config/settings.py, the backend selection and [validate] *)

Module AppSettings.

(** [Settings] with the attributes that [validate] and the
    backend-dependent properties read. *)
Record t : Type := {
  core : Config.Settings;
  MODEL_BACKEND : string;
  OPENAI_API_KEY : string;
  GEMINI_API_KEY : string;
  LOCAL_EMBEDDING_MODEL : string;
  LOCAL_EMBEDDING_DIMENSION : Z;
  API_EMBEDDING_MODEL : string;
  API_EMBEDDING_DIMENSION : Z;
  LOCAL_LLM_MODEL : string;
  API_LLM_MODEL : string;
  GEMINI_LLM_MODEL : string
}.

Definition EMBEDDING_MODEL (self : t) : string :=
  if String.eqb (MODEL_BACKEND self) "local" then LOCAL_EMBEDDING_MODEL self
  else if String.eqb (MODEL_BACKEND self) "api" then API_EMBEDDING_MODEL self
  else Config.GEMINI_EMBEDDING_MODEL (core self).

Definition EMBEDDING_DIMENSION (self : t) : Z :=
  if String.eqb (MODEL_BACKEND self) "local" then LOCAL_EMBEDDING_DIMENSION self
  else if String.eqb (MODEL_BACKEND self) "api" then API_EMBEDDING_DIMENSION self
  else Config.GEMINI_EMBEDDING_DIMENSION (core self).

Definition LLM_MODEL (self : t) : string :=
  if String.eqb (MODEL_BACKEND self) "local" then LOCAL_LLM_MODEL self
  else if String.eqb (MODEL_BACKEND self) "api" then API_LLM_MODEL self
  else GEMINI_LLM_MODEL self.

(** The list [required_fields] that [validate] builds. *)
Definition required_fields (self : t) : list (string * string) :=
  ((if String.eqb (Config.RETRIEVER_MODE (core self)) "supabase" then
      [("SUPABASE_URL", Config.SUPABASE_URL (core self));
       ("SUPABASE_SERVICE_ROLE_KEY",
        Config.SUPABASE_SERVICE_ROLE_KEY (core self))]
    else []) ++
   (if String.eqb (MODEL_BACKEND self) "api" then
      [("OPENAI_API_KEY", OPENAI_API_KEY self)]
    else []) ++
   (if String.eqb (MODEL_BACKEND self) "gemini" then
      [("GEMINI_API_KEY", GEMINI_API_KEY self)]
    else []))%list.

(** [[field for field, value in required_fields if not value]] *)
Definition missing_fields (self : t) : list string :=
  (filter (fun p => p.2 = "") (required_fields self)).*1.

Definition validate (self : t) : result bool :=
  match missing_fields self with
  | _ :: _ =>
    Raise (ValueError ("Missing required environment variables: "
                       +:+ join ", " (missing_fields self)))
  | [] =>
    if negb (bool_decide (MODEL_BACKEND self ∈ ["local"; "api"; "gemini"])) then
      Raise (ValueError ("MODEL_BACKEND must be 'local', 'api', or 'gemini', got: "
                         +:+ MODEL_BACKEND self))
    else if negb (bool_decide (Config.RETRIEVER_MODE (core self)
                                 ∈ ["local"; "supabase"])) then
      Raise (ValueError ("RETRIEVER_MODE must be 'local' or 'supabase', got: "
                         +:+ Config.RETRIEVER_MODE (core self)))
    else Ok true
  end.

End AppSettings.

(** ** embeddings/factory.py and the constructors it calls *)

Module EmbedderFactory.
Section WithConstructors.

(** [LocalEmbedder()], which loads a sentence-transformers model, and
    [OpenAI(api_key=...)]: either may raise. *)
Variable LocalEmbedder : Type.
Variable local_embedder_init : result LocalEmbedder.
Variable openai_client : string -> result unit.

(** [model or dflt] on an optional string: [None] and [''] are falsy. *)
Definition str_or (model : option string) (dflt : string) : string :=
  match model with
  | None => dflt
  | Some "" => dflt
  | Some m => m
  end.

(** [OpenAIEmbedder(model)] *)
Definition openai_embedder_init (settings : AppSettings.t)
  (model : option string) : result OpenAIEmbedder.t :=
  _ ← openai_client (AppSettings.OPENAI_API_KEY settings);
  mret {| OpenAIEmbedder.model :=
            str_or model (AppSettings.EMBEDDING_MODEL settings) |}.

(** [GeminiEmbedder(model)] *)
Definition gemini_embedder_init (settings : AppSettings.t)
  (model : option string) : result GeminiEmbedder.t :=
  if String.eqb (AppSettings.GEMINI_API_KEY settings) "" then
    Raise (ValueError "GEMINI_API_KEY not found in environment variables")
  else
    Ok {| GeminiEmbedder.model :=
            str_or model
              (Config.GEMINI_EMBEDDING_MODEL (AppSettings.core settings));
          GeminiEmbedder.embedding_dimension :=
            Config.GEMINI_EMBEDDING_DIMENSION (AppSettings.core settings) |}.

Inductive Embedder : Type :=
| Local (e : LocalEmbedder)
| OpenAI (e : OpenAIEmbedder.t)
| Gemini (e : GeminiEmbedder.t).

Definition get_embedder (settings : AppSettings.t) : result Embedder :=
  let backend := AppSettings.MODEL_BACKEND settings in
  if String.eqb backend "local" then Local <$> local_embedder_init
  else if String.eqb backend "api" then
    OpenAI <$> openai_embedder_init settings None
  else if String.eqb backend "gemini" then
    Gemini <$> gemini_embedder_init settings None
  else
    Raise (ValueError ("Invalid MODEL_BACKEND: " +:+ backend
                       +:+ ". Must be 'local', 'api', or 'gemini'")).

End WithConstructors.
End EmbedderFactory.

(** ** llm: the generators, their [generate] and llm/factory.py *)

Module Generator.

(** The parameters of a method after [self]: those without a default and
    those with one. *)
Record signature : Type := {
  qualname : string;
  required : list string;
  optional : list string
}.

Definition quoted (name : string) : string := "'" +:+ name +:+ "'".

(** ['a' and 'b'], ['a', 'b', and 'c'] *)
Definition names (missing : list string) : string :=
  match reverse missing with
  | [] => ""
  | [a] => quoted a
  | [b; a] => quoted a +:+ " and " +:+ quoted b
  | z :: rest =>
    join ", " (quoted <$> reverse rest) +:+ ", and " +:+ quoted z
  end.

(** Python's binding of a call [f(k1=v1, ..., kn=vn)] whose arguments are
    all given by keyword: a keyword that names no parameter is refused
    first, then a parameter without default that no keyword binds. *)
Definition bind_keywords (f : signature) (kwargs : list (string * string))
  : result (gmap string string) :=
  match filter (fun kv => kv.1 ∉ (required f ++ optional f)%list) kwargs with
  | (k, _) :: _ =>
    Raise (TypeError (qualname f +:+ "() got an unexpected keyword argument "
                      +:+ quoted k))
  | [] =>
    match filter (fun p => p ∉ kwargs.*1) (required f) with
    | [] => Ok (list_to_map kwargs)
    | [p] =>
      Raise (TypeError (qualname f
                        +:+ "() missing 1 required positional argument: "
                        +:+ quoted p))
    | missing =>
      Raise (TypeError (qualname f +:+ "() missing "
                        +:+ pretty (length missing)
                        +:+ " required positional arguments: "
                        +:+ names missing))
    end
  end.

(** The three generator classes. *)
Inductive Generator : Type :=
| LocalLLM
| OpenAI
| Gemini.

(** [def generate(self, query, context, max_tokens=None,
    format_answer=True)], [def generate(self, query, context,
    max_tokens=None)] and [def generate(self, prompt, context=None)]. *)
Definition generate_signature (g : Generator) : signature :=
  match g with
  | LocalLLM =>
    {| qualname := "LocalLLMGenerator.generate";
       required := ["query"; "context"];
       optional := ["max_tokens"; "format_answer"] |}
  | OpenAI =>
    {| qualname := "OpenAIGenerator.generate";
       required := ["query"; "context"];
       optional := ["max_tokens"] |}
  | Gemini =>
    {| qualname := "GeminiGenerator.generate";
       required := ["prompt"];
       optional := ["context"] |}
  end.

Section WithModels.

(** The bodies of the three [generate] methods, on their bound
    parameters (a parameter that is not bound has its default): each
    builds a prompt and asks its model, and may raise. *)
Variable local_generate : gmap string string -> result string.
Variable openai_generate : gmap string string -> result string.
Variable gemini_generate : gmap string string -> result string.

(** [generator.generate(k1=v1, ..., kn=vn)] *)
Definition generate (g : Generator) (kwargs : list (string * string))
  : result string :=
  args ← bind_keywords (generate_signature g) kwargs;
  match g with
  | LocalLLM => local_generate args
  | OpenAI => openai_generate args
  | Gemini => gemini_generate args
  end.

(** The constructors: [LocalLLMGenerator()] loads a tokenizer and a
    model, [OpenAI(api_key=...)] and [genai.GenerativeModel(model)] make
    clients; each may raise. *)
Variable local_llm_init : result unit.
Variable openai_client : string -> result unit.
Variable gemini_model : string -> result unit.

(** [GeminiGenerator()] *)
Definition gemini_generator_init (settings : AppSettings.t)
  : result Generator :=
  if String.eqb (AppSettings.GEMINI_API_KEY settings) "" then
    Raise (ValueError "GEMINI_API_KEY not found in environment variables")
  else
    _ ← gemini_model (AppSettings.GEMINI_LLM_MODEL settings);
    mret Gemini.

(** [get_generator()] of llm/factory.py *)
Definition get_generator (settings : AppSettings.t) : result Generator :=
  let backend := AppSettings.MODEL_BACKEND settings in
  if String.eqb backend "local" then
    _ ← local_llm_init; mret LocalLLM
  else if String.eqb backend "api" then
    _ ← openai_client (AppSettings.OPENAI_API_KEY settings); mret OpenAI
  else if String.eqb backend "gemini" then
    gemini_generator_init settings
  else
    Raise (ValueError ("Invalid MODEL_BACKEND: " +:+ backend
                       +:+ ". Must be 'local', 'api', or 'gemini'")).

End WithModels.
End Generator.

(** ** pipeline/rag_pipeline.py *)

Module RAGPipeline.
Section WithServices.
Context {R : Type} `{Scalar R}.
Variable settings : Config.Settings.
Variable distance : list R -> list R -> R.

(** [self.embedder.embed_text(question)], the embedding as the list of
    its entries; the call may raise. *)
Variable embed_text : string -> result (list R).

Variable local_generate : gmap string string -> result string.
Variable openai_generate : gmap string string -> result string.
Variable gemini_generate : gmap string string -> result string.

(** The retriever and the generator of a pipeline. *)
Record t : Type := {
  retriever : Factory.Retriever R;
  generator : Generator.Generator
}.

(** What [query] returns: the answer, or with [return_context] the
    dictionary of ['answer'], ['context'] and ['context_text']. *)
Inductive answer : Type :=
| Answer (text : string)
| WithContext (text : string) (context : list (Dict R))
    (context_text : string).

(** [self.retriever.search(query_embedding=..., top_k=top_k)] *)
Definition search (self : t) (query_embedding : list R) (top_k : option Z)
  : result (list (Dict R)) :=
  match retriever self with
  | Factory.Local r => LocalRetriever.search settings r query_embedding top_k
  | Factory.Supabase r =>
    SupabaseRetriever.search settings distance r query_embedding top_k None
  end.

(** [self.retriever.format_context(documents)] *)
Definition format_context (self : t) (documents : list (Dict R))
  : result string :=
  match retriever self with
  | Factory.Local _ => LocalRetriever.format_context documents
  | Factory.Supabase _ => SupabaseRetriever.format_context documents
  end.

(** [query(question, top_k, return_context)] *)
Definition query (self : t) (question : string) (top_k : option Z)
  (return_context : bool) : result answer :=
  query_embedding ← embed_text question;
  documents ← search self query_embedding top_k;
  context ← format_context self documents;
  text ← Generator.generate local_generate openai_generate gemini_generate
           (generator self) [("query", question); ("context", context)];
  mret (if return_context then WithContext text documents context
        else Answer text).

End WithServices.
Arguments t R : clear implicits.
Arguments answer R : clear implicits.
End RAGPipeline.

(** ** ingest.py, the chunks of a page *)

Module Ingest.

Definition SENTS_PER_CHUNK : Z := 20.
Definition SENT_OVERLAP : Z := 2.
Definition MAX_TOKENS : Z := 1300.
Definition MIN_TOKENS : Z := 50.

(** [l[i:j]] for [0 <= i] and any [j]: a negative [j] counts from the
    end of the list. *)
Definition slice_to {A} (l : list A) (i : nat) (j : Z) : list A :=
  let stop := if j <? 0 then Z.max 0 (Z.of_nat (length l) + j) else j in
  slice l i (Z.to_nat stop).

Section WithTokenizer.

(** [split_sentences(text)], by regular expression, and
    [len(enc.encode(chunk))], the number of tokens of a chunk. *)
Variable split_sentences : string -> list string.
Variable token_count : string -> nat.

(** The condition of the inner [while]:
    [max_tokens and len(ids) > max_tokens and len(piece) > 1]. *)
Definition over_ceiling (max_tokens : Z) (piece : list string) : bool :=
  negb (max_tokens =? 0)
  && (max_tokens <? Z.of_nat (token_count (join " " piece)))
  && (1 <? length piece)%nat.

(** The inner [while]: [piece = piece[:-1]] as long as the condition
    holds; it runs fewer times than [piece] has sentences. *)
Fixpoint enforce_ceiling (fuel : nat) (max_tokens : Z) (piece : list string)
  : list string :=
  match fuel with
  | O => piece
  | S fuel' =>
    if over_ceiling max_tokens piece then
      enforce_ceiling fuel' max_tokens (take (length piece - 1) piece)
    else piece
  end.

(** The sentences of the chunk that the window at [i] gives. *)
Definition piece_at (sents : list string) (sents_per_chunk max_tokens : Z)
  (i : nat) : list string :=
  let piece := slice_to sents i (Z.of_nat i + sents_per_chunk) in
  enforce_ceiling (length piece) max_tokens piece.

(** The outer [while i < len(sents)], from position [i] on: for every
    chunk it yields, the position of its window and its sentences. *)
Fixpoint windows (fuel : nat) (sents : list string)
  (sents_per_chunk : Z) (step : nat) (max_tokens min_tokens : Z) (i : nat)
  : list (nat * list string) :=
  match fuel with
  | O => []
  | S fuel' =>
    if (i <? length sents)%nat then
      match slice_to sents i (Z.of_nat i + sents_per_chunk) with
      | [] => []
      | _ =>
        let piece := piece_at sents sents_per_chunk max_tokens i in
        let chunk := join " " piece in
        ((if min_tokens <=? Z.of_nat (token_count chunk) then [(i, piece)]
          else [])
         ++ windows fuel' sents sents_per_chunk step max_tokens min_tokens
              (i + step))%list
      end
    else []
  end.

(** [step = max(1, sents_per_chunk - overlap)] *)
Definition step_of (sents_per_chunk overlap : Z) : nat :=
  Z.to_nat (Z.max 1 (sents_per_chunk - overlap)).

(** The windows of [chunk_page_by_sentences(text, ...)]; the loop ends
    within [len(sents)] rounds, the step being at least one. *)
Definition page_windows (text : string)
  (sents_per_chunk overlap max_tokens min_tokens : Z)
  : list (nat * list string) :=
  let sents := split_sentences text in
  windows (length sents) sents sents_per_chunk
    (step_of sents_per_chunk overlap) max_tokens min_tokens 0.

(** [list(chunk_page_by_sentences(text, sents_per_chunk, overlap,
    max_tokens, min_tokens))] *)
Definition chunk_page_by_sentences (text : string)
  (sents_per_chunk overlap max_tokens min_tokens : Z) : list string :=
  (fun w => join " " w.2)
    <$> page_windows text sents_per_chunk overlap max_tokens min_tokens.

End WithTokenizer.
End Ingest.

(** ** Concrete services and chunks *)

Module Examples.

(** An embedding service that answers every text with its length. *)
Definition length_embedding (text : string) : list Q :=
  [Z.of_nat (String.length text) # 1]%Q.

Definition echo_service (model : string) (batch : list string)
  : result (list (list Q)) :=
  Ok (length_embedding <$> batch).

Definition openai : OpenAIEmbedder.t :=
  {| OpenAIEmbedder.model := "text-embedding-3-small" |}.

(** A Gemini embedder whose configured dimension is negative. *)
Definition embedder_negative : GeminiEmbedder.t :=
  {| GeminiEmbedder.model := "models/embedding-001";
     GeminiEmbedder.embedding_dimension := -1 |}.

(** A chunk as [create_chunks] makes them. *)
Definition chunk (text : string) (page : Z) : Dict Q :=
  <["page_number" := PInt page]>
  (<["sentence_chunk" := PStr text]>
  (<["chunk_char_count" := PInt (Z.of_nat (String.length text))]>
  (<["chunk_word_count" := PInt 1]>
  (<["chunk_token_count" := PFloat (Z.of_nat (String.length text) # 4)%Q]> ∅)))).

(** A table that takes every batch, and one that is unreachable. *)
Definition takes_all (batch : list (SupabaseVectorStore.payload Q))
  : option exn := None.

Definition unreachable (batch : list (SupabaseVectorStore.payload Q))
  : option exn := Some (APIError "connection refused").

(** A store that refuses a batch of fewer than 100 rows. *)
Definition refuses_short (batch : list (SupabaseVectorStore.payload Q))
  : option exn :=
  if (length batch <? 100)%nat then Some (APIError "batch too short")
  else None.

(** 150 chunks with their embeddings, and the row of one of them. *)
Definition chunks150 : list (Dict Q) := replicate 150 (chunk "alpha" 1).

Definition embeddings150 : list (list Q) := replicate 150 [1; 0]%Q.

Definition payload_alpha : SupabaseVectorStore.payload Q :=
  {| SupabaseVectorStore.page_number := PInt 1;
     SupabaseVectorStore.chunk_text := PStr "alpha";
     SupabaseVectorStore.chunk_char_count := PInt 5;
     SupabaseVectorStore.chunk_word_count := PInt 1;
     SupabaseVectorStore.chunk_token_count := PFloat (5 # 4)%Q;
     SupabaseVectorStore.embedding := [1; 0]%Q |}.

(** The settings of an empty environment, and the same with the Gemini
    backend selected and its key given. *)
Definition app_settings : AppSettings.t := {|
  AppSettings.core := Scenario.settings;
  AppSettings.MODEL_BACKEND := "local";
  AppSettings.OPENAI_API_KEY := "";
  AppSettings.GEMINI_API_KEY := "";
  AppSettings.LOCAL_EMBEDDING_MODEL := "all-mpnet-base-v2";
  AppSettings.LOCAL_EMBEDDING_DIMENSION := 768;
  AppSettings.API_EMBEDDING_MODEL := "text-embedding-3-small";
  AppSettings.API_EMBEDDING_DIMENSION := 1536;
  AppSettings.LOCAL_LLM_MODEL := "sshleifer/tiny-gpt2";
  AppSettings.API_LLM_MODEL := "gpt-4-turbo-preview";
  AppSettings.GEMINI_LLM_MODEL := "gemini-2.0-flash"
|}.

Definition app_settings_gemini : AppSettings.t := {|
  AppSettings.core := Scenario.settings;
  AppSettings.MODEL_BACKEND := "gemini";
  AppSettings.OPENAI_API_KEY := "";
  AppSettings.GEMINI_API_KEY := "key";
  AppSettings.LOCAL_EMBEDDING_MODEL := "all-mpnet-base-v2";
  AppSettings.LOCAL_EMBEDDING_DIMENSION := 768;
  AppSettings.API_EMBEDDING_MODEL := "text-embedding-3-small";
  AppSettings.API_EMBEDDING_DIMENSION := 1536;
  AppSettings.LOCAL_LLM_MODEL := "sshleifer/tiny-gpt2";
  AppSettings.API_LLM_MODEL := "gpt-4-turbo-preview";
  AppSettings.GEMINI_LLM_MODEL := "gemini-2.0-flash"
|}.

(** The three vectors of [Scenario.index3] with chunks for the first two
    only. *)
Definition retriever_short : LocalRetriever.t Q :=
  LocalRetriever.init (Some Scenario.index3)
    (Some [Scenario.passage "v1" 1; Scenario.passage "v2" 2]).

(** The vectors [NaN], [1], [2] with chunks for the first two only. *)
Definition retriever_nan_short : LocalRetriever.t float32 :=
  LocalRetriever.init (Some Scenario.index_nan)
    (Some [Scenario.passage "v1" 1; Scenario.passage "v2" 2]).

(** An embedder that answers every question with the vector [1,0], and a
    model that answers with the context it was given. *)
Definition embed_axis (question : string) : result (list Q) := Ok [1; 0]%Q.

Definition echo_context (args : gmap string string) : result string :=
  Ok (default "" (args !! "context")).

Definition ready : result unit := Ok ().

Definition accepts (name : string) : result unit := Ok ().

Definition pipeline (g : Generator.Generator) : RAGPipeline.t Q :=
  {| RAGPipeline.retriever := Factory.Local Scenario.retriever3;
     RAGPipeline.generator := g |}.

(** A page of four sentences, whatever the text, and a tokenizer that
    counts one token a character. *)
Definition four_sentences (text : string) : list string :=
  ["a b c."; "d."; "e."; "f."].

Definition one_token_a_character (chunk : string) : nat := String.length chunk.

End Examples.

(** ** Vocabulary of the properties *)

(** What [embed_chunks] stores for a chunk: its embedding, or zeros when
    the embedding call raised. *)
Definition stored_for {R} `{Scalar R}
  (embed_content : string -> string -> result (list R))
  (self : GeminiEmbedder.t) (chunk : string) : list R :=
  match embed_content (GeminiEmbedder.model self) chunk with
  | Ok e => e
  | Raise _ => replicate (Z.to_nat (GeminiEmbedder.embedding_dimension self)) fzero
  end.


(** The score a result record carries. *)
Definition similarity_of {R} (doc : Dict R) : option R :=
  match doc !! "similarity" with
  | Some (PFloat s) => Some s
  | _ => None
  end.












(** A key of a floating-point datum in the integers, ordered
    lexicographically as the sorting order: the class (negative
    infinity, negative, zero, positive, positive infinity, NaN), then the
    exponent and the mantissa, both negated for negative numbers. *)
Definition SFkey (x : spec_float) : Z * Z * Z :=
  match x with
  | S754_nan => (3, 0, 0)
  | S754_infinity false => (2, 0, 0)
  | S754_infinity true => (-2, 0, 0)
  | S754_zero _ => (0, 0, 0)
  | S754_finite false m e => (1, e, Zpos m)
  | S754_finite true m e => (-1, - e, - Zpos m)
  end.

Definition lex_le (p q : Z * Z * Z) : Prop :=
  p.1.1 < q.1.1 \/
  (p.1.1 = q.1.1 /\ (p.1.2 < q.1.2 \/ (p.1.2 = q.1.2 /\ p.2 <= q.2))).

(** * Properties *)

(** ** Results and loops *)

Lemma try_except_reraise {A} (m : result A) : try_except m (fun e => Raise e) = m.
Proof. by destruct m. Qed.

Lemma bind_Ok_inv {A B} (m : result A) (f : A -> result B) (b : B) :
  m ≫= f = Ok b -> exists a, m = Ok a /\ f a = Ok b.
Proof. destruct m as [a|e]; [by exists a | done]. Qed.

Lemma mapM_Ok_inv {A B} (f : A -> result B) (l : list A) (l' : list B) :
  mapM f l = Ok l' -> Forall2 (fun x y => f x = Ok y) l l'.
Proof.
  revert l'. induction l as [|x l IH]; intros l' Hm; simpl in Hm.
  - inversion Hm. constructor.
  - apply bind_Ok_inv in Hm as (y & Hy & Hm).
    apply bind_Ok_inv in Hm as (k & Hk & Hm).
    inversion Hm; subst. constructor; auto.
Qed.

Lemma mapM_Ok_intro {A B} (f : A -> result B) (l : list A) (l' : list B) :
  Forall2 (fun x y => f x = Ok y) l l' -> mapM f l = Ok l'.
Proof.
  induction 1 as [|x y l l' Hxy _ IH]; simpl; [done|].
  by rewrite Hxy; simpl; rewrite IH.
Qed.

Lemma mapM_Ok_total {A B} (f : A -> result B) (l : list A) :
  Forall (fun x => exists y, f x = Ok y) l ->
  exists l', mapM f l = Ok l' /\ length l' = length l.
Proof.
  induction 1 as [|x l [y Hy] _ (l' & Hl' & Hlen)]; simpl.
  - by exists [].
  - exists (y :: l'). rewrite Hy; simpl. rewrite Hl'; simpl.
    by rewrite Hlen.
Qed.

Lemma mapM_Ok_length {A B} (f : A -> result B) (l : list A) (l' : list B) :
  mapM f l = Ok l' -> length l' = length l.
Proof. intros Hm. apply mapM_Ok_inv in Hm. symmetry. by eapply Forall2_length. Qed.

(** ** Stable sorting *)

Section StableSortFacts.
Context {A : Type} (before : A -> A -> bool).
Hypothesis before_total : forall x y, before x y = false -> before y x = true.

Lemma insert_sorted_perm (x : A) (l : list A) :
  insert_sorted before x l ≡ₚ x :: l.
Proof.
  induction l as [|y l IH]; simpl; [done|].
  destruct (before x y); [done|].
  by rewrite IH, Permutation_swap.
Qed.

Lemma stable_sort_perm (l : list A) : stable_sort before l ≡ₚ l.
Proof.
  induction l as [|x l IH]; simpl; [done|].
  fold (stable_sort before l). by rewrite insert_sorted_perm, IH.
Qed.




Hypothesis before_trans : forall x y z,
  before x y = true -> before y z = true -> before x z = true.



End StableSortFacts.

(** Sorting with a comparator that refines an order [ge], however it
    decides between elements that [ge] holds equal, sorts by [ge]. *)
Section SortRefinesOrder.
Context {A : Type} (before ge : A -> A -> bool).
Hypothesis before_ge : forall x y, before x y = true -> ge x y = true.
Hypothesis not_before_ge : forall x y, before x y = false -> ge y x = true.
Hypothesis ge_trans : forall x y z,
  ge x y = true -> ge y z = true -> ge x z = true.




End SortRefinesOrder.



(** ** torch.topk *)

Section TopkFacts.
Context {R : Type} `{ScalarOrder R}.

(** [a] ranks at least as high as [b]. *)
#[local] Abbreviation rank_ge := (fun a b : R * nat => fsortb b.1 a.1).




Lemma zip_seq_lookup (l : list R) (start : nat) (s : R) (i : nat) :
  (s, i) ∈ zip l (seq start (length l)) ->
  (start <= i)%nat /\ l !! (i - start)%nat = Some s.
Proof.
  revert start. induction l as [|x l IH]; intros start; simpl.
  - by intros ?%elem_of_nil.
  - intros [Heq|Hin]%elem_of_cons.
    + inversion Heq; subst. by rewrite Nat.sub_diag.
    + apply IH in Hin as [Hle Hl]. split; [lia|].
      by replace (i - start)%nat with (S (i - S start)) by lia.
Qed.

Lemma ranked_perm (input : list R) (k : Z) :
  Torch.ranked input k ≡ₚ zip input (seq 0 (length input)).
Proof. apply stable_sort_perm. Qed.

Lemma ranked_length (input : list R) (k : Z) :
  length (Torch.ranked input k) = length input.
Proof.
  rewrite ranked_perm, length_zip_with, length_seq. lia.
Qed.

Lemma ranked_lookup (input : list R) (k : Z) (s : R) (i : nat) :
  (s, i) ∈ Torch.ranked input k -> input !! i = Some s.
Proof.
  rewrite ranked_perm. intros [_ Hl]%zip_seq_lookup.
  by rewrite Nat.sub_0_r in Hl.
Qed.





Lemma topk_in_range (input : list R) (k : Z) :
  0 <= k <= Z.of_nat (length input) ->
  Torch.topk input k =
    Ok ((take (Z.to_nat k) (Torch.ranked input k)).*1,
        (take (Z.to_nat k) (Torch.ranked input k)).*2).
Proof.
  intros Hk. unfold Torch.topk.
  destruct (k <? 0) eqn:E1; [lia|].
  destruct (Z.of_nat (length input) <? k) eqn:E2; [lia|]. done.
Qed.

Lemma topk_out_of_range (input : list R) (k : Z) :
  k < 0 \/ Z.of_nat (length input) < k ->
  Torch.topk input k = Raise (RuntimeError "selected index k out of range").
Proof.
  intros Hk. unfold Torch.topk.
  destruct (k <? 0) eqn:E1; [done|].
  destruct (Z.of_nat (length input) <? k) eqn:E2; [done|]. lia.
Qed.

Lemma scores_length (q : list R) (E : Torch.Tensor R) :
  length (Torch.scores q E) = Torch.len E.
Proof. unfold Torch.scores. by rewrite length_fmap, length_seq. Qed.

End TopkFacts.

(** ** LocalRetriever.search *)

Section LocalSearchFacts.
Context {R : Type} `{Scalar R}.
Variable settings : Config.Settings.

#[local] Abbreviation search := (LocalRetriever.search settings).
#[local] Abbreviation top_k_of top_k := (py_or top_k (Config.TOP_K_RESULTS settings)).

(** The scores of a query against an index: one entry of the matrix
    product a row. *)
Lemma dot_scores_eq (q : list R) (E : Torch.Tensor R) :
  length q = Torch.ncols E ->
  Torch.mm_T (Torch.unsqueeze0 q) E ≫= Torch.row0 = Ok (Torch.scores q E).
Proof.
  intros Hq. unfold Torch.mm_T, Torch.unsqueeze0; simpl.
  by rewrite decide_True.
Qed.

Lemma dot_scores_mismatch (q : list R) (E : Torch.Tensor R) :
  length q <> Torch.ncols E ->
  Torch.mm_T (Torch.unsqueeze0 q) E ≫= Torch.row0
  = Raise (Torch.shape_mismatch 1 (length q) (Torch.ncols E) (Torch.len E)).
Proof.
  intros Hq. unfold Torch.mm_T, Torch.unsqueeze0; simpl.
  by rewrite decide_False.
Qed.

Lemma search_not_loaded (self : LocalRetriever.t R) (q : list R)
  (top_k : option Z) :
  LocalRetriever.embeddings self = None \/ LocalRetriever.chunks self = None ->
  search self q top_k
  = Raise (ValueError "Embeddings not loaded. Call load_embeddings() first.").
Proof.
  unfold LocalRetriever.search. intros [-> | ->]; [done|].
  by destruct (LocalRetriever.embeddings self).
Qed.

Lemma search_loaded (self : LocalRetriever.t R) E C (q : list R)
  (top_k : option Z) :
  LocalRetriever.embeddings self = Some E ->
  LocalRetriever.chunks self = Some C ->
  length q = Torch.ncols E ->
  search self q top_k
  = '(scores, indices) ← Torch.topk (Torch.scores q E) (top_k_of top_k);
    mapM (LocalRetriever.make_document C) (zip scores indices).
Proof.
  intros HE HC Hq. unfold LocalRetriever.search. rewrite HE, HC.
  rewrite try_except_reraise.
  pose proof (dot_scores_eq q E Hq) as Hs.
  destruct (Torch.mm_T (Torch.unsqueeze0 q) E) as [T|e]; simpl in *; [|done].
  by rewrite Hs.
Qed.

Lemma search_shape_mismatch (self : LocalRetriever.t R) E C (q : list R)
  (top_k : option Z) :
  LocalRetriever.embeddings self = Some E ->
  LocalRetriever.chunks self = Some C ->
  length q <> Torch.ncols E ->
  search self q top_k
  = Raise (Torch.shape_mismatch 1 (length q) (Torch.ncols E) (Torch.len E)).
Proof.
  intros HE HC Hq. unfold LocalRetriever.search. rewrite HE, HC.
  rewrite try_except_reraise.
  pose proof (dot_scores_mismatch q E Hq) as Hs.
  destruct (Torch.mm_T (Torch.unsqueeze0 q) E) as [T|e]; simpl in *.
  - by rewrite Hs.
  - by inversion Hs.
Qed.

Lemma search_k_out_of_range (self : LocalRetriever.t R) E C (q : list R)
  (top_k : option Z) :
  LocalRetriever.embeddings self = Some E ->
  LocalRetriever.chunks self = Some C ->
  length q = Torch.ncols E ->
  top_k_of top_k < 0 \/ Z.of_nat (Torch.len E) < top_k_of top_k ->
  search self q top_k = Raise (RuntimeError "selected index k out of range").
Proof.
  intros HE HC Hq Hk. rewrite (search_loaded self E C) by done.
  rewrite topk_out_of_range; [done|].
  by rewrite scores_length.
Qed.

(** The records of a search in range: the best-ranked pairs, each turned
    into a document. *)
Lemma search_in_range (self : LocalRetriever.t R) E C (q : list R)
  (top_k : option Z) :
  LocalRetriever.embeddings self = Some E ->
  LocalRetriever.chunks self = Some C ->
  length q = Torch.ncols E ->
  0 <= top_k_of top_k <= Z.of_nat (Torch.len E) ->
  search self q top_k
  = mapM (LocalRetriever.make_document C)
      (take (Z.to_nat (top_k_of top_k))
         (Torch.ranked (Torch.scores q E) (top_k_of top_k))).
Proof.
  intros HE HC Hq Hk. rewrite (search_loaded self E C) by done.
  rewrite topk_in_range by (by rewrite scores_length).
  simpl. by rewrite zip_fst_snd.
Qed.

Lemma make_document_Ok (C : list (Dict R)) (p : R * nat) (doc : Dict R) :
  LocalRetriever.make_document C p = Ok doc <->
  exists c, C !! p.2 = Some c /\
    doc = <["id" := PInt (Z.of_nat p.2)]> (<["similarity" := PFloat p.1]> c).
Proof.
  unfold LocalRetriever.make_document, list_getitem.
  destruct (C !! p.2) as [c|]; simpl.
  - split.
    + intros [= <-]. by exists c.
    + intros (c' & [= <-] & ->). done.
  - split; [done|]. by intros (c' & ? & _).
Qed.

(** A successful search is a search of a loaded index, with a query of
    the index's width and a count in range. *)
Lemma search_Ok_inv (self : LocalRetriever.t R) (q : list R)
  (top_k : option Z) (docs : list (Dict R)) :
  search self q top_k = Ok docs ->
  exists E C,
    LocalRetriever.embeddings self = Some E /\
    LocalRetriever.chunks self = Some C /\
    length q = Torch.ncols E /\
    0 <= top_k_of top_k <= Z.of_nat (Torch.len E) /\
    Forall2 (fun p doc => LocalRetriever.make_document C p = Ok doc)
      (take (Z.to_nat (top_k_of top_k))
         (Torch.ranked (Torch.scores q E) (top_k_of top_k)))
      docs.
Proof.
  intros Hs.
  destruct (LocalRetriever.embeddings self) as [E|] eqn:HE;
    [|by rewrite search_not_loaded in Hs by auto].
  destruct (LocalRetriever.chunks self) as [C|] eqn:HC;
    [|by rewrite search_not_loaded in Hs by auto].
  destruct (decide (length q = Torch.ncols E)) as [Hq|Hq];
    [|by rewrite (search_shape_mismatch self E C) in Hs].
  destruct (decide (0 <= top_k_of top_k <= Z.of_nat (Torch.len E))) as [Hk|Hk];
    [|rewrite (search_k_out_of_range self E C) in Hs by (done || lia); done].
  exists E, C. repeat split; try done; try lia.
  rewrite (search_in_range self E C) in Hs by done.
  by apply mapM_Ok_inv.
Qed.

(** With a chunk for every row, a search in range returns. *)
Lemma search_in_range_Ok (self : LocalRetriever.t R) E C (q : list R)
  (top_k : option Z) :
  LocalRetriever.embeddings self = Some E ->
  LocalRetriever.chunks self = Some C ->
  length q = Torch.ncols E ->
  (Torch.len E <= length C)%nat ->
  0 <= top_k_of top_k <= Z.of_nat (Torch.len E) ->
  exists docs, search self q top_k = Ok docs /\
    length docs = Z.to_nat (top_k_of top_k).
Proof.
  intros HE HC Hq HN Hk. rewrite (search_in_range self E C) by done.
  set (best := take _ _).
  destruct (mapM_Ok_total (LocalRetriever.make_document C) best)
    as (docs & Hdocs & Hlen).
  - apply Forall_forall. intros [s i] Hin.
    apply elem_of_take in Hin as (n & Hin & _).
    apply list_elem_of_lookup_2 in Hin.
    assert (Hi : (i < Torch.len E)%nat).
    { apply ranked_lookup, lookup_lt_Some in Hin.
      by rewrite scores_length in Hin. }
    destruct (lookup_lt_is_Some_2 C i) as [c Hc]; [lia|].
    exists (<["id" := PInt (Z.of_nat i)]> (<["similarity" := PFloat s]> c)).
    apply make_document_Ok. by exists c.
  - exists docs. split; [done|]. rewrite Hlen. unfold best.
    rewrite length_take, ranked_length, scores_length. lia.
Qed.

End LocalSearchFacts.

(** ** SupabaseRetriever.search *)


Section RemoteSearchFacts.
Context {R : Type} `{ScalarOrder R}.
Variable settings : Config.Settings.
Variable distance : list R -> list R -> R.

#[local] Abbreviation rsearch := (SupabaseRetriever.search settings distance).
#[local] Abbreviation rsimilarity := (SupabaseRetriever.similarity distance).
#[local] Abbreviation rnearer := (SupabaseRetriever.nearer distance).
#[local] Abbreviation rselect := (SupabaseRetriever.select_rows distance).
#[local] Abbreviation rrecord := (SupabaseRetriever.to_record distance).






Lemma select_rows_from_table table (q : list R) (thr : R) (k : nat) :
  rselect table q thr k ⊆ table.
Proof.
  unfold SupabaseRetriever.select_rows. intros d Hd.
  apply elem_of_take in Hd as (n & Hd & _).
  apply list_elem_of_lookup_2 in Hd.
  rewrite stable_sort_perm in Hd.
  by apply list_elem_of_filter in Hd as [_ Hd].
Qed.






Lemma remote_search_outage (self : SupabaseRetriever.t R) (q : list R)
  (top_k : option Z) (thr : option R) (e : exn) :
  SupabaseRetriever.outage (SupabaseRetriever.client self) = Some e ->
  rsearch self q top_k thr = Raise e.
Proof.
  intros He. unfold SupabaseRetriever.search.
  rewrite try_except_reraise. unfold SupabaseRetriever.rpc_match_documents.
  by rewrite He.
Qed.



End RemoteSearchFacts.

(** ** format_context *)

Lemma append_assoc (a b c : string) : (a +:+ b) +:+ c = a +:+ (b +:+ c).
Proof.
  induction a as [|ch a IH]; [done|].
  change (String ch ((a +:+ b) +:+ c) = String ch (a +:+ (b +:+ c))).
  by f_equal.
Qed.

(** A context is one bullet a text, the bullets separated by newlines. *)
Lemma join_bullets (texts : list string) :
  texts <> [] ->
  "- " +:+ join (newline +:+ "- ") texts
  = join newline (String.append "- " <$> texts).
Proof.
  induction texts as [|s texts IH]; [done|]. intros _.
  destruct texts as [|s' texts]; [done|].
  change (join (newline +:+ "- ") (s :: s' :: texts))
    with (s +:+ (newline +:+ "- ") +:+ join (newline +:+ "- ") (s' :: texts)).
  change (join newline (String.append "- " <$> s :: s' :: texts))
    with (("- " +:+ s) +:+ newline
          +:+ join newline (String.append "- " <$> s' :: texts)).
  rewrite <- IH by done.
  by rewrite !append_assoc.
Qed.

Lemma mapM_fmap {A B C} (g : A -> B) (f : B -> result C) (l : list A) :
  mapM f (g <$> l) = mapM (fun x => f (g x)) l.
Proof.
  induction l as [|x l IH]; [done|].
  change (mapM f (g <$> x :: l))
    with (y ← f (g x); k ← mapM f (g <$> l); mret (y :: k)).
  by rewrite IH.
Qed.

Lemma mapM_as_str {R} (texts : list string) :
  mapM (@as_str R) (PStr <$> texts) = Ok texts.
Proof.
  rewrite mapM_fmap. apply mapM_Ok_intro.
  induction texts; by constructor.
Qed.

Section FormatContextFacts.
Context {R : Type}.

Lemma local_format_context_texts (docs : list (Dict R)) (texts : list string) :
  docs <> [] ->
  Forall2 (fun d s => LocalRetriever.context_item d = PStr s) docs texts ->
  LocalRetriever.format_context docs
  = Ok (join newline (String.append "- " <$> texts)).
Proof.
  intros Hne HF. unfold LocalRetriever.format_context.
  destruct docs as [|d docs]; [done|].
  assert (Htexts : texts <> []) by (inversion HF; done).
  rewrite mapM_fmap.
  rewrite (mapM_Ok_intro _ _ texts).
  - simpl. by rewrite join_bullets.
  - eapply Forall2_impl; [exact HF|]. by intros d' s ->.
Qed.

Lemma remote_format_context_texts (docs : list (Dict R)) (texts : list string) :
  docs <> [] ->
  Forall2 (fun d s => d !! "chunk_text" = Some (PStr s)) docs texts ->
  SupabaseRetriever.format_context docs
  = Ok (join newline (String.append "- " <$> texts)).
Proof.
  intros Hne HF. unfold SupabaseRetriever.format_context.
  destruct docs as [|d docs]; [done|].
  assert (Htexts : texts <> []) by (inversion HF; done).
  rewrite (mapM_Ok_intro _ _ (PStr <$> texts)).
  - simpl. rewrite (mapM_as_str texts). simpl. by rewrite join_bullets.
  - apply Forall2_fmap_r. eapply Forall2_impl; [exact HF|].
    intros d' s Hd. unfold dict_getitem. by rewrite Hd.
Qed.

End FormatContextFacts.

(** ** GeminiEmbedder.embed_chunks *)

Section EmbedChunksFacts.
Context {R : Type} `{Scalar R}.
Variable embed_content : string -> string -> result (list R).

#[local] Abbreviation stored_for := (stored_for embed_content).

Lemma embed_batch (self : GeminiEmbedder.t) (acc : list (list R))
  (batch : list string) :
  0 <= GeminiEmbedder.embedding_dimension self ->
  for_loop (GeminiEmbedder.embed_chunk_step embed_content self) acc batch
  = Ok (acc ++ (stored_for self <$> batch))%list.
Proof.
  intros Hdim. revert acc. induction batch as [|c batch IH]; intros acc; simpl.
  - by rewrite app_nil_r.
  - assert (Hstep : GeminiEmbedder.embed_chunk_step embed_content self acc c
                    = Ok (acc ++ [stored_for self c])%list).
    { unfold GeminiEmbedder.embed_chunk_step, GeminiEmbedder.embed_text,
        stored_for, GeminiEmbedder.np_zeros.
      rewrite try_except_reraise.
      destruct (embed_content _ c); simpl; [done|].
      destruct (_ <? 0) eqn:E; [lia|done]. }
    rewrite Hstep. simpl. rewrite IH. by rewrite <- app_assoc.
Qed.

Lemma embed_batches (self : GeminiEmbedder.t) (chunks : list string)
  (bs a n : nat) (acc : list (list R)) :
  0 <= GeminiEmbedder.embedding_dimension self ->
  for_loop
    (fun embeddings i =>
       for_loop (GeminiEmbedder.embed_chunk_step embed_content self) embeddings
         (slice chunks i (i + bs)))
    acc ((fun j => j * bs)%nat <$> seq a n)
  = Ok (acc ++ (stored_for self <$> take (n * bs) (drop (a * bs) chunks)))%list.
Proof.
  intros Hdim. revert a acc. induction n as [|n IH]; intros a acc; simpl.
  - by rewrite app_nil_r.
  - rewrite embed_batch by done. simpl. rewrite IH.
    f_equal. rewrite <- app_assoc. f_equal. rewrite <- fmap_app. f_equal.
    unfold slice. replace (a * bs + bs - a * bs)%nat with bs by lia.
    rewrite <- take_take_drop, drop_drop. do 3 f_equal. lia.
Qed.

(** With a positive batch size, [embed_chunks] returns one vector a
    chunk and never raises, whatever the embedding calls did. *)
Lemma embed_chunks_total (self : GeminiEmbedder.t) (chunks : list string)
  (batch_size : Z) :
  0 < batch_size ->
  0 <= GeminiEmbedder.embedding_dimension self ->
  GeminiEmbedder.embed_chunks embed_content self chunks batch_size
  = Ok (stored_for self <$> chunks).
Proof.
  intros Hbs Hdim. unfold GeminiEmbedder.embed_chunks, py_range.
  destruct (batch_size =? 0) eqn:E0; [lia|].
  destruct (batch_size <? 0) eqn:E1; [lia|]. simpl.
  rewrite embed_batches by done. simpl. rewrite drop_0, take_ge; [done|].
  set (bs := Z.to_nat batch_size). assert (0 < bs)%nat by lia.
  pose proof (Nat.div_mod_eq (length chunks + bs - 1) bs).
  pose proof (Nat.mod_upper_bound (length chunks + bs - 1) bs).
  nia.
Qed.

End EmbedChunksFacts.

(** ** The rationals and binary32 are ordered scalars *)

#[global] Instance Q_scalar_order : ScalarOrder Q.
Proof.
  split; simpl.
  - intros a b. rewrite !Qle_bool_iff.
    destruct (Qlt_le_dec a b) as [Hlt|Hle]; [left; by apply Qlt_le_weak | by right].
  - intros a b c. rewrite !Qle_bool_iff. apply Qle_trans.
  - done.
Qed.


(** The sorting order of floating-point data is the lexicographic order
    of their keys. *)
Lemma SFsortb_key (a b : spec_float) :
  SFsortb a b = true <-> lex_le (SFkey a) (SFkey b).
Proof.
  unfold SFsortb, SFcompare, lex_le, SFkey.
  destruct a as [[]|[]| |[] ma ea], b as [[]|[]| |[] mb eb]; simpl;
    try (split; intros Hx; first [done | lia | (exfalso; lia)]);
    change (Pos.compare_cont Eq ma mb) with (Pos.compare ma mb);
    destruct (Z.compare_spec ea eb), (Pos.compare_spec ma mb); simpl;
    split; intros Hx; first [done | lia | (exfalso; lia)].
Qed.

Lemma lex_le_total (p q : Z * Z * Z) : lex_le p q \/ lex_le q p.
Proof. destruct p as [[p1 p2] p3], q as [[q1 q2] q3]. unfold lex_le; simpl. lia. Qed.

Lemma lex_le_trans (p q r : Z * Z * Z) : lex_le p q -> lex_le q r -> lex_le p r.
Proof.
  destruct p as [[p1 p2] p3], q as [[q1 q2] q3], r as [[r1 r2] r3].
  unfold lex_le; simpl. lia.
Qed.


Lemma float64_order : @ScalarOrder spec_float float64_in_order.
Proof.
  split; simpl.
  - intros a b. rewrite !SFsortb_key. apply lex_le_total.
  - intros a b c. rewrite !SFsortb_key. apply lex_le_trans.
  - intros a b Ha Hb. unfold SFsortb, SFleb in *.
    destruct (SFcompare a b) as [[]|] eqn:Hab; try done.
    destruct a, b; try done; simpl in *; discriminate.
Qed.

(** The vectors of the scenarios are unit vectors. *)
Lemma unit_vectors_unit :
  Forall (fun v => Torch.dot v v = 1%Q) Scenario.unit_vectors.
Proof. repeat constructor; vm_compute; reflexivity. Qed.

Lemma load_empty_environment : Config.load ∅ = Ok Scenario.settings.
Proof. reflexivity. Qed.

Lemma py_or_nonzero (k dflt : Z) : k <> 0 -> py_or (Some k) dflt = k.
Proof. by destruct k. Qed.

Lemma py_or_default (dflt : Z) : py_or (Some dflt) dflt = dflt.
Proof. by destruct dflt. Qed.

(** ** The claims about the in-memory backend *)

Section LocalClaims.
Context {R : Type} `{ScalarOrder R}.
Variable settings : Config.Settings.

#[local] Abbreviation lsearch := (LocalRetriever.search settings).

(** C1, as amended.  On a loaded index of [N] passages, with a chunk for
    every row and a query of the index's width, [search] returns exactly
    [top_k] results when [1 <= top_k <= N]; when [top_k > N] the top-k
    selection refuses the count and [search] raises. *)
Theorem search_count_in_range (self : LocalRetriever.t R) E C (q : list R)
  (k : Z) :
  LocalRetriever.embeddings self = Some E ->
  LocalRetriever.chunks self = Some C ->
  length q = Torch.ncols E ->
  (Torch.len E <= length C)%nat ->
  (1 <= k <= Z.of_nat (Torch.len E) ->
     exists docs, lsearch self q (Some k) = Ok docs /\
       length docs = Z.to_nat k) /\
  (Z.of_nat (Torch.len E) < k ->
     lsearch self q (Some k)
     = Raise (RuntimeError "selected index k out of range")).
Proof.
  intros HE HC Hq HN. split; intros Hk.
  - destruct (search_in_range_Ok settings self E C q (Some k))
      as (docs & Hdocs & Hlen); try done.
    + rewrite py_or_nonzero; lia.
    + exists docs. split; [done|]. by rewrite Hlen, py_or_nonzero by lia.
  - apply (search_k_out_of_range settings self E C); try done.
    rewrite py_or_nonzero; lia.
Qed.

(** C3, as amended.  On a loaded index a negative [top_k] makes [search]
    raise a [RuntimeError] at once: that of the top-k selection when the
    query has the index's width.  [top_k = 0] is not refused: it is
    searched as the default count. *)
Theorem search_negative_top_k_raises (self : LocalRetriever.t R) E C
  (q : list R) (k : Z) :
  LocalRetriever.embeddings self = Some E ->
  LocalRetriever.chunks self = Some C ->
  k < 0 ->
  (exists msg, lsearch self q (Some k) = Raise (RuntimeError msg)) /\
  (length q = Torch.ncols E ->
     lsearch self q (Some k)
     = Raise (RuntimeError "selected index k out of range")) /\
  lsearch self q (Some 0)
  = lsearch self q (Some (Config.TOP_K_RESULTS settings)).
Proof.
  intros HE HC Hk.
  assert (Hrange : length q = Torch.ncols E ->
            lsearch self q (Some k)
            = Raise (RuntimeError "selected index k out of range")).
  { intros Hq. apply (search_k_out_of_range settings self E C); try done.
    rewrite py_or_nonzero; lia. }
  split; [|split; [done|]].
  - destruct (decide (length q = Torch.ncols E)) as [Hq|Hq].
    + eexists. by apply Hrange.
    + eexists. by apply (search_shape_mismatch settings self E C).
  - unfold LocalRetriever.search. by rewrite py_or_default.
Qed.

(** C4.  A retriever constructed with the embeddings or the chunks absent
    answers every [search] with the error "Embeddings not loaded"; once
    [load_embeddings] has stored an index, the same call can return. *)
Theorem search_before_load_not_loaded
  (embeddings : option (Torch.Tensor R)) (chunks : option (list (Dict R)))
  (q : list R) (top_k : option Z) :
  embeddings = None \/ chunks = None ->
  lsearch (LocalRetriever.init embeddings chunks) q top_k
  = Raise (ValueError "Embeddings not loaded. Call load_embeddings() first.")
  /\
  (0 <= py_or top_k (Config.TOP_K_RESULTS settings) ->
   exists E C docs,
     lsearch (LocalRetriever.load_embeddings
                (LocalRetriever.init embeddings chunks) E C) q top_k
     = Ok docs).
Proof.
  intros Hnone. split.
  - apply search_not_loaded. simpl. done.
  - intros Hk.
    set (n := Z.to_nat (py_or top_k (Config.TOP_K_RESULTS settings))).
    set (E := {| Torch.ncols := length q; Torch.trows := replicate n q |}).
    set (C := replicate n (∅ : Dict R)).
    destruct (search_in_range_Ok settings
                (LocalRetriever.load_embeddings
                   (LocalRetriever.init embeddings chunks) E C) E C q top_k)
      as (docs & Hdocs & _); try done.
    + unfold Torch.len, E, C; simpl. by rewrite !length_replicate.
    + unfold Torch.len, E; simpl. rewrite length_replicate. lia.
    + by exists E, C, docs.
Qed.

End LocalClaims.

(** ** What a successful in-memory search returns *)



Section LocalRanking.
Context {R : Type} `{ScalarOrder R}.
Variable settings : Config.Settings.


End LocalRanking.

(** ** Ranking, on both backends *)



Section RankingClaims.
Context {R : Type} `{ScalarOrder R}.
Variable settings : Config.Settings.







End RankingClaims.

(** ** The claims *)

Lemma bullet_not_empty (x : string) : "- " +:+ x <> "".
Proof. change ("- " +:+ x) with (String "-" (String " " x)). done. Qed.

Lemma local_format_context_not_empty {R} (docs : list (Dict R)) :
  LocalRetriever.format_context docs <> Ok "".
Proof.
  unfold LocalRetriever.format_context. destruct docs as [|d docs]; [done|].
  destruct (mapM as_str _) as [items|e]; simpl.
  - unfold mret, result_ret. intros Heq. injection Heq as Heq.
    by apply bullet_not_empty in Heq.
  - done.
Qed.

Lemma remote_format_context_not_empty {R} (docs : list (Dict R)) :
  SupabaseRetriever.format_context docs <> Ok "".
Proof.
  unfold SupabaseRetriever.format_context. destruct docs as [|d docs]; [done|].
  destruct (mapM (fun doc => dict_getitem doc "chunk_text") _) as [vs|e];
    simpl.
  - destruct (mapM as_str vs) as [items|e]; simpl.
    + unfold mret, result_ret. intros Heq. injection Heq as Heq.
      by apply bullet_not_empty in Heq.
    + done.
  - done.
Qed.

(** C1, the claim as stated fails: [top_k = 10] against the three
    passages raises, and returns no three results. *)
Lemma search_top_k_10_of_3_raises :
  LocalRetriever.search Scenario.settings Scenario.retriever3 [1; 0]%Q (Some 10)
  = Raise (RuntimeError "selected index k out of range") /\
  ~ (exists docs,
       LocalRetriever.search Scenario.settings Scenario.retriever3 [1; 0]%Q
         (Some 10) = Ok docs /\ length docs = 3%nat).
Proof.
  assert (Hr : LocalRetriever.search Scenario.settings Scenario.retriever3
                 [1; 0]%Q (Some 10)
               = Raise (RuntimeError "selected index k out of range"))
    by (vm_compute; reflexivity).
  split; [exact Hr|]. intros (docs & Hdocs & _). congruence.
Qed.

(** On the three passages: two results for [top_k = 2], an error for
    [top_k = 4]. *)
Lemma search_count_in_range_witness :
  (exists docs,
     LocalRetriever.search Scenario.settings Scenario.retriever3 [1; 0]%Q
       (Some 2) = Ok docs /\ length docs = 2%nat) /\
  LocalRetriever.search Scenario.settings Scenario.retriever3 [1; 0]%Q (Some 4)
  = Raise (RuntimeError "selected index k out of range").
Proof.
  pose proof (search_count_in_range Scenario.settings Scenario.retriever3
                Scenario.index3 Scenario.chunks3 [1; 0]%Q) as Hthm.
  split.
  - apply (Hthm 2); [reflexivity | reflexivity | reflexivity | | ];
      cbv [Torch.len Scenario.index3 Scenario.chunks3 Torch.trows length]; lia.
  - apply (Hthm 4); [reflexivity | reflexivity | reflexivity | | ];
      cbv [Torch.len Scenario.index3 Scenario.chunks3 Torch.trows length]; lia.
Defined.




(** The binary32 score of the third passage is within half a unit in the
    last place of 7/10. *)
Lemma f32_0_7_nearest :
  Scenario.f32_0_7 = S754_finite false 11744051 (-24) /\
  valid_binary 24 128 Scenario.f32_0_7 = true /\
  (Qabs ((11744051 # 16777216) - (7 # 10)) <= 1 # 33554432)%Q.
Proof.
  split; [reflexivity|]. split; [vm_compute; reflexivity|].
  vm_compute. discriminate.
Qed.

(** C3, the claim as stated fails: [top_k = 0] against five passages is
    answered with five results. *)
Lemma search_top_k_zero_returns_default :
  exists docs,
    LocalRetriever.search Scenario.settings Scenario.retriever5 [1; 0]%Q
      (Some 0) = Ok docs /\ length docs = 5%nat.
Proof.
  apply (search_in_range_Ok Scenario.settings Scenario.retriever5
           Scenario.index5 Scenario.chunks5 [1; 0]%Q (Some 0));
    try reflexivity; vm_compute; try split; try discriminate; lia.
Qed.

(** On the five passages [top_k = -1] raises. *)
Lemma search_negative_top_k_raises_witness :
  (exists msg,
     LocalRetriever.search Scenario.settings Scenario.retriever5 [1; 0]%Q
       (Some (-1)) = Raise (RuntimeError msg)) /\
  LocalRetriever.search Scenario.settings Scenario.retriever5 [1; 0]%Q
    (Some (-1)) = Raise (RuntimeError "selected index k out of range").
Proof.
  pose proof (search_negative_top_k_raises Scenario.settings
                Scenario.retriever5 Scenario.index5 Scenario.chunks5
                [1; 0]%Q (-1) eq_refl eq_refl ltac:(lia)) as (H1 & H2 & _).
  split; [exact H1 | exact (H2 eq_refl)].
Defined.

(** A retriever constructed from nothing refuses the query and can
    answer it after a load. *)
Lemma search_before_load_not_loaded_witness :
  LocalRetriever.search Scenario.settings (LocalRetriever.init None None)
    [1; 0]%Q (Some 2)
  = Raise (ValueError "Embeddings not loaded. Call load_embeddings() first.")
  /\
  exists E C docs,
    LocalRetriever.search Scenario.settings
      (LocalRetriever.load_embeddings (LocalRetriever.init None None) E C)
      [1; 0]%Q (Some 2) = Ok docs.
Proof.
  destruct (search_before_load_not_loaded Scenario.settings None None
              [1; 0]%Q (Some 2) (or_introl eq_refl)) as [H1 H2].
  split; [exact H1|]. apply H2. simpl. lia.
Defined.

(** Scenario C: a fresh retriever refuses the query; the same query is
    answered once the three passages are loaded. *)
Lemma search_refused_then_answered :
  is_ok (LocalRetriever.search Scenario.settings (LocalRetriever.init None None)
           [1; 0]%Q (Some 2)) = false /\
  is_ok (LocalRetriever.search Scenario.settings
           (LocalRetriever.load_embeddings (LocalRetriever.init None None)
              Scenario.index3 Scenario.chunks3)
           [1; 0]%Q (Some 2)) = true.
Proof. split; vm_compute; reflexivity. Qed.

(** C5.  On both backends [format_context] of no results is the sentinel
    "No relevant context found.", which is not the empty string; no call
    returns the empty string; and results with text content are rendered
    one bullet a result, joined by newlines. *)
Theorem format_context_sentinel_and_bullets (R : Type) :
  LocalRetriever.format_context (@nil (Dict R))
  = Ok "No relevant context found." /\
  SupabaseRetriever.format_context (@nil (Dict R))
  = Ok "No relevant context found." /\
  "No relevant context found." <> "" /\
  (forall docs : list (Dict R),
     LocalRetriever.format_context docs <> Ok "" /\
     SupabaseRetriever.format_context docs <> Ok "") /\
  (forall (docs : list (Dict R)) (texts : list string),
     docs <> [] ->
     Forall2 (fun d s => LocalRetriever.context_item d = PStr s) docs texts ->
     LocalRetriever.format_context docs
     = Ok (join newline (String.append "- " <$> texts))) /\
  (forall (docs : list (Dict R)) (texts : list string),
     docs <> [] ->
     Forall2 (fun d s => d !! "chunk_text" = Some (PStr s)) docs texts ->
     SupabaseRetriever.format_context docs
     = Ok (join newline (String.append "- " <$> texts))).
Proof.
  repeat split; try done.
  - apply local_format_context_not_empty.
  - apply remote_format_context_not_empty.
  - intros docs texts. apply local_format_context_texts.
  - intros docs texts. apply remote_format_context_texts.
Qed.

(** The three passages, and two remote records, as bullets. *)
Lemma format_context_sentinel_and_bullets_witness :
  LocalRetriever.format_context (@Scenario.chunks3 Q)
  = Ok (join newline ["- v1"; "- v2"; "- v3"]) /\
  SupabaseRetriever.format_context
    [<["chunk_text" := PStr "near"]> (∅ : Dict Q);
     <["chunk_text" := PStr "close"]> (∅ : Dict Q)]
  = Ok (join newline ["- near"; "- close"]).
Proof.
  destruct (format_context_sentinel_and_bullets Q)
    as (_ & _ & _ & _ & Hlocal & Hremote).
  split.
  - apply (Hlocal Scenario.chunks3 ["v1"; "v2"; "v3"]); [done|].
    repeat constructor.
  - apply (Hremote _ ["near"; "close"]); [done|].
    repeat constructor.
Defined.




(** C7.  The factory maps the mode to a constructor: ["local"] gives the
    in-memory retriever on the given embeddings and chunks, ["supabase"]
    what the constructor of the remote retriever gives, and any other
    mode raises "Invalid retriever mode" after the entry log line alone,
    with no client created and no tensor touched. *)
Theorem get_retriever_dispatch (R : Type) (S : Scalar R)
  (settings : Config.Settings) (cuda : bool)
  (create_client : string -> string -> result (SupabaseRetriever.Client R))
  (embeddings : option (Torch.Tensor R)) (chunks : option (list (Dict R))) :
  (Factory.get_retriever settings cuda create_client "local" embeddings chunks).2
  = Ok (Factory.Local (LocalRetriever.init embeddings chunks)) /\
  (Factory.get_retriever settings cuda create_client "supabase" embeddings
     chunks).2
  = Factory.Supabase <$> SupabaseRetriever.init settings create_client /\
  (forall c,
     create_client (Config.SUPABASE_URL settings)
       (Config.SUPABASE_SERVICE_ROLE_KEY settings) = Ok c ->
     (Factory.get_retriever settings cuda create_client Factory.default_mode
        embeddings chunks).2
     = Ok (Factory.Supabase {| SupabaseRetriever.client := c |})) /\
  (forall mode : string,
     mode <> "local" -> mode <> "supabase" ->
     Factory.get_retriever settings cuda create_client mode embeddings chunks
     = ([LogInfo ("Creating retriever in mode: " +:+ mode)],
        Raise (ValueError ("Invalid retriever mode: " +:+ mode
                           +:+ ". Must be 'local' or 'supabase'"))) /\
     Forall (fun ev => touches_resource ev = false)
       (Factory.get_retriever settings cuda create_client mode embeddings
          chunks).1).
Proof.
  split; [reflexivity|]. split; [reflexivity|]. split.
  - intros c Hc. unfold Factory.get_retriever, Factory.default_mode; simpl.
    unfold SupabaseRetriever.init. by rewrite Hc.
  - intros mode Hlocal Hsupabase. unfold Factory.get_retriever.
    apply String.eqb_neq in Hlocal, Hsupabase.
    rewrite Hlocal, Hsupabase. simpl. split; [done|].
    by repeat constructor.
Qed.

(** The mode ["faiss"] is refused after the entry log line. *)
Lemma get_retriever_dispatch_witness :
  Factory.get_retriever Scenario.settings false
    (fun _ _ => Raise (APIError "unreachable")) "faiss"
    (Some Scenario.index3) (Some Scenario.chunks3)
  = ([LogInfo "Creating retriever in mode: faiss"],
     Raise (ValueError
              "Invalid retriever mode: faiss. Must be 'local' or 'supabase'")).
Proof.
  destruct (get_retriever_dispatch Q _ Scenario.settings false
              (fun _ _ => Raise (APIError "unreachable"))
              (Some Scenario.index3) (Some Scenario.chunks3))
    as (_ & _ & _ & Hother).
  apply (Hother "faiss"); discriminate.
Defined.




(** The store of four rows answers the query with the two nearest rows
    above the threshold; the row of similarity 3/5 is cut by the cap. *)
Lemma remote_search_store :
  SupabaseRetriever.search Scenario.settings Scenario.unit_distance
    Scenario.store (Scenario.along 1 0) (Some 2) None
  = Ok (SupabaseRetriever.to_record Scenario.unit_distance (Scenario.along 1 0)
          <$> [Scenario.row 2 "near" (Scenario.along 1 0);
               Scenario.row 4 "close" (Scenario.along (4 # 5) (3 # 5))]) /\
  (similarity_of
     <$> [SupabaseRetriever.to_record Scenario.unit_distance
            (Scenario.along 1 0) (Scenario.row 2 "near" (Scenario.along 1 0));
          SupabaseRetriever.to_record Scenario.unit_distance
            (Scenario.along 1 0)
            (Scenario.row 4 "close" (Scenario.along (4 # 5) (3 # 5)))])
  = [Some 1%Q; Some (4 # 5)%Q].
Proof. split; vm_compute; reflexivity. Qed.

(** Scenario D: no passage exceeds the threshold 0.5, and the search
    returns the empty list; an unreachable store raises instead. *)
Lemma remote_search_no_match_is_empty :
  SupabaseRetriever.search Scenario.settings Scenario.unit_distance
    Scenario.store_unrelated (Scenario.along 1 0) None None = Ok [] /\
  SupabaseRetriever.search Scenario.settings Scenario.unit_distance
    {| SupabaseRetriever.client :=
         {| SupabaseRetriever.documents := Scenario.table;
            SupabaseRetriever.outage := Some (APIError "connection refused") |} |}
    (Scenario.along 1 0) None None
  = Raise (APIError "connection refused").
Proof. split; vm_compute; reflexivity. Qed.

(** C9, on the code: the embedding of the chunk ["b"] fails, and
    [embed_chunks] returns normally with a zero vector in its place. *)
Theorem embed_chunks_masks_failure :
  GeminiEmbedder.embed_text Scenario.flaky_embed_content Scenario.embedder "b"
  = Raise (APIError "503 service unavailable") /\
  GeminiEmbedder.embed_chunks Scenario.flaky_embed_content Scenario.embedder
    ["a"; "b"; "c"] GeminiEmbedder.default_batch_size
  = Ok [[1; 1; 1]; [0; 0; 0]; [1; 1; 1]]%Q.
Proof. split; vm_compute; reflexivity. Qed.

(** C10.  On both backends an omitted [top_k], and likewise [top_k = 0],
    is searched as [TOP_K_RESULTS], which is 5 when the environment does
    not set it and the integer the environment gives otherwise; so a
    search with [top_k = 0] returns [TOP_K_RESULTS] results, not none. *)
Theorem search_default_top_k (R : Type) (S : Scalar R)
  (settings : Config.Settings) :
  (forall (self : LocalRetriever.t R) (q : list R),
     LocalRetriever.search settings self q None
     = LocalRetriever.search settings self q
         (Some (Config.TOP_K_RESULTS settings)) /\
     LocalRetriever.search settings self q (Some 0)
     = LocalRetriever.search settings self q
         (Some (Config.TOP_K_RESULTS settings))) /\
  (forall (distance : list R -> list R -> R) (self : SupabaseRetriever.t R)
     (q : list R) (thr : option R),
     SupabaseRetriever.search settings distance self q None thr
     = SupabaseRetriever.search settings distance self q
         (Some (Config.TOP_K_RESULTS settings)) thr /\
     SupabaseRetriever.search settings distance self q (Some 0) thr
     = SupabaseRetriever.search settings distance self q
         (Some (Config.TOP_K_RESULTS settings)) thr) /\
  (forall (env : gmap string string) (s : Config.Settings),
     Config.load env = Ok s ->
     match env !! "TOP_K_RESULTS" with
     | None => Config.TOP_K_RESULTS s = 5
     | Some v => Config.py_int v = Ok (Config.TOP_K_RESULTS s)
     end) /\
  (forall (self : LocalRetriever.t R) E C (q : list R),
     LocalRetriever.embeddings self = Some E ->
     LocalRetriever.chunks self = Some C ->
     length q = Torch.ncols E ->
     (Torch.len E <= length C)%nat ->
     1 <= Config.TOP_K_RESULTS settings <= Z.of_nat (Torch.len E) ->
     exists docs,
       LocalRetriever.search settings self q (Some 0) = Ok docs /\
       length docs = Z.to_nat (Config.TOP_K_RESULTS settings)).
Proof.
  split; [|split; [|split]].
  - intros self q. unfold LocalRetriever.search.
    by rewrite py_or_default.
  - intros distance self q thr. unfold SupabaseRetriever.search.
    by rewrite py_or_default.
  - intros env s. unfold Config.load, Config.getenv.
    destruct (Config.py_int (default "768" (env !! "GEMINI_EMBEDDING_DIMENSION")))
      as [dim|e]; [|done]. simpl.
    destruct (env !! "TOP_K_RESULTS") as [v|]; simpl.
    + destruct (Config.py_int v) as [k|e]; [|done]. by intros [= <-].
    + by intros [= <-].
  - intros self E C q HE HC Hq HN HK.
    destruct (search_in_range_Ok settings self E C q (Some 0))
      as (docs & Hdocs & Hlen); try done.
    + simpl. lia.
    + by exists docs.
Qed.

(** On the five passages, with the default settings. *)
Lemma search_default_top_k_witness :
  (LocalRetriever.search Scenario.settings Scenario.retriever5 [1; 0]%Q None
   = LocalRetriever.search Scenario.settings Scenario.retriever5 [1; 0]%Q
       (Some 5) /\
   LocalRetriever.search Scenario.settings Scenario.retriever5 [1; 0]%Q
     (Some 0)
   = LocalRetriever.search Scenario.settings Scenario.retriever5 [1; 0]%Q
       (Some 5)) /\
  Config.TOP_K_RESULTS Scenario.settings = 5 /\
  exists docs,
    LocalRetriever.search Scenario.settings Scenario.retriever5 [1; 0]%Q
      (Some 0) = Ok docs /\ length docs = 5%nat.
Proof.
  destruct (search_default_top_k Q _ Scenario.settings)
    as (Hlocal & _ & Henv & Hcount).
  split; [apply (Hlocal Scenario.retriever5 [1; 0]%Q)|].
  split; [apply (Henv ∅ Scenario.settings load_empty_environment)|].
  apply (Hcount Scenario.retriever5 Scenario.index5 Scenario.chunks5);
    [reflexivity | reflexivity | reflexivity | | ];
    cbv [Torch.len Scenario.index5 Scenario.chunks5 Torch.trows length
         Config.TOP_K_RESULTS Scenario.settings]; lia.
Defined.

(** * Further properties *)

(** ** Batches: [range] and slices *)

Lemma py_range_positive (stop : nat) (step : Z) :
  0 < step ->
  py_range stop step
  = Ok ((fun j => j * Z.to_nat step)%nat
          <$> seq 0 ((stop + Z.to_nat step - 1) / Z.to_nat step)%nat).
Proof.
  intros Hs. unfold py_range.
  destruct (step =? 0) eqn:E0; [lia|]. by destruct (step <? 0) eqn:E1; [lia|].
Qed.

Lemma batch_count_covers (n st : nat) :
  (0 < st)%nat -> (n <= (n + st - 1) / st * st)%nat.
Proof.
  intros Hst.
  pose proof (Nat.div_mod_eq (n + st - 1) st).
  pose proof (Nat.mod_upper_bound (n + st - 1) st). nia.
Qed.

Lemma batch_count_tight (n st : nat) :
  (0 < st)%nat -> (0 < n)%nat -> (((n + st - 1) / st - 1) * st < n)%nat.
Proof.
  intros Hst Hn.
  pose proof (Nat.div_mod_eq (n + st - 1) st).
  pose proof (Nat.mod_upper_bound (n + st - 1) st). nia.
Qed.

Lemma batch_count_zero (st : nat) : (0 < st)%nat -> ((0 + st - 1) / st = 0)%nat.
Proof. intros Hst. apply Nat.div_small. lia. Qed.

Lemma concat_batches {A} (l : list A) (st a n : nat) :
  concat ((fun i => slice l i (i + st)) <$> ((fun j => j * st)%nat <$> seq a n))
  = take (n * st) (drop (a * st) l).
Proof.
  revert a. induction n as [|n IH]; intros a; simpl; [done|].
  rewrite IH. unfold slice.
  replace (a * st + st - a * st)%nat with st by lia.
  rewrite <- take_take_drop, drop_drop. do 3 f_equal. lia.
Qed.

(** ** TextChunker.split_list *)

Section SplitListFacts.
Context {A : Type}.

Lemma split_list_positive (l : list A) (size : Z) :
  0 < size ->
  TextChunker.split_list l size
  = Ok ((fun j => take (Z.to_nat size) (drop (j * Z.to_nat size) l))
          <$> seq 0 ((length l + Z.to_nat size - 1) / Z.to_nat size)%nat).
Proof.
  intros Hs. unfold TextChunker.split_list. rewrite py_range_positive by done.
  simpl. f_equal. rewrite <- list_fmap_compose. apply list_fmap_ext.
  intros _ j _. simpl. unfold slice. f_equal. lia.
Qed.

Lemma split_list_concat (l : list A) (size : Z) pieces :
  0 < size -> TextChunker.split_list l size = Ok pieces -> concat pieces = l.
Proof.
  intros Hs. unfold TextChunker.split_list. rewrite py_range_positive by done.
  simpl. intros [= <-]. rewrite concat_batches. simpl.
  rewrite drop_0, take_ge; [done|]. apply batch_count_covers. lia.
Qed.

Lemma split_list_pieces (l : list A) (size : Z) pieces j p :
  0 < size -> TextChunker.split_list l size = Ok pieces ->
  pieces !! j = Some p ->
  p <> [] /\ (length p <= Z.to_nat size)%nat /\
  ((S j < length pieces)%nat -> length p = Z.to_nat size).
Proof.
  intros Hs. rewrite split_list_positive by done. intros [= <-].
  set (st := Z.to_nat size). assert (0 < st)%nat by lia.
  rewrite length_fmap, length_seq, list_lookup_fmap.
  intros Hj. destruct (seq _ _ !! j) as [j'|] eqn:Hseq; [|done].
  apply lookup_seq in Hseq as [-> Hlt]. simpl in Hj. injection Hj as <-.
  assert (0 < length l)%nat.
  { destruct (length l) eqn:E; [|lia]. rewrite batch_count_zero in Hlt; lia. }
  pose proof (batch_count_tight (length l) st).
  assert (Hin : (j * st < length l)%nat) by nia.
  split; [|split].
  - intros Hnil. apply (f_equal length) in Hnil.
    rewrite length_take, length_drop in Hnil. simpl in Hnil. lia.
  - rewrite length_take. lia.
  - intros Hnext. rewrite length_take, length_drop. nia.
Qed.

Lemma split_list_count (l : list A) (size : Z) pieces :
  0 < size -> TextChunker.split_list l size = Ok pieces ->
  length pieces = ((length l + Z.to_nat size - 1) / Z.to_nat size)%nat.
Proof.
  intros Hs. rewrite split_list_positive by done. intros [= <-].
  by rewrite length_fmap, length_seq.
Qed.

End SplitListFacts.

(** X1.  [split_list] with a positive size cuts the list into consecutive
    pieces: put end to end they give the list back, none is empty, each
    but the last has exactly [slice_size] elements and the last at most
    that many; there are [ceil(len / slice_size)] of them.  A size of zero
    raises, also on the empty list, and a negative size returns no piece
    at all. *)
Theorem split_list_partition (A : Type) (l : list A) :
  (forall size : Z, 0 < size ->
     exists pieces,
       TextChunker.split_list l size = Ok pieces /\
       concat pieces = l /\
       length pieces
       = ((length l + Z.to_nat size - 1) / Z.to_nat size)%nat /\
       forall j p, pieces !! j = Some p ->
         p <> [] /\ (length p <= Z.to_nat size)%nat /\
         ((S j < length pieces)%nat -> length p = Z.to_nat size)) /\
  TextChunker.split_list l 0
  = Raise (ValueError "range() arg 3 must not be zero") /\
  (forall size : Z, size < 0 -> TextChunker.split_list l size = Ok []).
Proof.
  split; [|split].
  - intros size Hs. eexists. split; [by apply split_list_positive|].
    split; [|split].
    + eapply split_list_concat; [done|]. by apply split_list_positive.
    + by rewrite length_fmap, length_seq.
    + intros j p. apply (split_list_pieces l size); [done|].
      by apply split_list_positive.
  - reflexivity.
  - intros size Hs. unfold TextChunker.split_list, py_range.
    destruct (size =? 0) eqn:E0; [lia|]. by destruct (size <? 0) eqn:E1; [|lia].
Qed.

(** Ten sentences in chunks of four. *)
Lemma split_list_partition_witness :
  exists pieces,
    TextChunker.split_list (seq 0 10) 4 = Ok pieces /\
    concat pieces = seq 0 10 /\
    length pieces = 3%nat /\
    forall j p, pieces !! j = Some p ->
      p <> [] /\ (length p <= 4)%nat /\
      ((S j < length pieces)%nat -> length p = 4%nat).
Proof.
  exact (proj1 (split_list_partition nat (seq 0 10)) 4 ltac:(lia)).
Defined.

(** ** OpenAIEmbedder.embed_chunks *)

Lemma fmap_concat {A B} (f : A -> B) (ls : list (list A)) :
  f <$> concat ls = concat (fmap (M:=list) f <$> ls).
Proof.
  induction ls as [|l ls IH]; simpl; [done|]. by rewrite fmap_app, IH.
Qed.

(** A loop that appends what each step gives is the concatenation of the
    steps' results, or the first error. *)
Lemma for_loop_append {A B} (g : A -> result (list B)) (acc : list B)
  (l : list A) :
  for_loop
    (fun acc x => try_except (r ← g x; mret (acc ++ r)%list) (fun e => Raise e))
    acc l
  = (fun rs => (acc ++ concat rs)%list) <$> mapM g l.
Proof.
  revert acc. induction l as [|x l IH]; intros acc; simpl.
  - by rewrite app_nil_r.
  - rewrite try_except_reraise. destruct (g x) as [r|e]; simpl; [|done].
    rewrite IH. destruct (mapM g l) as [rs|e]; simpl; [|done].
    by rewrite <- app_assoc.
Qed.

Section OpenAIEmbedderFacts.
Context {R : Type}.
Variable embeddings_create : string -> list string -> result (list (list R)).

#[local] Abbreviation oa_embed_chunks :=
  (OpenAIEmbedder.embed_chunks embeddings_create).

Lemma openai_embed_chunks_eq (self : OpenAIEmbedder.t) (chunks : list string)
  (batch_size : Z) (pieces : list (list string)) :
  TextChunker.split_list chunks batch_size = Ok pieces ->
  oa_embed_chunks self chunks batch_size
  = (fun rs => concat rs)
      <$> mapM (embeddings_create (OpenAIEmbedder.model self)) pieces.
Proof.
  unfold TextChunker.split_list, OpenAIEmbedder.embed_chunks.
  destruct (py_range (length chunks) batch_size) as [starts|e]; simpl; [|done].
  intros [= <-]. unfold OpenAIEmbedder.embed_batch_step.
  rewrite (for_loop_append
             (fun i => embeddings_create (OpenAIEmbedder.model self)
                         (slice chunks i (i + Z.to_nat batch_size)))).
  rewrite mapM_fmap.
  by destruct (mapM _ starts).
Qed.

Lemma mapM_first_error {A B} (g : A -> result B) (pre post : list A) (x : A)
  (e : exn) :
  Forall (fun y => is_ok (g y) = true) pre -> g x = Raise e ->
  mapM g (pre ++ x :: post) = Raise e.
Proof.
  intros Hpre Hx. induction Hpre as [|y pre Hy _ IH]; simpl.
  - by rewrite Hx.
  - destruct (g y); [|done]. simpl. by rewrite IH.
Qed.

End OpenAIEmbedderFacts.

(** X2.  With a positive batch size [OpenAIEmbedder.embed_chunks] sends
    the consecutive batches of the chunk list to the service in order and
    returns the replies put end to end: for a service that answers every
    batch with one embedding a text it returns one embedding a chunk, in
    the order of the chunks; when a batch fails, the error of the first
    failing batch is raised and no embedding is returned. *)
Theorem openai_embed_chunks_batches (R : Type)
  (embeddings_create : string -> list string -> result (list (list R)))
  (self : OpenAIEmbedder.t) (chunks : list string) (batch_size : Z) :
  0 < batch_size ->
  exists pieces,
    TextChunker.split_list chunks batch_size = Ok pieces /\
    concat pieces = chunks /\
    OpenAIEmbedder.embed_chunks embeddings_create self chunks batch_size
    = (fun rs => concat rs)
      <$> mapM (embeddings_create (OpenAIEmbedder.model self)) pieces /\
    (forall f : string -> list R,
       Forall (fun b => embeddings_create (OpenAIEmbedder.model self) b
                        = Ok (f <$> b)) pieces ->
       OpenAIEmbedder.embed_chunks embeddings_create self chunks batch_size
       = Ok (f <$> chunks)) /\
    (forall pre b post e,
       pieces = (pre ++ b :: post)%list ->
       Forall (fun b' => is_ok (embeddings_create (OpenAIEmbedder.model self) b')
                         = true) pre ->
       embeddings_create (OpenAIEmbedder.model self) b = Raise e ->
       OpenAIEmbedder.embed_chunks embeddings_create self chunks batch_size
       = Raise e).
Proof.
  intros Hbs.
  destruct (proj1 (split_list_partition string chunks) batch_size Hbs)
    as (pieces & Hpieces & Hconcat & _).
  exists pieces. split; [done|]. split; [done|].
  rewrite (openai_embed_chunks_eq embeddings_create self chunks batch_size pieces)
    by done.
  split; [done|]. split.
  - intros f Hf. rewrite (mapM_Ok_intro _ _ (fmap (M:=list) f <$> pieces)).
    + simpl. by rewrite <- fmap_concat, Hconcat.
    + apply Forall2_fmap_r. by apply Forall_Forall2_diag.
  - intros pre b post e -> Hpre Hb.
    by rewrite (mapM_first_error _ pre post b e).
Qed.

(** ** Loops over batches are loops over the elements *)

Lemma for_loop_app {A S} (body : S -> A -> result S) (s : S) (l1 l2 : list A) :
  for_loop body s (l1 ++ l2) = for_loop body s l1 ≫= fun s' => for_loop body s' l2.
Proof.
  revert s. induction l1 as [|x l1 IH]; intros s; simpl; [done|].
  destruct (body s x); simpl; [apply IH | done].
Qed.

Lemma for_loop_batches {A S} (body : S -> A -> result S) (l : list A)
  (st a n : nat) (s : S) :
  for_loop (fun s i => for_loop body s (slice l i (i + st))) s
    ((fun j => j * st)%nat <$> seq a n)
  = for_loop body s (take (n * st) (drop (a * st) l)).
Proof.
  revert a s. induction n as [|n IH]; intros a s; simpl; [done|].
  rewrite <- take_take_drop, for_loop_app, drop_drop.
  assert (Hslice : slice l (a * st) (a * st + st) = take st (drop (a * st) l)).
  { unfold slice. f_equal. lia. }
  rewrite Hslice.
  destruct (for_loop body s (take st (drop (a * st) l))) as [s'|e]; simpl.
  - rewrite IH. do 3 f_equal. lia.
  - done.
Qed.

Section GeminiEmbedderFacts.
Context {R : Type} `{Scalar R}.
Variable embed_content : string -> string -> result (list R).

#[local] Abbreviation g_embed_chunks := (GeminiEmbedder.embed_chunks embed_content).
#[local] Abbreviation g_embed_text := (GeminiEmbedder.embed_text embed_content).
#[local] Abbreviation g_step := (GeminiEmbedder.embed_chunk_step embed_content).

Lemma gemini_embed_chunks_flat (self : GeminiEmbedder.t)
  (chunks : list string) (batch_size : Z) :
  0 < batch_size ->
  g_embed_chunks self chunks batch_size = for_loop (g_step self) [] chunks.
Proof.
  intros Hbs. unfold GeminiEmbedder.embed_chunks.
  rewrite py_range_positive by done. simpl.
  rewrite for_loop_batches. simpl. rewrite drop_0, take_ge; [done|].
  apply batch_count_covers. lia.
Qed.

Lemma gemini_embed_text_eq (self : GeminiEmbedder.t) (text : string) :
  g_embed_text self text = embed_content (GeminiEmbedder.model self) text.
Proof. unfold GeminiEmbedder.embed_text. apply try_except_reraise. Qed.

Lemma gemini_all_succeed (self : GeminiEmbedder.t) (chunks : list string)
  (vs : list (list R)) :
  Forall2 (fun c v => g_embed_text self c = Ok v) chunks vs ->
  stored_for embed_content self <$> chunks = vs.
Proof.
  induction 1 as [|c v chunks vs Hc _ IH]; csimpl; [done|].
  f_equal; [|exact IH]. unfold stored_for.
  rewrite gemini_embed_text_eq in Hc. by rewrite Hc.
Qed.

Lemma gemini_step_ok (self : GeminiEmbedder.t) (acc : list (list R))
  (c : string) :
  is_ok (g_embed_text self c) = true ->
  exists v, g_step self acc c = Ok (acc ++ [v])%list.
Proof.
  unfold GeminiEmbedder.embed_chunk_step.
  destruct (g_embed_text self c) as [v|e]; [|done]. by exists v.
Qed.

Lemma gemini_step_fallback_fails (self : GeminiEmbedder.t)
  (acc : list (list R)) (c : string) (e : exn) :
  GeminiEmbedder.embedding_dimension self < 0 ->
  g_embed_text self c = Raise e ->
  g_step self acc c = Raise (ValueError "negative dimensions are not allowed").
Proof.
  intros Hdim Hc. unfold GeminiEmbedder.embed_chunk_step. rewrite Hc. simpl.
  unfold GeminiEmbedder.np_zeros. by destruct (_ <? 0) eqn:E; [|lia].
Qed.

Lemma for_loop_cons {A S} (body : S -> A -> result S) (s : S) (x : A)
  (l : list A) :
  for_loop body s (x :: l) = body s x ≫= fun s' => for_loop body s' l.
Proof. done. Qed.

Lemma gemini_fallback_fails (self : GeminiEmbedder.t) (pre post : list string)
  (c : string) (e : exn) (acc : list (list R)) :
  GeminiEmbedder.embedding_dimension self < 0 ->
  Forall (fun c' => is_ok (g_embed_text self c') = true) pre ->
  g_embed_text self c = Raise e ->
  for_loop (g_step self) acc (pre ++ c :: post)
  = Raise (ValueError "negative dimensions are not allowed").
Proof.
  intros Hdim Hpre Hc. revert acc.
  induction Hpre as [|c' pre Hc' _ IH]; intros acc.
  - change ([] ++ c :: post)%list with (c :: post). rewrite for_loop_cons.
    by rewrite (gemini_step_fallback_fails self acc c e).
  - change ((c' :: pre) ++ c :: post)%list with (c' :: (pre ++ c :: post))%list.
    rewrite for_loop_cons.
    destruct (gemini_step_ok self acc c' Hc') as [v ->]. simpl. apply IH.
Qed.

End GeminiEmbedderFacts.

(** X3.  With a positive batch size and a non-negative embedding
    dimension, [GeminiEmbedder.embed_chunks] returns exactly one vector a
    chunk, in the order of the chunks, whatever the batch size: the
    embedding of the chunk, or a vector of [embedding_dimension] zeros
    where [embed_text] raised.  When every [embed_text] succeeds the
    result is the list of the embeddings. *)
Theorem gemini_embed_chunks_per_chunk (R : Type) (S : Scalar R)
  (embed_content : string -> string -> result (list R))
  (self : GeminiEmbedder.t) (chunks : list string) (batch_size : Z) :
  0 < batch_size ->
  0 <= GeminiEmbedder.embedding_dimension self ->
  (exists vs,
     GeminiEmbedder.embed_chunks embed_content self chunks batch_size = Ok vs /\
     length vs = length chunks /\
     Forall2
       (fun c v =>
          GeminiEmbedder.embed_text embed_content self c = Ok v \/
          (is_ok (GeminiEmbedder.embed_text embed_content self c) = false /\
           v = replicate
                 (Z.to_nat (GeminiEmbedder.embedding_dimension self)) fzero))
       chunks vs) /\
  (forall other : Z, 0 < other ->
     GeminiEmbedder.embed_chunks embed_content self chunks other
     = GeminiEmbedder.embed_chunks embed_content self chunks batch_size) /\
  (forall vs,
     Forall2 (fun c v => GeminiEmbedder.embed_text embed_content self c = Ok v)
       chunks vs ->
     GeminiEmbedder.embed_chunks embed_content self chunks batch_size = Ok vs).
Proof.
  intros Hbs Hdim.
  pose proof (embed_chunks_total embed_content self chunks) as Htotal.
  split; [|split].
  - exists (stored_for embed_content self <$> chunks).
    split; [by apply Htotal|]. split; [by rewrite length_fmap|].
    apply Forall2_fmap_r, Forall_Forall2_diag, Forall_forall.
    intros c _. unfold compose, stored_for. rewrite gemini_embed_text_eq.
    destruct (embed_content _ c); [by left | right; by split].
  - intros other Hother. by rewrite !Htotal.
  - intros vs Hvs. rewrite Htotal by done. f_equal.
    by apply gemini_all_succeed.
Qed.

(** X4.  [GeminiEmbedder.embed_chunks] with [batch_size = 0] raises
    [ValueError], also when there is nothing to embed; with a negative
    batch size it returns the empty list, embedding no chunk; and the
    fallback itself raises when [embedding_dimension] is negative: the
    first chunk whose embedding fails then ends the call with the
    [ValueError] of [np.zeros], not with the embedding error. *)
Theorem gemini_embed_chunks_edges (R : Type) (S : Scalar R)
  (embed_content : string -> string -> result (list R))
  (self : GeminiEmbedder.t) (chunks : list string) :
  GeminiEmbedder.embed_chunks embed_content self chunks 0
  = Raise (ValueError "range() arg 3 must not be zero") /\
  (forall batch_size : Z, batch_size < 0 ->
     GeminiEmbedder.embed_chunks embed_content self chunks batch_size = Ok []) /\
  (forall (batch_size : Z) pre c post e,
     0 < batch_size ->
     GeminiEmbedder.embedding_dimension self < 0 ->
     chunks = (pre ++ c :: post)%list ->
     Forall (fun c' => is_ok (GeminiEmbedder.embed_text embed_content self c')
                       = true) pre ->
     GeminiEmbedder.embed_text embed_content self c = Raise e ->
     GeminiEmbedder.embed_chunks embed_content self chunks batch_size
     = Raise (ValueError "negative dimensions are not allowed")).
Proof.
  split; [reflexivity|]. split.
  - intros batch_size Hbs. unfold GeminiEmbedder.embed_chunks, py_range.
    destruct (batch_size =? 0) eqn:E0; [lia|].
    by destruct (batch_size <? 0) eqn:E1; [|lia].
  - intros batch_size pre c post e Hbs Hdim -> Hpre Hc.
    rewrite gemini_embed_chunks_flat by done.
    by apply (gemini_fallback_fails embed_content self pre post c e).
Qed.

(** ** SupabaseVectorStore.insert_chunks *)

Section InsertChunksFacts.
Context {R : Type}.
Variable refuses : list (SupabaseVectorStore.payload R) -> option exn.

#[local] Abbreviation insert_batches := (SupabaseVectorStore.insert_batches refuses).
#[local] Abbreviation insert_chunks := (SupabaseVectorStore.insert_chunks refuses).

(** The loop takes whole batches in order until one is refused. *)
Lemma insert_batches_prefix (data table : list (SupabaseVectorStore.payload R))
  (a n : nat) table' outcome :
  insert_batches data table ((fun j => j * 100)%nat <$> seq a n)
  = (table', outcome) ->
  exists k, (k <= n)%nat /\
    table' = (table ++ take (k * 100) (drop (a * 100) data))%list /\
    match outcome with
    | Ok b => b = true /\ k = n
    | Raise e =>
      (k < n)%nat /\
      refuses (slice data ((a + k) * 100) ((a + k) * 100 + 100)) = Some e
    end.
Proof.
  revert a table. induction n as [|n IH]; intros a table.
  - simpl. intros [= <- <-]. exists 0%nat. by rewrite app_nil_r.
  - change (seq a (S n)) with (a :: seq (S a) n). rewrite fmap_cons.
    change (insert_batches data table
              ((a * 100)%nat :: ((fun j => j * 100)%nat <$> seq (S a) n)))
      with (match refuses (slice data (a * 100) (a * 100 + 100)) with
            | Some e => (table, Raise e)
            | None =>
              insert_batches data
                (table ++ slice data (a * 100) (a * 100 + 100))%list
                ((fun j => j * 100)%nat <$> seq (S a) n)
            end).
    destruct (refuses (slice data (a * 100) (a * 100 + 100))) as [e|] eqn:Href.
    + intros [= <- <-]. exists 0%nat.
      change (0 * 100)%nat with 0%nat. rewrite take_0, app_nil_r, Nat.add_0_r.
      repeat split; [lia | lia | done].
    + intros Hrest. apply IH in Hrest as (k & Hk & -> & Hout).
      exists (S k). split; [lia|]. split.
      * rewrite <- app_assoc. f_equal.
        replace (S k * 100)%nat with (100 + k * 100)%nat by lia.
        rewrite <- take_take_drop, drop_drop. unfold slice.
        replace (a * 100 + 100 - a * 100)%nat with 100%nat by lia.
        do 3 f_equal. lia.
      * destruct outcome as [b|e]; [split; [tauto | lia]|].
        destruct Hout as [Hlt Hout]. split; [lia|].
        by replace ((a + S k) * 100)%nat with ((S a + k) * 100)%nat by lia.
Qed.

(** How the loop ends: at the first batch that the store refuses, with
    every batch before it in the table, or with all of them there. *)
Lemma insert_batches_outcome (data table : list (SupabaseVectorStore.payload R))
  (a n : nat) :
  (exists k e, (k < n)%nat /\
     (forall j, (j < k)%nat ->
        refuses (slice data ((a + j) * 100) ((a + j) * 100 + 100)) = None) /\
     refuses (slice data ((a + k) * 100) ((a + k) * 100 + 100)) = Some e /\
     insert_batches data table ((fun j => j * 100)%nat <$> seq a n)
     = ((table ++ take (k * 100) (drop (a * 100) data))%list, Raise e)) \/
  ((forall j, (j < n)%nat ->
      refuses (slice data ((a + j) * 100) ((a + j) * 100 + 100)) = None) /\
   insert_batches data table ((fun j => j * 100)%nat <$> seq a n)
   = ((table ++ take (n * 100) (drop (a * 100) data))%list, Ok true)).
Proof.
  revert a table. induction n as [|n IH]; intros a table.
  - right. split; [intros j Hj; lia|]. simpl. by rewrite app_nil_r.
  - change (seq a (S n)) with (a :: seq (S a) n). rewrite fmap_cons.
    change (insert_batches data table
              ((a * 100)%nat :: ((fun j => j * 100)%nat <$> seq (S a) n)))
      with (match refuses (slice data (a * 100) (a * 100 + 100)) with
            | Some e => (table, Raise e)
            | None =>
              insert_batches data
                (table ++ slice data (a * 100) (a * 100 + 100))%list
                ((fun j => j * 100)%nat <$> seq (S a) n)
            end).
    assert (Hgrow : forall k,
              ((table ++ slice data (a * 100) (a * 100 + 100)) ++
               take (k * 100) (drop (S a * 100) data))%list
              = (table ++ take (S k * 100) (drop (a * 100) data))%list).
    { intros k. rewrite <- app_assoc. f_equal.
      replace (S k * 100)%nat with (100 + k * 100)%nat by lia.
      rewrite <- take_take_drop, drop_drop. unfold slice.
      replace (a * 100 + 100 - a * 100)%nat with 100%nat by lia.
      do 3 f_equal. lia. }
    destruct (refuses (slice data (a * 100) (a * 100 + 100))) as [e|] eqn:Href.
    + left. exists 0%nat, e. split; [lia|]. split; [intros j Hj; lia|].
      rewrite Nat.add_0_r. split; [done|].
      change (0 * 100)%nat with 0%nat. by rewrite take_0, app_nil_r.
    + assert (Hshift : forall j,
                refuses (slice data ((S a + j) * 100) ((S a + j) * 100 + 100))
                = refuses (slice data ((a + S j) * 100) ((a + S j) * 100 + 100))).
      { intros j. by replace (S a + j)%nat with (a + S j)%nat by lia. }
      destruct (IH (S a) (table ++ slice data (a * 100) (a * 100 + 100))%list)
        as [(k & e & Hk & Hbefore & Hat & Hrun)|[Hall Hrun]].
      * left. exists (S k), e. split; [lia|]. split; [|split].
        -- intros [|j] Hj; [by rewrite Nat.add_0_r|].
           rewrite <- Hshift. apply Hbefore. lia.
        -- by rewrite <- Hshift.
        -- by rewrite Hrun, Hgrow.
      * right. split.
        -- intros [|j] Hj; [by rewrite Nat.add_0_r|].
           rewrite <- Hshift. apply Hall. lia.
        -- by rewrite Hrun, Hgrow.
Qed.

Lemma to_payload_Ok (chunk : Dict R) (emb : list R)
  (d : SupabaseVectorStore.payload R) :
  SupabaseVectorStore.to_payload (chunk, emb) = Ok d ->
  chunk !! "page_number" = Some (SupabaseVectorStore.page_number d) /\
  chunk !! "sentence_chunk" = Some (SupabaseVectorStore.chunk_text d) /\
  chunk !! "chunk_char_count" = Some (SupabaseVectorStore.chunk_char_count d) /\
  chunk !! "chunk_word_count" = Some (SupabaseVectorStore.chunk_word_count d) /\
  chunk !! "chunk_token_count" = Some (SupabaseVectorStore.chunk_token_count d) /\
  SupabaseVectorStore.embedding d = emb.
Proof.
  unfold SupabaseVectorStore.to_payload, dict_getitem. simpl.
  destruct (chunk !! "page_number"); [|done].
  destruct (chunk !! "sentence_chunk"); [|done].
  destruct (chunk !! "chunk_char_count"); [|done].
  destruct (chunk !! "chunk_word_count"); [|done].
  destruct (chunk !! "chunk_token_count"); [|done].
  simpl. by intros [= <-].
Qed.

Lemma to_payload_missing (chunk : Dict R) (emb : list R) (key : string) :
  key ∈ ["page_number"; "sentence_chunk"; "chunk_char_count";
         "chunk_word_count"; "chunk_token_count"] ->
  chunk !! key = None ->
  exists key', SupabaseVectorStore.to_payload (chunk, emb) = Raise (KeyError key').
Proof.
  intros Hkey Hnone.
  unfold SupabaseVectorStore.to_payload, dict_getitem. simpl.
  destruct (chunk !! "page_number") eqn:E1; [|by eexists].
  destruct (chunk !! "sentence_chunk") eqn:E2; [|by eexists].
  destruct (chunk !! "chunk_char_count") eqn:E3; [|by eexists].
  destruct (chunk !! "chunk_word_count") eqn:E4; [|by eexists].
  destruct (chunk !! "chunk_token_count") eqn:E5; [|by eexists].
  exfalso.
  repeat (apply elem_of_cons in Hkey as [->|Hkey]; [congruence|]).
  by apply elem_of_nil in Hkey.
Qed.

End InsertChunksFacts.

Section InsertChunksOutcomes.
Context {R : Type}.
Variable refuses : list (SupabaseVectorStore.payload R) -> option exn.

Lemma to_payload_raises_KeyError (p : Dict R * list R) (e : exn) :
  SupabaseVectorStore.to_payload p = Raise e -> exists key, e = KeyError key.
Proof.
  unfold SupabaseVectorStore.to_payload, dict_getitem.
  destruct (p.1 !! "page_number"); simpl; [|intros [= <-]; by eexists].
  destruct (p.1 !! "sentence_chunk"); simpl; [|intros [= <-]; by eexists].
  destruct (p.1 !! "chunk_char_count"); simpl; [|intros [= <-]; by eexists].
  destruct (p.1 !! "chunk_word_count"); simpl; [|intros [= <-]; by eexists].
  destruct (p.1 !! "chunk_token_count"); simpl; [|intros [= <-]; by eexists].
  done.
Qed.

Lemma mapM_Raise_inv {A B} (g : A -> result B) (l : list A) (e : exn) :
  mapM g l = Raise e -> exists x, x ∈ l /\ g x = Raise e.
Proof.
  induction l as [|x l IH]; simpl; [done|].
  destruct (g x) as [y|e'] eqn:Hx; simpl.
  - destruct (mapM g l) as [k|e'']; simpl; [done|].
    intros [= ->]. destruct (IH eq_refl) as (x' & Hin & Hx').
    exists x'. split; [by right | done].
  - intros [= ->]. exists x. split; [by left | done].
Qed.

Lemma insert_chunks_unfold (table : list (SupabaseVectorStore.payload R))
  (chunks : list (Dict R)) (embeddings : list (list R)) data :
  length chunks = length embeddings ->
  mapM SupabaseVectorStore.to_payload (zip chunks embeddings) = Ok data ->
  SupabaseVectorStore.insert_chunks refuses table chunks embeddings
  = SupabaseVectorStore.insert_batches refuses data table
      ((fun j => j * 100)%nat <$> seq 0 ((length data + 100 - 1) / 100)%nat).
Proof.
  intros Hlen Hdata. unfold SupabaseVectorStore.insert_chunks.
  rewrite Hlen, Nat.eqb_refl, Hdata.
  by rewrite (py_range_positive (length data) 100) by lia.
Qed.

Lemma insert_chunks_cases (table : list (SupabaseVectorStore.payload R))
  (chunks : list (Dict R)) (embeddings : list (list R)) :
  (length chunks <> length embeddings /\
   SupabaseVectorStore.insert_chunks refuses table chunks embeddings
   = (table,
      Raise (ValueError "Number of chunks must match number of embeddings")))
  \/
  (length chunks = length embeddings /\
   exists e,
     mapM SupabaseVectorStore.to_payload (zip chunks embeddings) = Raise e /\
     SupabaseVectorStore.insert_chunks refuses table chunks embeddings
     = (table, Raise e))
  \/
  (length chunks = length embeddings /\
   exists data k,
     mapM SupabaseVectorStore.to_payload (zip chunks embeddings) = Ok data /\
     (k * 100 <= length data + 99)%nat /\
     exists outcome,
       SupabaseVectorStore.insert_chunks refuses table chunks embeddings
       = ((table ++ take (k * 100) data)%list, outcome) /\
       match outcome with
       | Ok b => b = true /\ (length data <= k * 100)%nat
       | Raise e =>
         (k * 100 < length data)%nat /\
         refuses (slice data (k * 100) (k * 100 + 100)) = Some e
       end).
Proof.
  destruct (decide (length chunks = length embeddings)) as [Hlen|Hlen].
  - right.
    destruct (mapM SupabaseVectorStore.to_payload (zip chunks embeddings))
      as [data|e] eqn:Hdata.
    + right. split; [done|].
      rewrite (insert_chunks_unfold table chunks embeddings data) by done.
      set (n := ((length data + 100 - 1) / 100)%nat).
      destruct (SupabaseVectorStore.insert_batches refuses data table
                  ((fun j => j * 100)%nat <$> seq 0 n))
        as [table' outcome] eqn:Hrun.
      apply insert_batches_prefix in Hrun as (k & Hk & -> & Hout).
      change (0 * 100)%nat with 0%nat in *. rewrite drop_0 in *.
      pose proof (batch_count_covers (length data) 100 ltac:(lia)) as Hcov.
      assert (Hn : (n * 100 <= length data + 99)%nat).
      { unfold n. pose proof (Nat.div_mod_eq (length data + 100 - 1) 100).
        lia. }
      exists data, k. split; [done|]. split; [nia|].
      exists outcome. split; [done|].
      destruct outcome as [b|e].
      * destruct Hout as [-> ->]. split; [done|]. exact Hcov.
      * destruct Hout as [Hlt Href]. simpl in Href. split; [lia|done].
    + left. split; [done|]. exists e. split; [done|].
      unfold SupabaseVectorStore.insert_chunks.
      by rewrite Hlen, Nat.eqb_refl, Hdata.
  - left. split; [done|]. unfold SupabaseVectorStore.insert_chunks.
    by apply Nat.eqb_neq in Hlen as ->.
Qed.

End InsertChunksOutcomes.

(** Three chunks in batches of two, embedded by the echo service. *)
Lemma openai_embed_chunks_batches_witness :
  OpenAIEmbedder.embed_chunks Examples.echo_service Examples.openai
    ["a"; "bb"; "ccc"] 2
  = Ok (Examples.length_embedding <$> ["a"; "bb"; "ccc"]).
Proof.
  destruct (openai_embed_chunks_batches Q Examples.echo_service Examples.openai
              ["a"; "bb"; "ccc"] 2 ltac:(lia))
    as (pieces & _ & _ & _ & Hall & _).
  apply Hall. apply Forall_forall. by intros b _.
Defined.

(** The three chunks of which the second fails, in batches of two. *)
Lemma gemini_embed_chunks_per_chunk_witness :
  exists vs,
    GeminiEmbedder.embed_chunks Scenario.flaky_embed_content Scenario.embedder
      ["a"; "b"; "c"] 2 = Ok vs /\
    length vs = 3%nat.
Proof.
  destruct (gemini_embed_chunks_per_chunk Q _ Scenario.flaky_embed_content
              Scenario.embedder ["a"; "b"; "c"] 2 ltac:(lia)
              ltac:(simpl; lia))
    as ((vs & Hvs & Hlen & _) & _).
  by exists vs.
Defined.

(** With a negative dimension the failure on ["b"] ends the call. *)
Lemma gemini_embed_chunks_edges_witness :
  GeminiEmbedder.embed_chunks Scenario.flaky_embed_content
    Examples.embedder_negative ["a"; "b"; "c"] 100
  = Raise (ValueError "negative dimensions are not allowed").
Proof.
  destruct (gemini_embed_chunks_edges Q _ Scenario.flaky_embed_content
              Examples.embedder_negative ["a"; "b"; "c"]) as (_ & _ & Hneg).
  apply (Hneg 100 ["a"] "b" ["c"] (APIError "503 service unavailable"));
    [lia | simpl; lia | reflexivity | by repeat constructor | reflexivity].
Defined.

(** X5.  When [insert_chunks] returns, it returns [True], the two lists had
    the same length, and the table has grown by exactly one row a chunk,
    in the order of the chunks: each row holds the chunk's [page_number],
    its [sentence_chunk] as [chunk_text], its three counts, and the
    embedding at the chunk's position. *)
Theorem insert_chunks_success (R : Type)
  (refuses : list (SupabaseVectorStore.payload R) -> option exn)
  (table table' : list (SupabaseVectorStore.payload R))
  (chunks : list (Dict R)) (embeddings : list (list R)) (b : bool) :
  SupabaseVectorStore.insert_chunks refuses table chunks embeddings
  = (table', Ok b) ->
  b = true /\ length chunks = length embeddings /\
  exists rows,
    table' = (table ++ rows)%list /\ length rows = length chunks /\
    Forall2
      (fun ce d =>
         ce.1 !! "page_number" = Some (SupabaseVectorStore.page_number d) /\
         ce.1 !! "sentence_chunk" = Some (SupabaseVectorStore.chunk_text d) /\
         ce.1 !! "chunk_char_count"
         = Some (SupabaseVectorStore.chunk_char_count d) /\
         ce.1 !! "chunk_word_count"
         = Some (SupabaseVectorStore.chunk_word_count d) /\
         ce.1 !! "chunk_token_count"
         = Some (SupabaseVectorStore.chunk_token_count d) /\
         SupabaseVectorStore.embedding d = ce.2)
      (zip chunks embeddings) rows.
Proof.
  intros Hrun.
  destruct (insert_chunks_cases refuses table chunks embeddings)
    as [[_ Heq]|[(_ & e & _ & Heq)|(Hlen & data & k & Hdata & _ & out & Heq & Hout)]];
    rewrite Heq in Hrun; try done.
  injection Hrun as Htable Hb. subst out table'. destruct Hout as [-> Hk].
  split; [done|]. split; [done|]. exists data.
  rewrite take_ge by done. split; [done|].
  split.
  - apply mapM_Ok_length in Hdata. rewrite Hdata, length_zip_with. lia.
  - eapply Forall2_impl; [by apply mapM_Ok_inv|].
    intros [chunk emb] d Hd. by apply to_payload_Ok.
Qed.

(** Two chunks inserted into an empty table that takes every batch. *)
Lemma insert_chunks_success_witness :
  exists rows,
    SupabaseVectorStore.insert_chunks Examples.takes_all []
      [Examples.chunk "alpha" 1; Examples.chunk "beta" 2]
      [[1; 0]; [0; 1]]%Q
    = (rows, Ok true) /\
    length rows = 2%nat.
Proof.
  destruct (SupabaseVectorStore.insert_chunks Examples.takes_all []
              [Examples.chunk "alpha" 1; Examples.chunk "beta" 2]
              [[1; 0]; [0; 1]]%Q) as [rows out] eqn:Hrun.
  assert (Hout : out = Ok true).
  { apply (f_equal snd) in Hrun. vm_compute in Hrun. congruence. }
  subst out.
  destruct (insert_chunks_success Q Examples.takes_all [] rows _ _ true Hrun)
    as (_ & _ & rows' & -> & Hlen & _).
  exists rows'. split; [done|]. exact Hlen.
Defined.

Section InsertChunksFailure.
Context {R : Type}.
Variable refuses : list (SupabaseVectorStore.payload R) -> option exn.

(** The run of [insert_chunks] on well-formed input: it ends at the
    first batch refused, or takes every batch. *)
Lemma insert_chunks_outcome (table : list (SupabaseVectorStore.payload R))
  (chunks : list (Dict R)) (embeddings : list (list R)) rows :
  length chunks = length embeddings ->
  mapM SupabaseVectorStore.to_payload (zip chunks embeddings) = Ok rows ->
  (exists k e, (k * 100 < length rows)%nat /\
     (forall j, (j < k)%nat ->
        refuses (slice rows (j * 100) (j * 100 + 100)) = None) /\
     refuses (slice rows (k * 100) (k * 100 + 100)) = Some e /\
     SupabaseVectorStore.insert_chunks refuses table chunks embeddings
     = ((table ++ take (k * 100) rows)%list, Raise e)) \/
  ((forall j, (j * 100 < length rows)%nat ->
      refuses (slice rows (j * 100) (j * 100 + 100)) = None) /\
   SupabaseVectorStore.insert_chunks refuses table chunks embeddings
   = ((table ++ rows)%list, Ok true)).
Proof.
  intros Hlen Hrows.
  rewrite (insert_chunks_unfold refuses table chunks embeddings rows) by done.
  set (n := ((length rows + 100 - 1) / 100)%nat).
  pose proof (batch_count_covers (length rows) 100 ltac:(lia)) as Hcov.
  fold n in Hcov.
  assert (Hn : (n * 100 <= length rows + 99)%nat).
  { unfold n. pose proof (Nat.div_mod_eq (length rows + 100 - 1) 100). lia. }
  destruct (insert_batches_outcome refuses rows table 0 n)
    as [(k & e & Hk & Hbefore & Hat & Hrun)|[Hall Hrun]];
    change (0 * 100)%nat with 0%nat in Hrun; rewrite drop_0 in Hrun.
  - left. exists k, e. split; [nia|]. split; [|split; [done|done]].
    intros j Hj. exact (Hbefore j Hj).
  - right. split.
    + intros j Hj. apply (Hall j). nia.
    + by rewrite Hrun, take_ge by lia.
Qed.

End InsertChunksFailure.

(** X6.  When [insert_chunks] raises, either nothing was sent and the
    table is unchanged (lists of different lengths raise [ValueError], a
    chunk without one of the five keys raises [KeyError]), or the store
    has refused a batch: then every batch before the first one refused
    is in the table and stays there, the table having grown by exactly
    100 rows for each of them, and the exception is that of the refused
    batch.  Conversely, whenever the first batch that the store refuses
    is batch number [k], the call raises with the [k * 100] rows of the
    batches before it inserted: the insertion is not undone. *)
Theorem insert_chunks_failure (R : Type)
  (refuses : list (SupabaseVectorStore.payload R) -> option exn)
  (table : list (SupabaseVectorStore.payload R))
  (chunks : list (Dict R)) (embeddings : list (list R)) :
  (forall table' e,
     SupabaseVectorStore.insert_chunks refuses table chunks embeddings
     = (table', Raise e) ->
     (length chunks <> length embeddings /\ table' = table /\
      e = ValueError "Number of chunks must match number of embeddings") \/
     (length chunks = length embeddings /\ table' = table /\
      mapM SupabaseVectorStore.to_payload (zip chunks embeddings) = Raise e) \/
     (exists rows k,
        mapM SupabaseVectorStore.to_payload (zip chunks embeddings) = Ok rows /\
        (k * 100 < length rows)%nat /\
        (forall j, (j < k)%nat ->
           refuses (slice rows (j * 100) (j * 100 + 100)) = None) /\
        refuses (slice rows (k * 100) (k * 100 + 100)) = Some e /\
        table' = (table ++ take (k * 100) rows)%list /\
        length table' = (length table + k * 100)%nat)) /\
  (forall rows k e,
     length chunks = length embeddings ->
     mapM SupabaseVectorStore.to_payload (zip chunks embeddings) = Ok rows ->
     (k * 100 < length rows)%nat ->
     (forall j, (j < k)%nat ->
        refuses (slice rows (j * 100) (j * 100 + 100)) = None) ->
     refuses (slice rows (k * 100) (k * 100 + 100)) = Some e ->
     SupabaseVectorStore.insert_chunks refuses table chunks embeddings
     = ((table ++ take (k * 100) rows)%list, Raise e)) /\
  (length chunks <> length embeddings ->
   SupabaseVectorStore.insert_chunks refuses table chunks embeddings
   = (table,
      Raise (ValueError "Number of chunks must match number of embeddings"))) /\
  (forall chunk key,
     length chunks = length embeddings ->
     chunk ∈ chunks ->
     key ∈ ["page_number"; "sentence_chunk"; "chunk_char_count";
            "chunk_word_count"; "chunk_token_count"] ->
     chunk !! key = None ->
     exists key',
       SupabaseVectorStore.insert_chunks refuses table chunks embeddings
       = (table, Raise (KeyError key'))).
Proof.
  split; [|split; [|split]].
  - intros table' e Hrun.
    destruct (insert_chunks_cases refuses table chunks embeddings)
      as [[Hne Heq]|[(Hlen & e' & Hmap & Heq)
                    |(Hlen & rows & _ & Hrows & _)]].
    + rewrite Heq in Hrun. injection Hrun as <- <-. by left.
    + rewrite Heq in Hrun. injection Hrun as <- <-. right. by left.
    + right. right.
      destruct (insert_chunks_outcome refuses table chunks embeddings rows
                  Hlen Hrows)
        as [(k & e' & Hk & Hbefore & Hat & Heq)|[_ Heq]];
        rewrite Heq in Hrun; [|done].
      injection Hrun as <- <-. exists rows, k.
      repeat split; try done.
      rewrite length_app, length_take. lia.
  - intros rows k e Hlen Hrows Hk Hbefore Hat.
    destruct (insert_chunks_outcome refuses table chunks embeddings rows
                Hlen Hrows)
      as [(k' & e' & Hk' & Hbefore' & Hat' & Heq)|[Hall _]].
    + destruct (lt_eq_lt_dec k k') as [[Hlt|<-]|Hgt].
      * rewrite (Hbefore' k Hlt) in Hat. done.
      * rewrite Hat in Hat'. by injection Hat' as <-.
      * rewrite (Hbefore k' Hgt) in Hat'. done.
    + rewrite (Hall k Hk) in Hat. done.
  - intros Hlen.
    destruct (insert_chunks_cases refuses table chunks embeddings)
      as [[_ Heq]|[(Hlen' & _)|(Hlen' & _)]]; done.
  - intros chunk key Hlen Hin Hkey Hnone.
    destruct (insert_chunks_cases refuses table chunks embeddings)
      as [[Hne _]|[(_ & e & Hmap & Heq)|(_ & data & k & Hdata & _)]];
      [done| |].
    + apply mapM_Raise_inv in Hmap as (p & _ & Hp).
      apply to_payload_raises_KeyError in Hp as [key' ->]. by exists key'.
    + exfalso. apply mapM_Ok_inv in Hdata.
      apply list_elem_of_lookup in Hin as [i Hi].
      destruct (lookup_lt_is_Some_2 embeddings i) as [emb Hemb].
      { rewrite <- Hlen. by eapply lookup_lt_Some. }
      assert (Hzip : zip chunks embeddings !! i = Some (chunk, emb)).
      { rewrite lookup_zip_with, Hi. simpl. by rewrite Hemb. }
      destruct (Forall2_lookup_l _ _ _ _ _ Hdata Hzip) as (d & _ & Hd).
      destruct (to_payload_missing chunk emb key Hkey Hnone) as [key' Hraise].
      congruence.
Qed.

(** 150 chunks against a store that refuses a batch of fewer than 100
    rows: the first batch is taken, the second refused; the call raises
    and the 100 rows of the first batch are in the table.  And lists of
    different lengths. *)
Lemma insert_chunks_failure_witness :
  (exists table',
     SupabaseVectorStore.insert_chunks Examples.refuses_short []
       Examples.chunks150 Examples.embeddings150
     = (table', Raise (APIError "batch too short")) /\
     length table' = 100%nat) /\
  SupabaseVectorStore.insert_chunks Examples.takes_all []
    [Examples.chunk "alpha" 1] []
  = ([], Raise (ValueError "Number of chunks must match number of embeddings")).
Proof.
  destruct (insert_chunks_failure Q Examples.refuses_short []
              Examples.chunks150 Examples.embeddings150) as (_ & Hrun & _ & _).
  destruct (insert_chunks_failure Q Examples.takes_all []
              [Examples.chunk "alpha" 1] []) as (_ & _ & Hlen & _).
  split.
  - eexists. split.
    + apply (Hrun (replicate 150 Examples.payload_alpha) 1%nat
               (APIError "batch too short")).
      * reflexivity.
      * vm_compute; reflexivity.
      * vm_compute. lia.
      * intros j Hj. assert (j = 0%nat) as -> by lia. vm_compute; reflexivity.
      * vm_compute; reflexivity.
    + vm_compute; reflexivity.
  - apply Hlen. simpl. lia.
Defined.

(** ** Settings.validate *)

Lemma missing_fields_nil (s : AppSettings.t) :
  AppSettings.missing_fields s = [] <->
  (Config.RETRIEVER_MODE (AppSettings.core s) = "supabase" ->
     Config.SUPABASE_URL (AppSettings.core s) <> "" /\
     Config.SUPABASE_SERVICE_ROLE_KEY (AppSettings.core s) <> "") /\
  (AppSettings.MODEL_BACKEND s = "api" -> AppSettings.OPENAI_API_KEY s <> "") /\
  (AppSettings.MODEL_BACKEND s = "gemini" -> AppSettings.GEMINI_API_KEY s <> "").
Proof.
  unfold AppSettings.missing_fields, AppSettings.required_fields.
  destruct (String.eqb (Config.RETRIEVER_MODE _) "supabase") eqn:Em;
    destruct (String.eqb (AppSettings.MODEL_BACKEND s) "api") eqn:Ea;
    destruct (String.eqb (AppSettings.MODEL_BACKEND s) "gemini") eqn:Eg;
    rewrite ?String.eqb_eq, ?String.eqb_neq in *; simpl;
    rewrite ?filter_cons, ?filter_nil; simpl;
    repeat case_decide; simpl; split;
    try (intros; discriminate);
    try (intros _; repeat split; intros; congruence);
    try (intros (Hm & Ha & Hg); exfalso; intuition congruence).
Qed.

(** X7.  [validate] returns [True] exactly when the backend is one of
    'local', 'api', 'gemini', the retriever mode is 'local' or 'supabase',
    and the credentials of the selected backends are not empty: the
    Supabase URL and key in mode 'supabase', the OpenAI key for 'api', the
    Gemini key for 'gemini'.  It never returns [False]; missing
    credentials are reported first, all of them in one message. *)
Theorem validate_accepts_iff (s : AppSettings.t) :
  (AppSettings.validate s = Ok true <->
   AppSettings.MODEL_BACKEND s ∈ ["local"; "api"; "gemini"] /\
   Config.RETRIEVER_MODE (AppSettings.core s) ∈ ["local"; "supabase"] /\
   (Config.RETRIEVER_MODE (AppSettings.core s) = "supabase" ->
      Config.SUPABASE_URL (AppSettings.core s) <> "" /\
      Config.SUPABASE_SERVICE_ROLE_KEY (AppSettings.core s) <> "") /\
   (AppSettings.MODEL_BACKEND s = "api" ->
      AppSettings.OPENAI_API_KEY s <> "") /\
   (AppSettings.MODEL_BACKEND s = "gemini" ->
      AppSettings.GEMINI_API_KEY s <> "")) /\
  (forall b, AppSettings.validate s = Ok b -> b = true) /\
  (AppSettings.missing_fields s <> [] ->
   AppSettings.validate s
   = Raise (ValueError ("Missing required environment variables: "
                        +:+ join ", " (AppSettings.missing_fields s)))).
Proof.
  pose proof (missing_fields_nil s) as Hmiss.
  unfold AppSettings.validate.
  destruct (AppSettings.missing_fields s) as [|f fs] eqn:Hm.
  - assert (Hcred := proj1 Hmiss eq_refl).
    split; [|split; [|done]].
    + repeat case_bool_decide; simpl; split; try done; try tauto.
    + intros b. repeat case_bool_decide; simpl; congruence.
  - split; [|split; [done|done]].
    split; [done|]. intros (_ & _ & H1 & H2 & H3).
    assert (f :: fs = []) by (apply Hmiss; tauto). done.
Qed.

(** The settings of an empty environment pass. *)
Lemma validate_accepts_iff_witness :
  AppSettings.validate Examples.app_settings = Ok true.
Proof.
  apply (proj1 (validate_accepts_iff Examples.app_settings)).
  repeat split; try discriminate; set_solver.
Defined.

(** X8.  After [validate] has passed, neither factory meets an unknown
    mode: [get_retriever] on [RETRIEVER_MODE] builds the in-memory
    retriever or calls the constructor of the remote one, then with a URL
    and a key that are not empty; [get_embedder] calls the constructor of
    the local or the OpenAI embedder, or returns the Gemini embedder, whose
    key check passes, with the configured model and dimension. *)
Theorem validate_guards_factories (R : Type) (S : Scalar R)
  (s : AppSettings.t) (cuda : bool)
  (create_client : string -> string -> result (SupabaseRetriever.Client R))
  (LocalEmbedder : Type) (local_embedder_init : result LocalEmbedder)
  (openai_client : string -> result unit)
  (embeddings : option (Torch.Tensor R)) (chunks : option (list (Dict R))) :
  AppSettings.validate s = Ok true ->
  ((Factory.get_retriever (AppSettings.core s) cuda create_client
      (Config.RETRIEVER_MODE (AppSettings.core s)) embeddings chunks).2
   = Ok (Factory.Local (LocalRetriever.init embeddings chunks))
   \/
   ((Factory.get_retriever (AppSettings.core s) cuda create_client
       (Config.RETRIEVER_MODE (AppSettings.core s)) embeddings chunks).2
    = Factory.Supabase
        <$> SupabaseRetriever.init (AppSettings.core s) create_client /\
    Config.SUPABASE_URL (AppSettings.core s) <> "" /\
    Config.SUPABASE_SERVICE_ROLE_KEY (AppSettings.core s) <> "")) /\
  (EmbedderFactory.get_embedder LocalEmbedder local_embedder_init
     openai_client s
   = EmbedderFactory.Local LocalEmbedder <$> local_embedder_init
   \/
   EmbedderFactory.get_embedder LocalEmbedder local_embedder_init
     openai_client s
   = EmbedderFactory.OpenAI LocalEmbedder
       <$> EmbedderFactory.openai_embedder_init openai_client s None
   \/
   EmbedderFactory.get_embedder LocalEmbedder local_embedder_init
     openai_client s
   = Ok (EmbedderFactory.Gemini LocalEmbedder
           {| GeminiEmbedder.model :=
                Config.GEMINI_EMBEDDING_MODEL (AppSettings.core s);
              GeminiEmbedder.embedding_dimension :=
                Config.GEMINI_EMBEDDING_DIMENSION (AppSettings.core s) |})).
Proof.
  intros Hv.
  apply (proj1 (validate_accepts_iff s)) in Hv
    as (Hbackend & Hmode & Hsupabase & _ & Hgemini).
  split.
  - unfold Factory.get_retriever.
    apply elem_of_cons in Hmode as [Hm|Hmode].
    + left. by rewrite Hm.
    + apply list_elem_of_singleton in Hmode. right.
      rewrite Hmode. simpl. by split; [|apply Hsupabase].
  - unfold EmbedderFactory.get_embedder.
    apply elem_of_cons in Hbackend as [Hb|Hbackend];
      [left; by rewrite Hb|].
    apply elem_of_cons in Hbackend as [Hb|Hbackend];
      [right; left; by rewrite Hb|].
    apply list_elem_of_singleton in Hbackend. right; right.
    rewrite Hbackend. simpl. unfold EmbedderFactory.gemini_embedder_init.
    specialize (Hgemini Hbackend). apply String.eqb_neq in Hgemini.
    by rewrite Hgemini.
Qed.

(** Under the Gemini settings the factory returns a Gemini embedder of
    dimension 768. *)
Lemma validate_guards_factories_witness :
  EmbedderFactory.get_embedder unit (Ok tt) (fun _ => Ok tt)
    Examples.app_settings_gemini
  = Ok (EmbedderFactory.Gemini unit
          {| GeminiEmbedder.model := "models/embedding-001";
             GeminiEmbedder.embedding_dimension := 768 |}).
Proof.
  destruct (validate_guards_factories Q _ Examples.app_settings_gemini false
              (fun _ _ => Raise (APIError "unreachable")) unit (Ok tt)
              (fun _ => Ok tt) None None eq_refl) as [_ [H|[H|H]]].
  - vm_compute in H. discriminate.
  - vm_compute in H. discriminate.
  - exact H.
Defined.

(** ** Search results as context *)

Lemma context_item_of_document {R} (c : Dict R) (i : Z) (s : R) :
  LocalRetriever.context_item
    (<["id" := PInt i]> (<["similarity" := PFloat s]> c))
  = LocalRetriever.context_item c.
Proof. unfold LocalRetriever.context_item. by simplify_map_eq. Qed.

(** X9.  The results of a successful in-memory search always format:
    when every chunk of the index has a string under ['sentence_chunk']
    (or, failing that, under ['chunk_text']), [format_context] of the
    results returns the sentinel if there are none and otherwise one
    bullet a result, in rank order, with the text of the chunk at the
    result's ['id']; the fields [search] adds do not disturb the text. *)
Theorem local_search_results_format (R : Type) (S : Scalar R)
  (settings : Config.Settings) (self : LocalRetriever.t R) (C : list (Dict R))
  (q : list R) (top_k : option Z) (docs : list (Dict R)) :
  LocalRetriever.search settings self q top_k = Ok docs ->
  LocalRetriever.chunks self = Some C ->
  Forall (fun c => exists s, LocalRetriever.context_item c = PStr s) C ->
  exists texts,
    Forall2
      (fun doc s =>
         exists (i : nat) c,
           doc !! "id" = Some (PInt (Z.of_nat i)) /\ C !! i = Some c /\
           LocalRetriever.context_item c = PStr s)
      docs texts /\
    LocalRetriever.format_context docs
    = Ok (match docs with
          | [] => "No relevant context found."
          | _ => join newline (String.append "- " <$> texts)
          end).
Proof.
  intros Hs HC Htext.
  apply search_Ok_inv in Hs as (E & C' & _ & HC' & _ & _ & HF).
  assert (C' = C) as -> by congruence.
  assert (Hdocs : Forall (fun doc => exists s,
                    LocalRetriever.context_item doc = PStr s /\
                    exists (i : nat) c,
                      doc !! "id" = Some (PInt (Z.of_nat i)) /\
                      C !! i = Some c /\
                      LocalRetriever.context_item c = PStr s) docs).
  { eapply Forall2_Forall_r; [exact HF|]. apply Forall_true.
    intros [sc i] doc Hdoc.
    apply make_document_Ok in Hdoc as (c & Hc & ->). simpl in *.
    rewrite Forall_forall in Htext.
    destruct (Htext c) as [s Hs]; [by eapply list_elem_of_lookup_2|].
    exists s. split; [by rewrite context_item_of_document|].
    exists i, c. split; [by simplify_map_eq|done]. }
  apply Forall_exists_Forall2_l in Hdocs as [texts Htexts].
  exists texts. split.
  - eapply Forall2_impl; [exact Htexts|]. by intros doc s [_ H].
  - destruct docs as [|d docs]; [done|].
    apply local_format_context_texts; [done|].
    eapply Forall2_impl; [exact Htexts|]. by intros doc s [H _].
Qed.

Lemma local_search_results_format_witness :
  exists docs texts,
    LocalRetriever.search Scenario.settings Scenario.retriever3 [1; 0]%Q
      (Some 2) = Ok docs /\
    length texts = 2%nat /\
    LocalRetriever.format_context docs
    = Ok (join newline (String.append "- " <$> texts)).
Proof.
  set (docs := [<["id" := PInt 0]>
              (<["similarity" := PFloat 1%Q]> (Scenario.passage "v1" 1));
            <["id" := PInt 2]>
              (<["similarity" := PFloat (7 # 10)%Q]>
                 (Scenario.passage "v3" 3))]).
  assert (Hs : LocalRetriever.search Scenario.settings Scenario.retriever3
                 [1; 0]%Q (Some 2) = Ok docs)
    by (vm_compute; reflexivity).
  destruct (local_search_results_format Q _ Scenario.settings
              Scenario.retriever3 Scenario.chunks3 [1; 0]%Q (Some 2) docs Hs
              eq_refl)
    as (texts & HF & Hfmt).
  { repeat constructor; eexists; reflexivity. }
  exists docs, texts. split; [exact Hs|]. split.
  - by rewrite <- (Forall2_length _ _ _ HF).
  - exact Hfmt.
Defined.

(** ** The outcomes of a search on a loaded index *)

Lemma make_document_Raise {R} (C : list (Dict R)) (p : R * nat) (e : exn) :
  LocalRetriever.make_document C p = Raise e ->
  (length C <= p.2)%nat /\ e = IndexError "list index out of range".
Proof.
  unfold LocalRetriever.make_document, list_getitem.
  destruct (C !! p.2) as [c|] eqn:Hc; simpl; [done|].
  intros [= <-]. split; [by apply lookup_ge_None|done].
Qed.

Lemma mapM_make_document {R} (C : list (Dict R)) (best : list (R * nat)) :
  (Forall (fun p => (p.2 < length C)%nat) best ->
   exists docs, mapM (LocalRetriever.make_document C) best = Ok docs /\
     length docs = length best) /\
  (Exists (fun p => (length C <= p.2)%nat) best ->
   mapM (LocalRetriever.make_document C) best
   = Raise (IndexError "list index out of range")).
Proof.
  split.
  - intros Hall. apply mapM_Ok_total.
    eapply Forall_impl; [exact Hall|]. intros p Hp.
    destruct (lookup_lt_is_Some_2 C p.2 Hp) as [c Hc].
    eexists. apply make_document_Ok. by exists c.
  - intros Hex.
    destruct (mapM (LocalRetriever.make_document C) best) as [docs|e] eqn:Hm.
    + apply mapM_Ok_inv in Hm. apply Exists_exists in Hex as (p & Hin & Hp).
      apply list_elem_of_lookup_1 in Hin as [i Hi].
      destruct (Forall2_lookup_l _ _ _ _ _ Hm Hi) as (doc & _ & Hdoc).
      apply make_document_Ok in Hdoc as (c & Hc & _).
      apply lookup_lt_Some in Hc. lia.
    + apply mapM_Raise_inv in Hm as (p & _ & Hp).
      by apply make_document_Raise in Hp as [_ ->].
Qed.

(** X10.  On a loaded index the width of the query is checked before the
    count: a query whose length differs from the width of the index
    raises the RuntimeError of the matrix product, 'mat1 and mat2 shapes
    cannot be multiplied (1xd and DxN)', whatever [top_k] is.  With a
    query of the right width and a count in range, the search returns
    [top_k] results when every position that the top-k selection picks
    has a chunk, and raises IndexError 'list index out of range',
    returning none of the results, as soon as one of them lies beyond the
    list of chunks: an index with more vectors than chunks answers some
    queries and fails on others.  The selection is that of the library:
    its kernel, NaN ranked highest, its order of equal scores. *)
Theorem local_search_outcomes (R : Type) (S : Scalar R)
  (settings : Config.Settings) (self : LocalRetriever.t R)
  (E : Torch.Tensor R) (C : list (Dict R)) (q : list R) (top_k : option Z) :
  LocalRetriever.embeddings self = Some E ->
  LocalRetriever.chunks self = Some C ->
  let k := py_or top_k (Config.TOP_K_RESULTS settings) in
  let best := take (Z.to_nat k) (Torch.ranked (Torch.scores q E) k) in
  (length q <> Torch.ncols E ->
   LocalRetriever.search settings self q top_k
   = Raise (Torch.shape_mismatch 1 (length q) (Torch.ncols E) (Torch.len E)))
  /\
  (length q = Torch.ncols E -> 0 <= k <= Z.of_nat (Torch.len E) ->
   (Forall (fun p => (p.2 < length C)%nat) best ->
    exists docs, LocalRetriever.search settings self q top_k = Ok docs /\
      length docs = Z.to_nat k) /\
   (Exists (fun p => (length C <= p.2)%nat) best ->
    LocalRetriever.search settings self q top_k
    = Raise (IndexError "list index out of range"))).
Proof.
  intros HE HC k best. split.
  - intros Hq. by apply (search_shape_mismatch settings self E C).
  - intros Hq Hk.
    rewrite (search_in_range settings self E C) by done.
    fold k. fold best.
    destruct (mapM_make_document C best) as [Hall Hex]. split.
    + intros Hb. destruct (Hall Hb) as (docs & Hdocs & Hlen).
      exists docs. split; [done|]. rewrite Hlen. unfold best.
      rewrite length_take, ranked_length, scores_length. lia.
    + exact Hex.
Qed.

(** Three vectors with chunks for the first two only.  Over the
    rationals: a query of three entries is refused with the shapes in the
    message; the query [0,1] is answered with the second chunk; the query
    [1,1] selects the third vector and fails.  In binary32, of the
    vectors [NaN], [1], [2]: [top_k = 1] selects the vector of score NaN,
    which has a chunk, and returns; [top_k = 2] selects the third vector
    as well and fails. *)
Lemma local_search_outcomes_witness :
  LocalRetriever.search Scenario.settings Examples.retriever_short [1; 0; 0]%Q
    (Some 1)
  = Raise (RuntimeError
             "mat1 and mat2 shapes cannot be multiplied (1x3 and 2x3)") /\
  (exists docs,
     LocalRetriever.search Scenario.settings Examples.retriever_short [0; 1]%Q
       (Some 1) = Ok docs /\ length docs = 1%nat) /\
  LocalRetriever.search Scenario.settings Examples.retriever_short [1; 1]%Q
    (Some 1)
  = Raise (IndexError "list index out of range") /\
  (exists docs,
     @LocalRetriever.search float32 float32_in_order Scenario.settings
       Examples.retriever_nan_short [Scenario.f32_1] (Some 1) = Ok docs /\
     length docs = 1%nat) /\
  @LocalRetriever.search float32 float32_in_order Scenario.settings
    Examples.retriever_nan_short [Scenario.f32_1] (Some 2)
  = Raise (IndexError "list index out of range").
Proof.
  pose proof (fun q =>
    local_search_outcomes Q _ Scenario.settings Examples.retriever_short
      Scenario.index3
      [Scenario.passage "v1" 1; Scenario.passage "v2" 2] q (Some 1)
      eq_refl eq_refl) as Hthm.
  pose proof (fun k =>
    local_search_outcomes float32 float32_in_order Scenario.settings
      Examples.retriever_nan_short Scenario.index_nan
      [Scenario.passage "v1" 1; Scenario.passage "v2" 2] [Scenario.f32_1]
      (Some k) eq_refl eq_refl) as Hnan.
  split; [|split; [|split; [|split]]].
  - apply (Hthm [1; 0; 0]%Q). simpl. lia.
  - apply (Hthm [0; 1]%Q); [reflexivity | vm_compute; split; discriminate |].
    vm_compute. repeat constructor.
  - apply (Hthm [1; 1]%Q); [reflexivity | vm_compute; split; discriminate |].
    vm_compute. apply Exists_cons_hd. simpl. lia.
  - apply (Hnan 1); [reflexivity | vm_compute; split; discriminate |].
    vm_compute. repeat constructor.
  - apply (Hnan 2); [reflexivity | vm_compute; split; discriminate |].
    vm_compute. apply Exists_cons_tl, Exists_cons_hd. simpl. lia.
Defined.

(** ** The pipeline *)

Lemma bind_Ok {A B} (a : A) (f : A -> result B) : Ok a ≫= f = f a.
Proof. done. Qed.

Section PipelineFacts.
Context {R : Type} `{Scalar R}.
Variable settings : Config.Settings.
Variable distance : list R -> list R -> R.
Variable embed_text : string -> result (list R).
Variable local_generate : gmap string string -> result string.
Variable openai_generate : gmap string string -> result string.
Variable gemini_generate : gmap string string -> result string.

#[local] Abbreviation pquery :=
  (RAGPipeline.query settings distance embed_text local_generate
     openai_generate gemini_generate).
#[local] Abbreviation psearch := (RAGPipeline.search settings distance).
#[local] Abbreviation pgenerate :=
  (Generator.generate local_generate openai_generate gemini_generate).

(** The call [generate(query=question, context=context)] on each class. *)
Lemma generate_query_context (g : Generator.Generator)
  (question context : string) :
  pgenerate g [("query", question); ("context", context)]
  = match g with
    | Generator.LocalLLM =>
      local_generate (<["query" := question]> (<["context" := context]> ∅))
    | Generator.OpenAI =>
      openai_generate (<["query" := question]> (<["context" := context]> ∅))
    | Generator.Gemini =>
      Raise (TypeError "GeminiGenerator.generate() got an unexpected keyword argument 'query'")
    end.
Proof. by destruct g. Qed.

Lemma pipeline_context_not_empty (self : RAGPipeline.t R)
  (docs : list (Dict R)) (context : string) :
  RAGPipeline.format_context self docs = Ok context ->
  context <> "" /\ (docs = [] -> context = "No relevant context found.").
Proof.
  unfold RAGPipeline.format_context. intros Hf. split.
  - intros ->. destruct (RAGPipeline.retriever self).
    + by apply local_format_context_not_empty in Hf.
    + by apply remote_format_context_not_empty in Hf.
  - intros ->. destruct (RAGPipeline.retriever self); by injection Hf.
Qed.

Lemma query_unfold (self : RAGPipeline.t R) (question : string)
  (top_k : option Z) (return_context : bool) :
  pquery self question top_k return_context
  = (query_embedding ← embed_text question;
     documents ← psearch self query_embedding top_k;
     context ← RAGPipeline.format_context self documents;
     text ← pgenerate (RAGPipeline.generator self)
              [("query", question); ("context", context)];
     mret (if return_context
           then RAGPipeline.WithContext text documents context
           else RAGPipeline.Answer text)).
Proof. done. Qed.

(** X11.  With the generator of the local or the OpenAI backend,
    [RAGPipeline.query] returns exactly when its four stages succeed in
    turn, and then returns the generator's answer to the call
    [generate(query=question, context=context)], where [context] is the
    formatted result of the search on the question's embedding: the
    context handed to the generator is never the empty string, and when
    the search finds nothing the generator is still asked, with the
    sentinel as context.  With [return_context] the answer comes with the
    documents and the context text.  When [query] raises, the exception
    is the one of the first stage that failed, unchanged. *)
Theorem pipeline_query_answers (self : RAGPipeline.t R) (question : string)
  (top_k : option Z) (return_context : bool) :
  RAGPipeline.generator self <> Generator.Gemini ->
  let body :=
    match RAGPipeline.generator self with
    | Generator.LocalLLM => local_generate
    | Generator.OpenAI => openai_generate
    | Generator.Gemini => gemini_generate
    end in
  (forall out,
     pquery self question top_k return_context = Ok out <->
     exists emb docs context text,
       embed_text question = Ok emb /\
       psearch self emb top_k = Ok docs /\
       RAGPipeline.format_context self docs = Ok context /\
       context <> "" /\
       (docs = [] -> context = "No relevant context found.") /\
       body (<["query" := question]> (<["context" := context]> ∅)) = Ok text /\
       out = if return_context
             then RAGPipeline.WithContext text docs context
             else RAGPipeline.Answer text) /\
  (forall e,
     pquery self question top_k return_context = Raise e ->
     embed_text question = Raise e \/
     exists emb, embed_text question = Ok emb /\
       (psearch self emb top_k = Raise e \/
        exists docs, psearch self emb top_k = Ok docs /\
          (RAGPipeline.format_context self docs = Raise e \/
           exists context,
             RAGPipeline.format_context self docs = Ok context /\
             body (<["query" := question]> (<["context" := context]> ∅))
             = Raise e))).
Proof.
  intros Hg body.
  assert (Hgen : forall context,
            pgenerate (RAGPipeline.generator self)
              [("query", question); ("context", context)]
            = body (<["query" := question]> (<["context" := context]> ∅))).
  { intros context. rewrite generate_query_context. unfold body.
    by destruct (RAGPipeline.generator self). }
  rewrite query_unfold. split.
  - intros out. split.
    + intros Hq.
      apply bind_Ok_inv in Hq as (emb & Hemb & Hq).
      apply bind_Ok_inv in Hq as (docs & Hdocs & Hq).
      apply bind_Ok_inv in Hq as (context & Hctx & Hq).
      apply bind_Ok_inv in Hq as (text & Htext & Hq).
      rewrite Hgen in Htext. injection Hq as <-.
      destruct (pipeline_context_not_empty self docs context Hctx)
        as [Hne Hnil].
      by exists emb, docs, context, text.
    + intros (emb & docs & context & text & Hemb & Hdocs & Hctx & _ & _
              & Htext & ->).
      rewrite Hemb, bind_Ok, Hdocs, bind_Ok, Hctx, bind_Ok, Hgen, Htext.
      done.
  - intros e Hq.
    destruct (embed_text question) as [emb|e1]; simpl in Hq;
      [|left; congruence].
    right. exists emb. split; [done|].
    destruct (psearch self emb top_k) as [docs|e2]; simpl in Hq;
      [|left; congruence].
    right. exists docs. split; [done|].
    destruct (RAGPipeline.format_context self docs) as [context|e3];
      simpl in Hq; [|left; congruence].
    right. exists context. split; [done|].
    rewrite Hgen in Hq.
    destruct (body _) as [text|e4]; simpl in Hq; [done|congruence].
Qed.

(** X12.  A pipeline whose generator is the one [get_generator] builds
    for MODEL_BACKEND = 'gemini' never answers: [query] calls
    [generate(query=..., context=...)], and [GeminiGenerator.generate]
    has the parameters [prompt] and [context], so whenever embedding,
    search and formatting succeed the call raises TypeError
    'GeminiGenerator.generate() got an unexpected keyword argument
    'query'', and the model is never asked; otherwise an earlier stage
    has raised. *)
Theorem pipeline_gemini_never_answers
  (local_llm_init : result unit) (openai_client gemini_model : string -> result unit)
  (app : AppSettings.t) (self : RAGPipeline.t R) (question : string)
  (top_k : option Z) (return_context : bool) :
  AppSettings.MODEL_BACKEND app = "gemini" ->
  Generator.get_generator local_llm_init openai_client gemini_model app
  = Ok (RAGPipeline.generator self) ->
  is_ok (pquery self question top_k return_context) = false /\
  (forall emb docs context,
     embed_text question = Ok emb ->
     psearch self emb top_k = Ok docs ->
     RAGPipeline.format_context self docs = Ok context ->
     pquery self question top_k return_context
     = Raise (TypeError "GeminiGenerator.generate() got an unexpected keyword argument 'query'")).
Proof.
  intros Hb Hget.
  assert (Hg : RAGPipeline.generator self = Generator.Gemini).
  { unfold Generator.get_generator, Generator.gemini_generator_init in Hget.
    rewrite Hb in Hget. simpl in Hget.
    destruct (String.eqb _ ""); [done|].
    destruct (gemini_model _); simpl in Hget; [|done].
    by injection Hget as <-. }
  rewrite query_unfold. split.
  - destruct (embed_text question) as [emb|]; simpl; [|done].
    destruct (psearch self emb top_k) as [docs|]; simpl; [|done].
    destruct (RAGPipeline.format_context self docs) as [context|]; simpl;
      [|done].
    by rewrite generate_query_context, Hg.
  - intros emb docs context Hemb Hdocs Hctx.
    rewrite Hemb, bind_Ok, Hdocs, bind_Ok, Hctx, bind_Ok.
    by rewrite generate_query_context, Hg.
Qed.

End PipelineFacts.

Lemma pipeline_query_answers_witness :
  RAGPipeline.query Scenario.settings Scenario.unit_distance
    Examples.embed_axis Examples.echo_context Examples.echo_context
    Examples.echo_context (Examples.pipeline Generator.LocalLLM)
    "which passage?" (Some 2) false
  = Ok (RAGPipeline.Answer (join newline ["- v1"; "- v3"])).
Proof.
  pose proof (pipeline_query_answers Scenario.settings Scenario.unit_distance
                Examples.embed_axis Examples.echo_context
                Examples.echo_context Examples.echo_context
                (Examples.pipeline Generator.LocalLLM) "which passage?"
                (Some 2) false) as Hthm.
  destruct Hthm as [Hok _]; [discriminate|].
  apply Hok.
  exists [1; 0]%Q,
         [<["id" := PInt 0]>
              (<["similarity" := PFloat 1%Q]> (Scenario.passage "v1" 1));
            <["id" := PInt 2]>
              (<["similarity" := PFloat (7 # 10)%Q]>
                 (Scenario.passage "v3" 3))],
         (join newline ["- v1"; "- v3"]), (join newline ["- v1"; "- v3"]).
  split; [reflexivity|]. split; [vm_compute; reflexivity|].
  split; [vm_compute; reflexivity|].
  split; [discriminate|]. split; [discriminate|].
  split; reflexivity.
Defined.

Lemma pipeline_gemini_never_answers_witness :
  AppSettings.validate Examples.app_settings_gemini = Ok true /\
  RAGPipeline.query Scenario.settings Scenario.unit_distance
    Examples.embed_axis Examples.echo_context Examples.echo_context
    Examples.echo_context (Examples.pipeline Generator.Gemini)
    "which passage?" (Some 2) true
  = Raise (TypeError "GeminiGenerator.generate() got an unexpected keyword argument 'query'").
Proof.
  split; [reflexivity|].
  destruct (pipeline_gemini_never_answers Scenario.settings
              Scenario.unit_distance Examples.embed_axis
              Examples.echo_context Examples.echo_context
              Examples.echo_context Examples.ready Examples.accepts
              Examples.accepts Examples.app_settings_gemini
              (Examples.pipeline Generator.Gemini) "which passage?" (Some 2)
              true eq_refl eq_refl) as [_ Hraise].
  eapply Hraise; [reflexivity | vm_compute; reflexivity | vm_compute; reflexivity].
Defined.

(** ** The chunks of a page *)

Lemma take_prefix_length {A} (n : nat) (l : list A) :
  take n l = take (length (take n l)) l.
Proof.
  rewrite length_take. destruct (decide (n <= length l)%nat).
  - by rewrite Nat.min_l.
  - rewrite Nat.min_r by lia. by rewrite !take_ge by lia.
Qed.

Lemma slice_to_prefix {A} (l : list A) (i : nat) (j : Z) :
  exists n, Ingest.slice_to l i j = take n (drop i l) /\
    (0 <= j -> n = (Z.to_nat j - i)%nat).
Proof.
  unfold Ingest.slice_to, slice. destruct (j <? 0) eqn:Hj.
  - eexists. split; [done|]. lia.
  - eexists. split; [done|]. done.
Qed.

Lemma slice_to_window {A} (l : list A) (i : nat) (n : Z) :
  0 <= n ->
  Ingest.slice_to l i (Z.of_nat i + n) = slice l i (i + Z.to_nat n).
Proof.
  intros Hn. unfold Ingest.slice_to.
  destruct (Z.of_nat i + n <? 0) eqn:Hj; [apply Z.ltb_lt in Hj; lia|].
  f_equal. lia.
Qed.

Lemma slice_window_nonempty {A} (l : list A) (i n : nat) :
  (i < length l)%nat -> (1 <= n)%nat -> slice l i (i + n) <> [].
Proof.
  intros Hi Hn. unfold slice. replace (i + n - i)%nat with n by lia.
  intros Heq. apply (f_equal length) in Heq.
  rewrite length_take, length_drop in Heq. simpl in Heq. lia.
Qed.

Section IngestFacts.
Variable split_sentences : string -> list string.
Variable token_count : string -> nat.

#[local] Abbreviation over := (Ingest.over_ceiling token_count).
#[local] Abbreviation enforce := (Ingest.enforce_ceiling token_count).
#[local] Abbreviation piece_of := (Ingest.piece_at token_count).
#[local] Abbreviation wins := (Ingest.windows token_count).

(** The inner loop ends with a non-empty prefix of the piece on which its
    condition fails. *)
Lemma enforce_ceiling_spec (fuel : nat) (max_tokens : Z)
  (piece : list string) :
  (length piece <= S fuel)%nat ->
  exists m, enforce fuel max_tokens piece = take m piece /\
    (m <= length piece)%nat /\ (piece <> [] -> (1 <= m)%nat) /\
    over max_tokens (take m piece) = false.
Proof.
  revert piece. induction fuel as [|fuel IH]; intros piece Hlen; simpl.
  - exists (length piece). rewrite take_ge by lia.
    repeat split; try done.
    + destruct piece; [done|simpl; lia].
    + unfold Ingest.over_ceiling.
      destruct (1 <? length piece)%nat eqn:E; [apply Nat.ltb_lt in E; lia|].
      by rewrite andb_false_r.
  - destruct (over max_tokens piece) eqn:Hc.
    + assert (Hl : (1 < length piece)%nat).
      { unfold Ingest.over_ceiling in Hc.
        apply andb_true_iff in Hc as [_ Hc]. by apply Nat.ltb_lt in Hc. }
      destruct (IH (take (length piece - 1) piece)) as (m & Hm & Hle & Hne & Ho).
      { rewrite length_take. lia. }
      rewrite length_take in Hle.
      rewrite take_take in Hm, Ho.
      replace (m `min` (length piece - 1))%nat with m in Hm, Ho by lia.
      exists m. repeat split; try done; [lia|].
      intros _. apply Hne. intros Heq. apply (f_equal length) in Heq.
      rewrite length_take in Heq. simpl in Heq. lia.
    + exists (length piece). rewrite take_ge by lia.
      repeat split; try done. destruct piece; [done|simpl; lia].
Qed.

Lemma enforce_ceiling_fits (fuel : nat) (max_tokens : Z)
  (piece : list string) :
  over max_tokens piece = false -> enforce fuel max_tokens piece = piece.
Proof. intros Ho. destruct fuel; simpl; [done|]. by rewrite Ho. Qed.

(** The sentences a window keeps: a prefix of the sentences from its
    position on, within the size of the window, on which the condition of
    the inner loop fails. *)
Lemma piece_at_spec (sents : list string) (spc max_tokens : Z) (i : nat) :
  let p := piece_of sents spc max_tokens i in
  p = take (length p) (drop i sents) /\
  (Ingest.slice_to sents i (Z.of_nat i + spc) <> [] -> (1 <= length p)%nat) /\
  (0 <= spc -> Z.of_nat (length p) <= spc) /\
  over max_tokens p = false.
Proof.
  unfold Ingest.piece_at.
  destruct (slice_to_prefix sents i (Z.of_nat i + spc)) as (n & Hn & Hspc).
  destruct (enforce_ceiling_spec
              (length (Ingest.slice_to sents i (Z.of_nat i + spc)))
              max_tokens (Ingest.slice_to sents i (Z.of_nat i + spc)))
    as (m & Hm & Hle & Hne & Ho); [lia|].
  cbv zeta. rewrite Hm. rewrite Hn in Hle |- *. rewrite take_take.
  split; [apply take_prefix_length|].
  split; [|split].
  - intros Hnil. rewrite Hn in Hne. specialize (Hne Hnil).
    rewrite length_take. rewrite length_take in Hle. lia.
  - intros Hs. rewrite length_take. rewrite Hspc by lia. lia.
  - by rewrite Hn, take_take in Ho.
Qed.

(** Every window the loop yields stands at a multiple of the step from
    its start, below the number of sentences, holds the sentences kept at
    that position, at least one, and passes the floor. *)
Lemma windows_elem (fuel : nat) (sents : list string) (spc : Z) (step : nat)
  (max_tokens min_tokens : Z) (i0 : nat) (w : nat * list string) :
  w ∈ wins fuel sents spc step max_tokens min_tokens i0 ->
  exists j, w.1 = (i0 + j * step)%nat /\ (w.1 < length sents)%nat /\
    w.2 = piece_of sents spc max_tokens w.1 /\ (1 <= length w.2)%nat /\
    min_tokens <= Z.of_nat (token_count (join " " w.2)).
Proof.
  revert i0. induction fuel as [|fuel IH]; intros i0; simpl.
  { by intros ?%elem_of_nil. }
  destruct (i0 <? length sents)%nat eqn:Hi; [|by intros ?%elem_of_nil].
  apply Nat.ltb_lt in Hi.
  destruct (Ingest.slice_to sents i0 (Z.of_nat i0 + spc)) as [|s0 rest] eqn:Hp;
    [by intros ?%elem_of_nil|].
  intros [Hw|Hw]%elem_of_app.
  - destruct (min_tokens <=? _) eqn:Hmin; [|by apply elem_of_nil in Hw].
    apply list_elem_of_singleton in Hw as ->. simpl.
    exists 0%nat. split; [lia|]. split; [done|]. split; [done|].
    split; [|lia].
    apply (piece_at_spec sents spc max_tokens i0). by rewrite Hp.
  - destruct (IH _ Hw) as (j & Hj & Hrest).
    exists (S j). split; [lia|done].
Qed.

Lemma windows_length (fuel : nat) (sents : list string) (spc : Z)
  (step : nat) (max_tokens min_tokens : Z) (i0 : nat) :
  (length (wins fuel sents spc step max_tokens min_tokens i0) <= fuel)%nat.
Proof.
  revert i0. induction fuel as [|fuel IH]; intros i0; simpl; [done|].
  destruct (i0 <? length sents)%nat; [|simpl; lia].
  destruct (Ingest.slice_to sents i0 (Z.of_nat i0 + spc)); [simpl; lia|].
  rewrite length_app. specialize (IH (i0 + step)%nat).
  destruct (min_tokens <=? _); simpl; lia.
Qed.

(** Without trimming and filtering the loop yields the full windows at
    the multiples of the step below the number of sentences. *)
Lemma windows_full (fuel : nat) (sents : list string) (spc : Z) (step : nat)
  (max_tokens min_tokens : Z) (i0 : nat) :
  1 <= spc -> (1 <= step)%nat ->
  (forall i, (i < length sents)%nat ->
     let chunk := join " " (slice sents i (i + Z.to_nat spc)) in
     (max_tokens = 0 \/ Z.of_nat (token_count chunk) <= max_tokens) /\
     min_tokens <= Z.of_nat (token_count chunk)) ->
  (length sents - i0 <= fuel)%nat ->
  exists n,
    wins fuel sents spc step max_tokens min_tokens i0
    = (fun j => ((i0 + j * step)%nat,
                 slice sents (i0 + j * step) (i0 + j * step + Z.to_nat spc)))
        <$> seq 0 n /\
    forall j, (j < n)%nat <-> (i0 + j * step < length sents)%nat.
Proof.
  intros Hspc Hstep Hfit. revert i0.
  induction fuel as [|fuel IH]; intros i0 Hfuel.
  { exists 0%nat. split; [done|]. intros j. split; [lia|]. nia. }
  simpl. destruct (i0 <? length sents)%nat eqn:Hi.
  - apply Nat.ltb_lt in Hi.
    assert (Hw : Ingest.slice_to sents i0 (Z.of_nat i0 + spc)
                 = slice sents i0 (i0 + Z.to_nat spc))
      by (apply slice_to_window; lia).
    assert (Hne : slice sents i0 (i0 + Z.to_nat spc) <> [])
      by (apply slice_window_nonempty; lia).
    destruct (Hfit i0 Hi) as [Hmax Hmin].
    assert (Hpiece : piece_of sents spc max_tokens i0
                     = slice sents i0 (i0 + Z.to_nat spc)).
    { unfold Ingest.piece_at. rewrite Hw. apply enforce_ceiling_fits.
      unfold Ingest.over_ceiling. destruct Hmax as [->|Hmax]; [done|].
      destruct (max_tokens <? _) eqn:E; [lia|]. by rewrite andb_false_r. }
    rewrite Hw. destruct (slice sents i0 (i0 + Z.to_nat spc)) eqn:Hs; [done|].
    rewrite Hpiece.
    destruct (min_tokens <=? _) eqn:E; [|lia].
    destruct (IH (i0 + step)%nat) as (n & Hn & Hjs); [lia|].
    exists (S n). split.
    + rewrite Hn. change (seq 0 (S n)) with (0%nat :: seq 1 n).
      rewrite fmap_cons, <- fmap_S_seq, <- list_fmap_compose.
      replace (i0 + 0 * step)%nat with i0 by lia. rewrite Hs.
      change ([(i0, s :: l)] ++ ?x)%list with ((i0, s :: l) :: x).
      f_equal. apply list_fmap_ext. intros _ j _. unfold compose.
      by replace (i0 + step + j * step)%nat with (i0 + S j * step)%nat
        by lia.
    + intros j. destruct j as [|j]; [split; lia|].
      rewrite <- Nat.succ_lt_mono, Hjs. simpl. lia.
  - apply Nat.ltb_ge in Hi. exists 0%nat. split; [done|].
    intros j. split; [lia|]. nia.
Qed.

End IngestFacts.

Lemma over_ceiling_false token_count (max_tokens : Z) (piece : list string) :
  Ingest.over_ceiling token_count max_tokens piece = false ->
  max_tokens = 0 \/
  Z.of_nat (token_count (join " " piece)) <= max_tokens \/
  (length piece <= 1)%nat.
Proof.
  unfold Ingest.over_ceiling. intros Ho.
  destruct (max_tokens =? 0) eqn:E0; [left; lia|].
  destruct (max_tokens <? Z.of_nat (token_count (join " " piece))) eqn:E1;
    [|right; left; lia].
  destruct (1 <? length piece)%nat eqn:E2; [done|].
  right. right. apply Nat.ltb_ge in E2. lia.
Qed.

Lemma step_of_positive (spc overlap : Z) : (1 <= Ingest.step_of spc overlap)%nat.
Proof. unfold Ingest.step_of. lia. Qed.

(** X13.  Every chunk that [chunk_page_by_sentences] yields is the
    sentences of a window joined by blanks: the window starts at a
    multiple of the step, holds at least one sentence and (for a
    non-negative [sents_per_chunk]) at most [sents_per_chunk], all
    consecutive sentences of the page; the chunk has at least
    [min_tokens] tokens; and it has at most [max_tokens] tokens unless
    [max_tokens] is 0 or the chunk is a single sentence, which is never
    cut.  A page yields at most as many chunks as it has sentences. *)
Theorem chunk_page_chunks_bounded (split_sentences : string -> list string)
  (token_count : string -> nat) (text : string)
  (sents_per_chunk overlap max_tokens min_tokens : Z) :
  let sents := split_sentences text in
  let step := Ingest.step_of sents_per_chunk overlap in
  let chunks :=
    Ingest.chunk_page_by_sentences split_sentences token_count text
      sents_per_chunk overlap max_tokens min_tokens in
  Forall
    (fun chunk =>
       exists j m : nat,
         (j * step < length sents)%nat /\ (1 <= m)%nat /\
         (j * step + m <= length sents)%nat /\
         (0 <= sents_per_chunk -> Z.of_nat m <= sents_per_chunk) /\
         chunk = join " " (take m (drop (j * step) sents)) /\
         min_tokens <= Z.of_nat (token_count chunk) /\
         (max_tokens = 0 \/ Z.of_nat (token_count chunk) <= max_tokens \/
          m = 1%nat))
    chunks /\
  (length chunks <= length sents)%nat.
Proof.
  intros sents step chunks. unfold chunks, Ingest.chunk_page_by_sentences.
  fold sents. split.
  - apply Forall_fmap, Forall_forall. intros w Hw. simpl.
    unfold Ingest.page_windows in Hw. fold sents step in Hw.
    apply windows_elem in Hw as (j & Hj & Hlt & Hpiece & Hone & Hmin).
    simpl in Hj.
    destruct (piece_at_spec token_count sents sents_per_chunk max_tokens w.1)
      as (Hpre & _ & Hspc & Ho).
    rewrite <- Hpiece in Hpre, Hspc, Ho.
    exists j, (length w.2). rewrite <- Hj.
    assert (Hfit : (length w.2 <= length sents - w.1)%nat).
    { apply (f_equal length) in Hpre.
      rewrite length_take, length_drop in Hpre. lia. }
    repeat split; try done; try lia.
    + f_equal. exact Hpre.
    + apply over_ceiling_false in Ho. lia.
  - rewrite length_fmap. apply windows_length.
Qed.

(** X14.  With at least one sentence a window, when no window exceeds
    the ceiling (or [max_tokens] is 0) and none is below the floor, the
    chunks are exactly the windows of [sents_per_chunk] sentences at the
    multiples of the step below the number of sentences, in order; and
    with a non-negative overlap every sentence of the page lies in one of
    them. *)
Theorem chunk_page_full_windows (split_sentences : string -> list string)
  (token_count : string -> nat) (text : string)
  (sents_per_chunk overlap max_tokens min_tokens : Z) :
  let sents := split_sentences text in
  let step := Ingest.step_of sents_per_chunk overlap in
  let window (j : nat) :=
    slice sents (j * step) (j * step + Z.to_nat sents_per_chunk) in
  1 <= sents_per_chunk ->
  (forall i, (i < length sents)%nat ->
     let chunk := join " " (slice sents i (i + Z.to_nat sents_per_chunk)) in
     (max_tokens = 0 \/ Z.of_nat (token_count chunk) <= max_tokens) /\
     min_tokens <= Z.of_nat (token_count chunk)) ->
  exists n,
    Ingest.chunk_page_by_sentences split_sentences token_count text
      sents_per_chunk overlap max_tokens min_tokens
    = (fun j => join " " (window j)) <$> seq 0 n /\
    (forall j, (j < n)%nat <-> (j * step < length sents)%nat) /\
    (0 <= overlap ->
     forall p, (p < length sents)%nat ->
       exists j, (j < n)%nat /\
         (j * step <= p < j * step + Z.to_nat sents_per_chunk)%nat).
Proof.
  intros sents step window Hspc Hfit.
  pose proof (step_of_positive sents_per_chunk overlap) as Hstep.
  fold step in Hstep.
  destruct (windows_full token_count (length sents) sents sents_per_chunk step
              max_tokens min_tokens 0 Hspc Hstep Hfit ltac:(lia))
    as (n & Hn & Hjs).
  exists n. split; [|split].
  - unfold Ingest.chunk_page_by_sentences, Ingest.page_windows.
    fold sents step. rewrite Hn, <- list_fmap_compose.
    apply list_fmap_ext. intros _ j _. done.
  - intros j. rewrite Hjs. done.
  - intros Hov p Hp.
    assert (Hle : (step <= Z.to_nat sents_per_chunk)%nat)
      by (unfold step, Ingest.step_of; lia).
    exists (p / step)%nat.
    pose proof (Nat.div_mod_eq p step) as Hdiv.
    pose proof (Nat.mod_upper_bound p step ltac:(lia)) as Hmod.
    split; [apply Hjs; simpl; nia | nia].
Qed.

Lemma chunk_page_full_windows_witness :
  Ingest.chunk_page_by_sentences Examples.four_sentences
    Examples.one_token_a_character "page" 3 1 0 0
  = ["a b c. d. e."; "e. f."].
Proof.
  destruct (chunk_page_full_windows Examples.four_sentences
              Examples.one_token_a_character "page" 3 1 0 0 ltac:(lia))
    as (n & Hchunks & Hn & _).
  { intros i _. split; [by left | lia]. }
  rewrite Hchunks.
  assert (n = 2%nat) as ->.
  { destruct (Hn 1%nat) as [_ H1]. destruct (Hn 2%nat) as [H2 _].
    assert (Hlo : (1 < n)%nat) by (apply H1; vm_compute; lia).
    assert (Hhi : ~ (2 < n)%nat)
      by (intros Hn2; apply H2 in Hn2; vm_compute in Hn2; lia).
    lia. }
  reflexivity.
Defined.

(** X15.  A window that the token ceiling cuts to fewer sentences than
    the step loses sentences: a sentence that lies behind what the window
    at [j * step] keeps, behind where the windows before it can reach,
    and before the next window, is in no chunk of the page. *)
Theorem chunk_page_cut_sentences_lost (split_sentences : string -> list string)
  (token_count : string -> nat) (text : string)
  (sents_per_chunk overlap max_tokens min_tokens : Z) (j p : nat) :
  let sents := split_sentences text in
  let step := Ingest.step_of sents_per_chunk overlap in
  let kept :=
    length (Ingest.piece_at token_count sents sents_per_chunk max_tokens
              (j * step)) in
  0 <= sents_per_chunk ->
  (j * step + kept <= p)%nat ->
  Z.of_nat (j * step) + sents_per_chunk - Z.of_nat step <= Z.of_nat p ->
  (p < j * step + step)%nat ->
  Forall (fun w : nat * list string => ~ (w.1 <= p < w.1 + length w.2)%nat)
    (Ingest.page_windows split_sentences token_count text sents_per_chunk
       overlap max_tokens min_tokens).
Proof.
  intros sents step kept Hspc Hkept Hreach Hnext.
  apply Forall_forall. intros w Hw.
  unfold Ingest.page_windows in Hw. fold sents step in Hw.
  apply windows_elem in Hw as (j' & Hj' & _ & Hpiece & _ & _).
  simpl in Hj'.
  destruct (piece_at_spec token_count sents sents_per_chunk max_tokens w.1)
    as (_ & _ & Hlen & _).
  rewrite <- Hpiece in Hlen. specialize (Hlen Hspc).
  intros [Hlo Hhi].
  destruct (lt_eq_lt_dec j' j) as [[Hlt|Heq]|Hgt].
  - assert ((j' * step + step <= j * step)%nat) by nia. lia.
  - subst j'. unfold kept in Hkept. rewrite <- Hj', <- Hpiece in Hkept. lia.
  - assert ((j * step + step <= j' * step)%nat) by nia. lia.
Qed.

(** Four sentences in windows of three with an overlap of one and a
    ceiling of eight tokens: the first window is cut to its first
    sentence, the next window starts at the third sentence, and the
    second sentence is in no chunk. *)
Lemma chunk_page_cut_sentences_lost_witness :
  Ingest.page_windows Examples.four_sentences Examples.one_token_a_character
    "page" 3 1 8 0
  = [(0%nat, ["a b c."]); (2%nat, ["e."; "f."])] /\
  Forall (fun w : nat * list string => ~ (w.1 <= 1 < w.1 + length w.2)%nat)
    (Ingest.page_windows Examples.four_sentences
       Examples.one_token_a_character "page" 3 1 8 0).
Proof.
  split; [reflexivity|].
  apply (chunk_page_cut_sentences_lost Examples.four_sentences
           Examples.one_token_a_character "page" 3 1 8 0 0 1);
    vm_compute; first [discriminate | lia].
Defined.
